(** * Groq to OpenAI-compatible proxy: request transformer, JSON extraction,
      response reconciler and streaming relay

    Shallow embedding of
    [samples/python/agents/langgraph/groq_wrapper_server.py].

    Conventions of the embedding.
    - A Python [str] is the list of its Unicode code points ([str]); the
      function [u] turns an ASCII literal into such a list.
    - The values that travel through the handler all come out of a JSON
      decoder, so one type [value] covers [None], [bool], [int], [float],
      [str], [list] and [dict].  A [dict] is an association list in insertion
      order.
    - A Python call either returns or raises: [outcome].  The third
      constructor [OutOfFuel] only exists because the JSON decoder recurses
      on its input with a fuel; [json_loads_total] shows it is never
      reached.
    - [json.loads], [json.dumps] and [bytes.decode] belong to the Python
      standard library, not to the repository.  They are embedded after
      CPython's [json.decoder], [json.scanner] and [json.encoder].  The
      decoder raises [ValueError] on an integer literal of more than 4300
      digits (the default of [sys.get_int_max_str_digits]) and
      [RecursionError] when arrays and objects are nested deeper than the
      interpreter lets it recurse.  Where the interpreter stops depends on
      its version and on the call stack, so that bound is a parameter,
      [depth], of [json_loads] and of all that decodes.  At the bound
      itself CPython may need one more frame to build the
      [JSONDecodeError] of a text it rejects and raise [RecursionError]
      instead; the statements that assert a rejection therefore ask for a
      depth greater than the number of opening brackets and braces.  The
      call stack of the encoder and the binary value of a float are
      outside the model, except for the two tests on floats the code
      depends on: whether one is zero and whether one is finite. *)

From Stdlib Require Import List ZArith NArith Bool String Ascii Lia.
From Stdlib Require Import DecimalString.
From ITree Require Import ITree ITreeFacts Events.State Events.StateFacts.
Import ListNotations.

Local Open Scope N_scope.

(** ** Text *)

Definition str := list N.

Definition u (s : string) : str := List.map N_of_ascii (list_ascii_of_string s).

(** Literals that hold double quotes are written with apostrophes in their
    place: [q "{'a':1}"] is the text [{"a":1}]. *)
Definition q (s : string) : str :=
  List.map (fun c => if c =? 39 then 34 else c) (u s).

Fixpoint str_eqb (a b : str) : bool :=
  match a, b with
  | [], [] => true
  | x :: a', y :: b' => (x =? y) && str_eqb a' b'
  | _, _ => false
  end.

(** [a in b] for two strings: substring test. *)
Fixpoint startswith (p s : str) : bool :=
  match p, s with
  | [], _ => true
  | x :: p', y :: s' => (x =? y) && startswith p' s'
  | _ :: _, [] => false
  end.

Fixpoint str_contains (needle hay : str) : bool :=
  startswith needle hay ||
  match hay with
  | [] => false
  | _ :: hay' => str_contains needle hay'
  end.

(** ** Values *)

(** A float is kept as the exact decimal the decoder hands to [float()]:
    sign, digits of the integer and fraction parts read as one number, and
    the power of ten.  The three non-finite constants are separate. *)
Inductive pyfloat : Type :=
| FDec (neg : bool) (m : N) (e : Z)
| FNaN
| FInf
| FNegInf.

#[warnings="-register-all"]
Inductive value : Type :=
| VNone
| VBool (b : bool)
| VInt (z : Z)
| VFloat (f : pyfloat)
| VStr (s : str)
| VList (l : list value)
| VDict (d : list (str * value)).

Definition dict := list (str * value).

(** Exceptions the embedded code can raise. *)
Inductive exn : Type :=
| KeyError (k : value)
| IndexError
| TypeError
| AttributeError
| StopIteration
| JSONDecodeError
| ValueError
| RecursionError
| UnicodeDecodeError
| UnicodeEncodeError
| HTTPException (status_code : Z) (detail : str).

Inductive outcome (A : Type) : Type :=
| Returns (a : A)
| Raises (e : exn)
| OutOfFuel.

Arguments Returns {A} a.
Arguments Raises {A} e.
Arguments OutOfFuel {A}.

Definition and_then {A B} (m : outcome A) (k : A -> outcome B) : outcome B :=
  match m with
  | Returns a => k a
  | Raises e => Raises e
  | OutOfFuel => OutOfFuel
  end.

Notation "x <- m ;; k" := (and_then m (fun x => k))
  (at level 61, m at next level, right associativity).
Notation "' p <- m ;; k" := (and_then m (fun x => let p := x in k))
  (at level 61, p pattern, m at next level, right associativity).

(** ** Dictionaries *)

Fixpoint dict_get (d : dict) (k : str) : option value :=
  match d with
  | [] => None
  | (k', v) :: d' => if str_eqb k' k then Some v else dict_get d' k
  end.

Definition dict_mem (d : dict) (k : str) : bool :=
  match dict_get d k with Some _ => true | None => false end.

(** [d[k] = v]: an existing key keeps its place, a new one goes last. *)
Fixpoint dict_set (d : dict) (k : str) (v : value) : dict :=
  match d with
  | [] => [(k, v)]
  | (k', v') :: d' =>
      if str_eqb k' k then (k', v) :: d' else (k', v') :: dict_set d' k v
  end.

(** [del d[k]] for a key that may be absent. *)
Fixpoint dict_del (d : dict) (k : str) : dict :=
  match d with
  | [] => []
  | (k', v') :: d' =>
      if str_eqb k' k then dict_del d' k else (k', v') :: dict_del d' k
  end.

(** [dict(pairs)] *)
Definition dict_of_pairs (pairs : list (str * value)) : dict :=
  fold_left (fun d kv => dict_set d (fst kv) (snd kv)) pairs [].

(** [d.pop(k, None)] returns the value and the dictionary without the key. *)
Definition dict_pop (d : dict) (k : str) : value * dict :=
  match dict_get d k with
  | Some v => (v, dict_del d k)
  | None => (VNone, d)
  end.

(** ** Truth value of an object *)

(** [float(lit) == 0.0]: the decimal [m * 10^e] rounds to zero exactly when
    it is at most [2^-1075], half of the least subnormal double. *)
Definition float_is_zero (f : pyfloat) : bool :=
  match f with
  | FDec _ m e =>
      if (0 <=? e)%Z then m =? 0
      else (m * 2 ^ 1075 <=? 10 ^ Z.to_N (- e))
  | _ => false
  end.

Definition truthy (v : value) : bool :=
  match v with
  | VNone => false
  | VBool b => b
  | VInt z => negb (z =? 0)%Z
  | VFloat f => negb (float_is_zero f)
  | VStr s => match s with [] => false | _ => true end
  | VList l => match l with [] => false | _ => true end
  | VDict d => match d with [] => false | _ => true end
  end.

(** ** [json.loads]

    The decoder works on the text that remains to be read; CPython's index
    [end] into [s] is the position where that remainder starts. *)

Module Ch.
Definition tab : N := 9.
Definition lf : N := 10.
Definition cr : N := 13.
Definition space : N := 32.
Definition dquote : N := 34.
Definition plus : N := 43.
Definition comma : N := 44.
Definition minus : N := 45.
Definition dot : N := 46.
Definition slash : N := 47.
Definition zero : N := 48.
Definition colon : N := 58.
Definition lbracket : N := 91.
Definition backslash : N := 92.
Definition rbracket : N := 93.
Definition lbrace : N := 123.
Definition rbrace : N := 125.
End Ch.

(** [WHITESPACE]: space, tab, line feed, carriage return. *)
Definition is_ws (c : N) : bool :=
  (c =? Ch.space) || (c =? Ch.tab) || (c =? Ch.lf) || (c =? Ch.cr).

Fixpoint skip_ws (s : str) : str :=
  match s with
  | c :: s' => if is_ws c then skip_ws s' else s
  | [] => []
  end.

Definition is_digit (c : N) : bool := (48 <=? c) && (c <=? 57).

Definition hex_digit (c : N) : option N :=
  if (48 <=? c) && (c <=? 57) then Some (c - 48)
  else if (97 <=? c) && (c <=? 102) then Some (c - 87)
  else if (65 <=? c) && (c <=? 70) then Some (c - 55)
  else None.

(** Four hexadecimal digits of a [\uXXXX] escape. *)
Definition hex4 (a b c d : N) : option N :=
  match hex_digit a, hex_digit b, hex_digit c, hex_digit d with
  | Some x, Some y, Some z, Some w => Some (((x * 16 + y) * 16 + z) * 16 + w)
  | _, _, _, _ => None
  end.

(** [BACKSLASH] of [json.decoder]. *)
Definition BACKSLASH (c : N) : option N :=
  if c =? Ch.dquote then Some Ch.dquote
  else if c =? Ch.backslash then Some Ch.backslash
  else if c =? Ch.slash then Some Ch.slash
  else if c =? 98 then Some 8
  else if c =? 102 then Some 12
  else if c =? 110 then Some 10
  else if c =? 114 then Some 13
  else if c =? 116 then Some 9
  else None.

Definition is_high_surrogate (c : N) : bool := (55296 <=? c) && (c <=? 56319).
Definition is_low_surrogate (c : N) : bool := (56320 <=? c) && (c <=? 57343).
Definition join_surrogates (hi lo : N) : N :=
  65536 + N.lor (N.shiftl (hi - 55296) 10) (lo - 56320).

Definition push (c : N) (r : outcome (str * str)) : outcome (str * str) :=
  '(chars, rest) <- r ;; Returns (c :: chars, rest).

(** [scanstring(s, end, strict=True)], entered after the opening quote:
    the decoded string and the text after the closing quote. *)
Fixpoint scanstring (s : str) : outcome (str * str) :=
  match s with
  | [] => Raises JSONDecodeError
  | c :: s1 =>
      if c =? Ch.dquote then Returns ([], s1)
      else if c =? Ch.backslash then
        match s1 with
        | [] => Raises JSONDecodeError
        | esc :: s2 =>
            if esc =? 117 then
              match s2 with
              | h1 :: h2 :: h3 :: h4 :: s6 =>
                  match hex4 h1 h2 h3 h4 with
                  | None => Raises JSONDecodeError
                  | Some uni =>
                      match s6 with
                      | b :: x :: g1 :: g2 :: g3 :: g4 :: s12 =>
                          if is_high_surrogate uni && (b =? Ch.backslash)
                             && (x =? 117)
                          then
                            match hex4 g1 g2 g3 g4 with
                            | None => Raises JSONDecodeError
                            | Some uni2 =>
                                if is_low_surrogate uni2
                                then push (join_surrogates uni uni2)
                                          (scanstring s12)
                                else push uni (scanstring s6)
                            end
                          else push uni (scanstring s6)
                      | _ => push uni (scanstring s6)
                      end
                  end
              | _ => Raises JSONDecodeError
              end
            else
              match BACKSLASH esc with
              | Some ch => push ch (scanstring s2)
              | None => Raises JSONDecodeError
              end
        end
      else if c <? 32 then Raises JSONDecodeError
      else push c (scanstring s1)
  end.

(** *** Numbers

    [NUMBER_RE] has three groups: an optional minus sign and an integer
    without leading zero, an optional fraction, an optional exponent. *)

Fixpoint span_digits (s : str) : str * str :=
  match s with
  | c :: s' =>
      if is_digit c then let (ds, r) := span_digits s' in (c :: ds, r)
      else ([], s)
  | [] => ([], [])
  end.

Definition digits_val (ds : str) : N :=
  fold_left (fun a c => a * 10 + (c - 48)) ds 0.

(** Group 1 without its sign: a single 0, or a non-zero digit and digits. *)
Definition match_integer (s : str) : option (str * str) :=
  match s with
  | c :: s1 =>
      if c =? Ch.zero then Some ([c], s1)
      else if is_digit c then
        let (ds, r) := span_digits s1 in Some (c :: ds, r)
      else None
  | [] => None
  end.

(** Group 2: a dot and at least one digit; the digits are returned. *)
Definition match_frac (s : str) : str * str :=
  match s with
  | c :: s1 =>
      if c =? Ch.dot then
        match span_digits s1 with
        | ([], _) => ([], s)
        | (fs, r) => (fs, r)
        end
      else ([], s)
  | [] => ([], s)
  end.

(** Group 3: e or E, an optional sign and at least one digit; the exponent
    is returned as a number. *)
Definition match_exp (s : str) : option Z * str :=
  match s with
  | c :: s1 =>
      if (c =? 101) || (c =? 69) then
        let '(neg, s2) :=
          match s1 with
          | sg :: s1' =>
              if sg =? Ch.minus then (true, s1')
              else if sg =? Ch.plus then (false, s1')
              else (false, s1)
          | [] => (false, s1)
          end in
        match span_digits s2 with
        | ([], _) => (None, s)
        | (es, r) =>
            let n := Z.of_N (digits_val es) in
            (Some (if neg then (- n)%Z else n), r)
        end
      else (None, s)
  | [] => (None, s)
  end.

(** [sys.get_int_max_str_digits()], by default. *)
Definition int_max_str_digits : nat := 4300.

(** [parse_int = int]: the conversion of a literal with more digits than
    the limit raises [ValueError]. *)
Definition parse_int (neg : bool) (integer : str) : outcome value :=
  if (int_max_str_digits <? List.length integer)%nat then Raises ValueError
  else
    let n := Z.of_N (digits_val integer) in
    Returns (VInt (if neg then (- n)%Z else n)).

(** [parse_float = float], which has no such limit. *)
Definition parse_float (neg : bool) (integer frac : str) (exp : option Z)
  : value :=
  let e := match exp with Some e => e | None => 0%Z end in
  VFloat (FDec neg (digits_val (integer ++ frac))
               (e - Z.of_nat (List.length frac))).

(** [match_number(string, idx)] followed by [parse_int] or [parse_float]:
    what the conversion gives and the text after the match. *)
Definition match_number (s : str) : option (outcome value * str) :=
  let '(neg, s0) :=
    match s with
    | c :: s' => if c =? Ch.minus then (true, s') else (false, s)
    | [] => (false, s)
    end in
  match match_integer s0 with
  | None => None
  | Some (integer, s1) =>
      let '(frac, s2) := match_frac s1 in
      let '(exp, s3) := match_exp s2 in
      match frac, exp with
      | [], None => Some (parse_int neg integer, s3)
      | _, _ => Some (Returns (parse_float neg integer frac exp), s3)
      end
  end.

(** *** Arrays and objects

    [JSONArray] and [JSONObject] receive [scan_once] as an argument, as in
    [json.decoder]; both turn its [StopIteration] into [JSONDecodeError].
    The [while True] loops run on a fuel [n]. *)

Section Containers.

Variable scan_once : str -> outcome (value * str).

Definition expecting_value (s : str) : outcome (value * str) :=
  match scan_once s with
  | Raises StopIteration => Raises JSONDecodeError
  | r => r
  end.

Fixpoint JSONArray_loop (n : nat) (s : str) (values : list value)
  : outcome (value * str) :=
  match n with
  | O => OutOfFuel
  | S n' =>
      '(v, s1) <- expecting_value s ;;
      let values := values ++ [v] in
      match skip_ws s1 with
      | c :: s2 =>
          if c =? Ch.rbracket then Returns (VList values, s2)
          else if c =? Ch.comma then JSONArray_loop n' (skip_ws s2) values
          else Raises JSONDecodeError
      | [] => Raises JSONDecodeError
      end
  end.

Definition JSONArray (n : nat) (s : str) : outcome (value * str) :=
  match skip_ws s with
  | c :: s1 =>
      if c =? Ch.rbracket then Returns (VList [], s1)
      else JSONArray_loop n (c :: s1) []
  | [] => JSONArray_loop n [] []
  end.

Fixpoint JSONObject_loop (n : nat) (s : str) (pairs : list (str * value))
  : outcome (value * str) :=
  match n with
  | O => OutOfFuel
  | S n' =>
      '(key, s1) <- scanstring s ;;
      match skip_ws s1 with
      | c :: s2 =>
          if c =? Ch.colon then
            '(v, s3) <- expecting_value (skip_ws s2) ;;
            let pairs := pairs ++ [(key, v)] in
            match skip_ws s3 with
            | c' :: s4 =>
                if c' =? Ch.rbrace then Returns (VDict (dict_of_pairs pairs), s4)
                else if c' =? Ch.comma then
                  match skip_ws s4 with
                  | q :: s5 =>
                      if q =? Ch.dquote then JSONObject_loop n' s5 pairs
                      else Raises JSONDecodeError
                  | [] => Raises JSONDecodeError
                  end
                else Raises JSONDecodeError
            | [] => Raises JSONDecodeError
            end
          else Raises JSONDecodeError
      | [] => Raises JSONDecodeError
      end
  end.

Definition JSONObject (n : nat) (s : str) : outcome (value * str) :=
  match skip_ws s with
  | c :: s1 =>
      if c =? Ch.rbrace then Returns (VDict [], s1)
      else if c =? Ch.dquote then JSONObject_loop n s1 []
      else Raises JSONDecodeError
  | [] => Raises JSONDecodeError
  end.

End Containers.

(** *** The scanner *)

Definition drop_prefix (p s : str) : option str :=
  if startswith p s then Some (skipn (List.length p) s) else None.

(** [_scan_once(string, idx)] of [json.scanner].  [depth] is the number
    of arrays and objects inside one another that the interpreter still
    lets the scanner enter: the guard of its recursion raises
    [RecursionError] on the next one. *)
Fixpoint scan_once (fuel : nat) (depth : nat) (s : str)
  : outcome (value * str) :=
  match fuel with
  | O => OutOfFuel
  | S f =>
      match s with
      | [] => Raises StopIteration
      | c :: s1 =>
          if c =? Ch.dquote then
            '(chars, rest) <- scanstring s1 ;; Returns (VStr chars, rest)
          else if c =? Ch.lbrace then
            match depth with
            | O => Raises RecursionError
            | S d => JSONObject (scan_once f d) f s1
            end
          else if c =? Ch.lbracket then
            match depth with
            | O => Raises RecursionError
            | S d => JSONArray (scan_once f d) f s1
            end
          else
            match drop_prefix (u "null") s, drop_prefix (u "true") s,
                  drop_prefix (u "false") s with
            | Some r, _, _ => Returns (VNone, r)
            | _, Some r, _ => Returns (VBool true, r)
            | _, _, Some r => Returns (VBool false, r)
            | _, _, _ =>
                match match_number s with
                | Some (number, rest) => v <- number ;; Returns (v, rest)
                | None =>
                    match drop_prefix (u "NaN") s,
                          drop_prefix (u "Infinity") s,
                          drop_prefix (u "-Infinity") s with
                    | Some r, _, _ => Returns (VFloat FNaN, r)
                    | _, Some r, _ => Returns (VFloat FInf, r)
                    | _, _, Some r => Returns (VFloat FNegInf, r)
                    | _, _, _ => Raises StopIteration
                    end
                end
            end
      end
  end.

(** [JSONDecoder.raw_decode] and [JSONDecoder.decode]; [json.loads] on a
    [str] is [decode]. *)
Definition raw_decode (depth : nat) (s : str) : outcome (value * str) :=
  expecting_value (scan_once (S (List.length s)) depth) s.

Definition json_loads (depth : nat) (s : str) : outcome value :=
  '(obj, rest) <- raw_decode depth (skip_ws s) ;;
  match skip_ws rest with
  | [] => Returns obj
  | _ :: _ => Raises JSONDecodeError
  end.

(** ** [json.dumps(obj, separators=(",", ":"))]

    Defaults of [json.dumps]: [ensure_ascii=True], [allow_nan=True], no
    indentation, keys in dictionary order.  The text of a finite float is
    [float.__repr__], which is a parameter of the encoder. *)

Section Encoder.

Variable float_repr : bool -> N -> Z -> str.

Definition hex_char (d : N) : N := if d <? 10 then 48 + d else 87 + d.

(** The six characters of a [\uXXXX] escape, in lower case. *)
Definition u_escape (n : N) : str :=
  [Ch.backslash; 117; hex_char (n / 4096 mod 16); hex_char (n / 256 mod 16);
   hex_char (n / 16 mod 16); hex_char (n mod 16)].

(** [ESCAPE_DCT] and the [replace] function of
    [py_encode_basestring_ascii]. *)
Definition escape_char (c : N) : str :=
  if c =? Ch.backslash then [Ch.backslash; Ch.backslash]
  else if c =? Ch.dquote then [Ch.backslash; Ch.dquote]
  else if c =? 8 then [Ch.backslash; 98]
  else if c =? 12 then [Ch.backslash; 102]
  else if c =? 10 then [Ch.backslash; 110]
  else if c =? 13 then [Ch.backslash; 114]
  else if c =? 9 then [Ch.backslash; 116]
  else if (32 <=? c) && (c <=? 126) then [c]
  else if c <? 65536 then u_escape c
  else
    let n := c - 65536 in
    u_escape (N.lor 55296 (N.land (N.shiftr n 10) 1023))
    ++ u_escape (N.lor 56320 (N.land n 1023)).

Definition encode_basestring_ascii (s : str) : str :=
  [Ch.dquote] ++ flat_map escape_char s ++ [Ch.dquote].

(** [int.__repr__] *)
Definition int_repr (z : Z) : str :=
  match z with
  | Z0 => u "0"
  | Zpos p => u (NilEmpty.string_of_uint (Pos.to_uint p))
  | Zneg p => Ch.minus :: u (NilEmpty.string_of_uint (Pos.to_uint p))
  end.

(** [floatstr] of [json.encoder]. *)
Definition floatstr (f : pyfloat) : str :=
  match f with
  | FNaN => u "NaN"
  | FInf => u "Infinity"
  | FNegInf => u "-Infinity"
  | FDec neg m e => float_repr neg m e
  end.

Fixpoint json_dumps (v : value) : str :=
  match v with
  | VNone => u "null"
  | VBool true => u "true"
  | VBool false => u "false"
  | VInt z => int_repr z
  | VFloat f => floatstr f
  | VStr s => encode_basestring_ascii s
  | VList l =>
      [Ch.lbracket]
      ++ (fix items (l : list value) : str :=
            match l with
            | [] => []
            | x :: l' =>
                json_dumps x
                ++ match l' with [] => [] | _ :: _ => Ch.comma :: items l' end
            end) l
      ++ [Ch.rbracket]
  | VDict d =>
      [Ch.lbrace]
      ++ (fix items (d : list (str * value)) : str :=
            match d with
            | [] => []
            | (k, x) :: d' =>
                encode_basestring_ascii k ++ [Ch.colon] ++ json_dumps x
                ++ match d' with [] => [] | _ :: _ => Ch.comma :: items d' end
            end) d
      ++ [Ch.rbrace]
  end.

End Encoder.

(** ** [bytes.decode()]: strict UTF-8 *)

Definition bytes := list N.

Definition is_cont (b : N) : bool := (128 <=? b) && (b <=? 191).
Definition between (lo b hi : N) : bool := (lo <=? b) && (b <=? hi).

Fixpoint utf8_decode (bs : bytes) : outcome str :=
  match bs with
  | [] => Returns []
  | b0 :: r0 =>
      if b0 <? 128 then cs <- utf8_decode r0 ;; Returns (b0 :: cs)
      else if between 194 b0 223 then
        match r0 with
        | b1 :: r1 =>
            if is_cont b1 then
              cs <- utf8_decode r1 ;;
              Returns (((b0 - 192) * 64 + (b1 - 128)) :: cs)
            else Raises UnicodeDecodeError
        | _ => Raises UnicodeDecodeError
        end
      else if between 224 b0 239 then
        match r0 with
        | b1 :: b2 :: r2 =>
            if between (if b0 =? 224 then 160 else 128) b1
                       (if b0 =? 237 then 159 else 191)
               && is_cont b2 then
              cs <- utf8_decode r2 ;;
              Returns ((((b0 - 224) * 64 + (b1 - 128)) * 64 + (b2 - 128)) :: cs)
            else Raises UnicodeDecodeError
        | _ => Raises UnicodeDecodeError
        end
      else if between 240 b0 244 then
        match r0 with
        | b1 :: b2 :: b3 :: r3 =>
            if between (if b0 =? 240 then 144 else 128) b1
                       (if b0 =? 244 then 143 else 191)
               && is_cont b2 && is_cont b3 then
              cs <- utf8_decode r3 ;;
              Returns (((((b0 - 240) * 64 + (b1 - 128)) * 64 + (b2 - 128)) * 64
                    + (b3 - 128)) :: cs)
            else Raises UnicodeDecodeError
        | _ => Raises UnicodeDecodeError
        end
      else Raises UnicodeDecodeError
  end.

(** ** Operations on objects of unknown type

    The handler probes decoded JSON without checking its shape; what Python
    does on each kind of object is written out. *)

(** [v == s] for a string [s]. *)
Definition eq_str (v : value) (s : str) : bool :=
  match v with
  | VStr s' => str_eqb s' s
  | _ => false
  end.

(** [v.get(k, default)]: only a [dict] has the method. *)
Definition py_get (v : value) (k : str) (default : value) : outcome value :=
  match v with
  | VDict d =>
      Returns (match dict_get d k with Some x => x | None => default end)
  | _ => Raises AttributeError
  end.

(** [k in v] for a string [k]. *)
Definition py_contains (k : str) (v : value) : outcome bool :=
  match v with
  | VDict d => Returns (dict_mem d k)
  | VStr s => Returns (str_contains k s)
  | VList l => Returns (existsb (fun x => eq_str x k) l)
  | _ => Raises TypeError
  end.

(** [v[k]] for a string [k]. *)
Definition py_getitem (v : value) (k : str) : outcome value :=
  match v with
  | VDict d =>
      match dict_get d k with
      | Some x => Returns x
      | None => Raises (KeyError (VStr k))
      end
  | _ => Raises TypeError
  end.

(** [v[0]] *)
Definition py_getitem0 (v : value) : outcome value :=
  match v with
  | VList (x :: _) => Returns x
  | VList [] => Raises IndexError
  | VStr (c :: _) => Returns (VStr [c])
  | VStr [] => Raises IndexError
  | VDict _ => Raises (KeyError (VInt 0))
  | _ => Raises TypeError
  end.

(** [v.setdefault(k, {})]: the object after the call and the value
    returned. *)
Definition py_setdefault (v : value) (k : str) : outcome (value * value) :=
  match v with
  | VDict d =>
      match dict_get d k with
      | Some x => Returns (v, x)
      | None => Returns (VDict (dict_set d k (VDict [])), VDict [])
      end
  | _ => Raises AttributeError
  end.

(** [v.update(other)] for a dictionary [other]. *)
Definition py_update (v : value) (other : dict) : outcome value :=
  match v with
  | VDict d =>
      Returns (VDict (fold_left (fun d kv => dict_set d (fst kv) (snd kv)) other d))
  | _ => Raises AttributeError
  end.

(** ** The proxy *)

Definition _SCHEMA_PROMPT : str :=
  q "You MUST reply with pure JSON **only** (no markdown). "
  ++ q "If you cannot, reply with {'status':'error','message':'Unable to comply'}.".

Module K.
Definition response_format := u "response_format".
Definition type := u "type".
Definition json_schema := u "json_schema".
Definition messages := u "messages".
Definition role := u "role".
Definition content := u "content".
Definition system := u "system".
Definition stream := u "stream".
Definition choices := u "choices".
Definition message := u "message".
Definition tool_calls := u "tool_calls".
Definition function_call := u "function_call".
Definition additional_kwargs := u "additional_kwargs".
Definition parsed := u "parsed".
Definition refusal := u "refusal".
Definition status := u "status".
Definition error := u "error".
End K.

Section Transformer.

Variable float_repr : bool -> N -> Z -> str.

(** The instruction of the schema branch, an f-string. *)
Definition schema_instruction (schema : str) : str :=
  _SCHEMA_PROMPT ++ u " The response MUST validate against this schema:"
  ++ [Ch.lf] ++ schema.

(** [_inject_json_schema_prompt(payload)] mutates [payload] in place and
    returns [None]: the result is the dictionary as the call leaves it,
    also when it raises, and how the call ends. *)
Definition _inject_json_schema_prompt (payload : dict)
  : dict * outcome unit :=
  let '(rf, payload) := dict_pop payload K.response_format in
  if negb (truthy rf) then (payload, Returns tt)
  else
    let instruction :=
      ty <- py_get rf K.type VNone ;;
      if eq_str ty (u "schemajson_") then
        sch <- py_getitem rf K.json_schema ;;
        Returns (schema_instruction (json_dumps float_repr sch))
      else Returns _SCHEMA_PROMPT in
    match instruction with
    | Returns instruction =>
        match dict_get payload K.messages with
        | None => (payload, Raises (KeyError (VStr K.messages)))
        | Some (VList msgs) =>
            let system_msg :=
              VDict [(K.role, VStr K.system);
                     (K.content, VStr instruction)] in
            (dict_set payload K.messages (VList ([system_msg] ++ msgs)),
             Returns tt)
        | Some _ => (payload, Raises TypeError)
        end
    | Raises e => (payload, Raises e)
    | OutOfFuel => (payload, OutOfFuel)
    end.

End Transformer.

(** [_JSON_RE = re.compile(r"\{.*?\}", re.S)]: an opening brace, as few
    characters of any kind as possible, a closing brace. *)

(** The lazy part and the closing brace, tried at one position: the text up
    to and including the first closing brace. *)
Fixpoint lazy_to_rbrace (s : str) : option str :=
  match s with
  | [] => None
  | c :: s' =>
      if c =? Ch.rbrace then Some [c]
      else option_map (cons c) (lazy_to_rbrace s')
  end.

(** [_JSON_RE.search(blob)] tries the start positions from left to right
    and returns [match.group(0)] of the first that matches. *)
Fixpoint _JSON_RE_search (blob : str) : option str :=
  match blob with
  | [] => None
  | c :: blob' =>
      if c =? Ch.lbrace then
        match lazy_to_rbrace blob' with
        | Some m => Some (c :: m)
        | None => _JSON_RE_search blob'
        end
      else _JSON_RE_search blob'
  end.

(** [_extract_first_json(blob)]; Python's [None] is [VNone].  Only
    [JSONDecodeError] is caught. *)
Definition _extract_first_json (depth : nat) (blob : str) : outcome value :=
  match _JSON_RE_search blob with
  | None => Returns VNone
  | Some group0 =>
      match json_loads depth group0 with
      | Raises JSONDecodeError => Returns VNone
      | r => r
      end
  end.

(** [_unpack_content(choice)] *)
Definition _unpack_content (choice : value) : outcome value :=
  msg <- py_get choice K.message (VDict []) ;;
  has_content <- py_contains K.content msg ;;
  if has_content then py_getitem msg K.content
  else
    has_tool_calls <- py_contains K.tool_calls msg ;;
    if has_tool_calls then py_getitem msg K.tool_calls
    else
      has_function_call <- py_contains K.function_call msg ;;
      if has_function_call then py_getitem msg K.function_call
      else Returns VNone.

(** ** Streaming

    An asynchronous generator talks to two parties: it asks the upstream
    iterator for the next chunk and hands a chunk to whoever consumes it.
    It is an interaction tree over these events. *)
Variant streamE : Type -> Type :=
| Connect (body : dict) : streamE unit
| Next : streamE (option bytes)
| Yield (chunk : bytes) : streamE unit.

(** [async for chunk in resp.aiter_bytes(): yield chunk] *)
Definition _relay_stream : itree streamE unit :=
  ITree.iter
    (fun _ : unit =>
       ITree.bind (ITree.trigger Next)
         (fun r => match r with
                   | Some chunk =>
                       ITree.bind (ITree.trigger (Yield chunk))
                         (fun _ => Ret (inl tt))
                   | None => Ret (inr tt)
                   end)) tt.

(** The inner generator [relay()] of [chat_completions]: open the upstream
    call with the request body, then the same loop. *)
Definition relay (body : dict) : itree streamE unit :=
  ITree.bind (ITree.trigger (Connect body)) (fun _ => _relay_stream).

(** What passes over the wire, in order: a chunk got from the upstream, a
    chunk put to the caller. *)
Variant io : Type :=
| Got (chunk : bytes)
| Put (chunk : bytes).

(** The world around the generator: request bodies the upstream has
    received, chunks it has still to deliver, and the log of the wire. *)
Record wire : Type := Wire {
  sent : list dict;
  pending : list bytes;
  log : list io
}.

Definition h_stream : streamE ~> Monads.stateT wire (itree void1) :=
  fun _ e w =>
    match e with
    | Connect body =>
        Ret (Wire (sent w ++ [body]) (pending w) (log w), tt)
    | Next =>
        match pending w with
        | [] => Ret (w, None)
        | chunk :: rest =>
            Ret (Wire (sent w) rest (log w ++ [Got chunk]), Some chunk)
        end
    | Yield chunk =>
        Ret (Wire (sent w) (pending w) (log w ++ [Put chunk]), tt)
    end.

Definition received (l : list io) : list bytes :=
  flat_map (fun e => match e with Got c => [c] | Put _ => [] end) l.

Definition emitted (l : list io) : list bytes :=
  flat_map (fun e => match e with Put c => [c] | Got _ => [] end) l.

(** The log of a relay without buffering: every chunk is put right after
    it was got. *)
Definition lockstep (chunks : list bytes) : list io :=
  flat_map (fun c => [Got c; Put c]) chunks.

(** ** The endpoint *)

(** An [httpx.Response], given by what the three members used return. *)
Record Response : Type := {
  status_code : Z;
  aread : bytes;
  json : outcome value
}.

Inductive reply : Type :=
| StreamingResponse (content : itree streamE unit) (media_type : str)
    (status : Z)
| JSONResponse (content : value) (status : Z).

Definition refusal_error : value :=
  VDict [(K.status, VStr K.error);
         (u "message", VStr (u "LLM did not return standalone JSON"))].

Definition is_none (v : value) : bool :=
  match v with VNone => true | _ => false end.

(** The sync mode of [chat_completions], from [data = resp.json()] on.
    [choice0] is an alias of [data["choices"][0]]: what is written through
    it is written into [data]. *)
Definition reconcile (depth : nat) (body : dict) (data : value)
  : outcome value :=
  choices <- py_getitem data K.choices ;;
  choice0 <- py_getitem0 choices ;;
  raw_content <- _unpack_content choice0 ;;
  parsed <- match raw_content with
            | VStr blob => _extract_first_json depth blob
            | _ => Returns VNone
            end ;;
  let refusal :=
    if truthy (match dict_get body K.response_format with
               | Some rf => rf
               | None => VNone
               end) && is_none parsed
    then refusal_error else VNone in
  '(choice0, message) <- py_setdefault choice0 K.message ;;
  '(message, kwargs) <- py_setdefault message K.additional_kwargs ;;
  kwargs <- py_update kwargs [(K.parsed, parsed); (K.refusal, refusal)] ;;
  message <- py_update message [(K.additional_kwargs, kwargs)] ;;
  choice0 <- py_update choice0 [(K.message, message)] ;;
  match data, choices with
  | VDict d, VList (_ :: rest) =>
      Returns (VDict (dict_set d K.choices (VList (choice0 :: rest))))
  | _, _ => Raises TypeError
  end.

(** [JSONResponse(content=data)] renders its body at once, with
    [json.dumps(content, ensure_ascii=False, allow_nan=False, ...)] and
    [.encode("utf-8")]: a float that is not finite, or an [int] of more
    digits than [int_max_str_digits], makes the first raise [ValueError];
    a surrogate code point in a string or a key makes the second raise
    [UnicodeEncodeError].  The bytes themselves are not needed here. *)

(** [float(lit)] is finite: a decimal rounds to infinity from
    [2^1024 - 2^970] on, half-way between the greatest double and
    [2^1024]. *)
Definition float_is_finite (f : pyfloat) : bool :=
  match f with
  | FDec _ m e =>
      if (0 <=? e)%Z then m * 10 ^ Z.to_N e <? 2 ^ 1024 - 2 ^ 970
      else m <? (2 ^ 1024 - 2 ^ 970) * 10 ^ Z.to_N (- e)
  | _ => false
  end.

(** [int.__repr__] writes an [int] of at most [int_max_str_digits]
    digits. *)
Definition int_is_short (z : Z) : bool :=
  (Z.abs z <? 10 ^ Z.of_nat int_max_str_digits)%Z.

Fixpoint numbers_render (v : value) : bool :=
  match v with
  | VInt z => int_is_short z
  | VFloat f => float_is_finite f
  | VList l =>
      (fix all (l : list value) : bool :=
         match l with
         | [] => true
         | x :: l' => numbers_render x && all l'
         end) l
  | VDict d =>
      (fix all (d : list (str * value)) : bool :=
         match d with
         | [] => true
         | (_, x) :: d' => numbers_render x && all d'
         end) d
  | _ => true
  end.

Definition is_surrogate (c : N) : bool := (55296 <=? c) && (c <=? 57343).

Definition str_encodable (s : str) : bool :=
  forallb (fun c => negb (is_surrogate c)) s.

Fixpoint all_encodable (v : value) : bool :=
  match v with
  | VStr s => str_encodable s
  | VList l =>
      (fix all (l : list value) : bool :=
         match l with
         | [] => true
         | x :: l' => all_encodable x && all l'
         end) l
  | VDict d =>
      (fix all (d : list (str * value)) : bool :=
         match d with
         | [] => true
         | (k, x) :: d' => str_encodable k && all_encodable x && all d'
         end) d
  | _ => true
  end.

Definition render (content : value) : outcome unit :=
  if negb (numbers_render content) then Raises ValueError
  else if negb (all_encodable content) then Raises UnicodeEncodeError
  else Returns tt.

Section Endpoint.

Variable float_repr : bool -> N -> Z -> str.

(** The depth to which the interpreter lets the decoder recurse. *)
Variable depth : nat.

(** [client.post(url, headers=headers, json=body)]: the upstream's answer
    to a request body. *)
Variable post : dict -> Response.

Definition event_stream : str := u "text/event-stream".

(** [chat_completions(request)], from the decoded request body on. *)
Definition chat_completions (request_json : value) : outcome reply :=
  stream_flag <- py_get request_json K.stream (VBool false) ;;
  let stream := truthy stream_flag in
  match request_json with
  | VDict body =>
      let '(body, injected) := _inject_json_schema_prompt float_repr body in
      _ <- injected ;;
      if stream then
        Returns (StreamingResponse (relay body) event_stream 200)
      else
        let resp := post body in
        if negb (status_code resp =? 200)%Z then
          detail <- utf8_decode (aread resp) ;;
          Raises (HTTPException (status_code resp) detail)
        else if stream then
          Returns (StreamingResponse _relay_stream event_stream 200)
        else
          data <- json resp ;;
          data <- reconcile depth body data ;;
          _ <- render data ;;
          Returns (JSONResponse data 200)
  | _ => Raises AttributeError
  end.

End Endpoint.

(** Reading the augmented reply: [choices[0].message.additional_kwargs[k]]. *)
Definition additional_kwarg (data : value) (k : str) : outcome value :=
  choices <- py_getitem data K.choices ;;
  choice0 <- py_getitem0 choices ;;
  message <- py_getitem choice0 K.message ;;
  kwargs <- py_getitem message K.additional_kwargs ;;
  py_getitem kwargs k.

(** * Vocabulary of the statements *)

(** ** The request transformer *)

Definition system_message (instruction : str) : value :=
  VDict [(K.role, VStr K.system); (K.content, VStr instruction)].

(** The value [payload.pop("response_format", None)] yields. *)
Definition requested_format (payload : dict) : value :=
  match dict_get payload K.response_format with
  | Some rf => rf
  | None => VNone
  end.

(** The requests below hold no float: any [float.__repr__] will do. *)
Definition float_repr_unused : bool -> N -> Z -> str := fun _ _ _ => [].

Definition user_message : value :=
  VDict [(K.role, VStr (u "user")); (K.content, VStr (u "hi"))].

Definition object_schema : value := VDict [(K.type, VStr (u "object"))].

(** A request with [response_format = {"type": "json_object"}]. *)
Definition json_object_request : dict :=
  [(u "model", VStr (u "llama3"));
   (K.messages, VList [user_message]);
   (K.stream, VBool false);
   (K.response_format, VDict [(K.type, VStr (u "json_object"))])].

(** A request with [response_format = {"type": "json_schema",
    "json_schema": {"type": "object"}}]. *)
Definition json_schema_request : dict :=
  [(u "model", VStr (u "llama3"));
   (K.messages, VList [user_message]);
   (K.response_format,
    VDict [(K.type, VStr (u "json_schema"));
           (K.json_schema, object_schema)])].

(** The same with the tag the code tests for. *)
Definition schemajson_request : dict :=
  [(u "model", VStr (u "llama3"));
   (K.messages, VList [user_message]);
   (K.response_format,
    VDict [(K.type, VStr (u "schemajson_"));
           (K.json_schema, object_schema)])].

(** A request whose [response_format] is present but falsy. *)
Definition falsy_format_request : dict :=
  [(K.response_format, VDict []);
   (u "model", VStr (u "llama3"));
   (K.messages, VList [user_message]);
   (K.stream, VBool true)].

(** A call "fails as a malformed [response_format]" when it raises an
    [HTTPException] with a client-error status. *)
Definition fails_as_client_error (r : outcome unit) : Prop :=
  exists status detail,
    r = Raises (HTTPException status detail) /\ (400 <= status < 500)%Z.

(** [response_format = {"type": "json_schema"}]: the schema is absent. *)
Definition schema_absent_request : dict :=
  [(K.messages, VList [user_message]);
   (K.response_format, VDict [(K.type, VStr (u "json_schema"))])].

(** [response_format = {"type": "schemajson_", "schema": {...}}]: the
    schema is stored under another key than the one read. *)
Definition schema_misplaced_request : dict :=
  [(K.messages, VList [user_message]);
   (K.response_format,
    VDict [(K.type, VStr (u "schemajson_")); (u "schema", object_schema)])].

(** ** The response reconciler *)

(** The text scan of [chat_completions]: only a [str] goes through
    [_extract_first_json]. *)
Definition extraction (depth : nat) (raw_content : value) : outcome value :=
  match raw_content with
  | VStr blob => _extract_first_json depth blob
  | _ => Returns VNone
  end.

Definition refusal_for (body : dict) (parsed : value) : value :=
  if truthy (requested_format body) && is_none parsed
  then refusal_error else VNone.

(** An upstream answering every request with status 200 and the given
    JSON text. *)
Definition ok_response (text : string) : Response :=
  {| status_code := 200; aread := q text; json := json_loads 1000 (q text) |}.

(** A reply whose assistant answers in prose. *)
Definition cannot_help_reply : string :=
  "{'id':'c1','choices':[{'index':0,'message':{'role':'assistant','content':'I cannot help with that'}}]}".

(** An upstream that answers 503. *)
Definition unavailable : Response :=
  {| status_code := 503;
     aread := u "upstream overloaded";
     json := Raises JSONDecodeError |}.

(** A reply whose assistant calls a tool: [content] is null. *)
Definition tool_message : dict :=
  [(K.role, VStr (u "assistant"));
   (K.content, VNone);
   (K.tool_calls, VList [VDict [(u "id", VStr (u "t1"))]])].

Definition tool_choice : dict :=
  [(u "index", VInt 0); (K.message, VDict tool_message)].

Definition tool_reply : dict :=
  [(u "id", VStr (u "c2")); (K.choices, VList [VDict tool_choice])].

(** An upstream that answers 502 with a body that is not UTF-8. *)
Definition garbled : Response :=
  {| status_code := 502; aread := [255]; json := Raises JSONDecodeError |}.

(** A reply without [content] whose [tool_calls] is a string. *)
Definition string_tool_message : dict :=
  [(K.role, VStr (u "assistant")); (K.tool_calls, VStr (q "{'a':1}"))].

Definition string_tool_reply : dict :=
  [(K.choices, VList [VDict [(K.message, VDict string_tool_message)]])].

(** A reply whose content holds an object after some prose. *)
Definition json_reply : dict :=
  [(K.choices,
    VList [VDict [(K.message,
                   VDict [(K.role, VStr (u "assistant"));
                          (K.content, VStr (q "Sure: {'a':1}"))])]])].

(** A reply that calls a tool and whose [additional_kwargs] is null. *)
Definition null_kwargs_message : dict :=
  [(K.role, VStr (u "assistant"));
   (K.tool_calls, VList [VDict [(u "id", VStr (u "t1"))]]);
   (K.additional_kwargs, VNone)].

Definition null_kwargs_reply : dict :=
  [(K.choices, VList [VDict [(K.message, VDict null_kwargs_message)]])].

(** A request with [stream = true] and no [response_format]. *)
Definition streamed_request : dict :=
  [(u "model", VStr (u "llama3"));
   (K.messages, VList [user_message]);
   (K.stream, VBool true)].

(** ** Lexical structure of a JSON text

    Whether a character of a text lies inside a string literal is decided
    by a three-state scan: in code, in a string, after a backslash in a
    string. *)
Inductive lex : Type := Code | InStr | Esc.

Definition lex_step (st : lex) (c : N) : lex :=
  match st with
  | Code => if c =? Ch.dquote then InStr else Code
  | InStr =>
      if c =? Ch.dquote then Code
      else if c =? Ch.backslash then Esc else InStr
  | Esc => InStr
  end.

Definition lex_run (st : lex) (s : str) : lex := fold_left lex_step s st.

(** Occurrences of the character [x] outside string literals. *)
Fixpoint outside (x : N) (st : lex) (s : str) : nat :=
  match s with
  | [] => 0
  | c :: s' =>
      ((match st with
        | Code => if (c =? x)%N then 1 else 0
        | _ => 0
        end) + outside x (lex_step st c) s')%nat
  end.

(** A stretch of text that takes the scan from [st] to [st'] and holds
    [o] opening and [c] closing braces outside string literals. *)
Definition seg (st : lex) (pre : str) (st' : lex) (o c : nat) : Prop :=
  lex_run st pre = st'
  /\ outside Ch.lbrace st pre = o
  /\ outside Ch.rbrace st pre = c.

(** A stretch of code with its braces balanced. *)
Definition well (pre : str) : Prop := exists n, seg Code pre Code n n.

(** A character that is neither a double quote nor a brace. *)
Definition plain (c : N) : bool :=
  negb (c =? Ch.dquote) && negb (c =? Ch.lbrace) && negb (c =? Ch.rbrace).

(** The prefix a reader has consumed. *)
Definition consumed (P : str -> Prop) (s rest : str) : Prop :=
  exists pre, s = pre ++ rest /\ P pre.

Definition all_plain (pre : str) : Prop :=
  Forall (fun c => plain c = true) pre.

(** The inside of a string literal, closing quote included. *)
Definition instr (pre : str) : Prop := seg InStr pre Code 0%nat 0%nat.

(** Which outcomes the scan of a string literal may have: it returns, or
    raises [JSONDecodeError]. *)
Definition lexes {A} (r : outcome A) : Prop :=
  match r with
  | Returns _ | Raises JSONDecodeError => True
  | _ => False
  end.

(** Which outcomes a decoder may have: it returns, or raises
    [JSONDecodeError], [ValueError] or [RecursionError]. *)
Definition decodes {A} (r : outcome A) : Prop :=
  match r with
  | Returns _ | Raises JSONDecodeError => True
  | Raises ValueError | Raises RecursionError => True
  | _ => False
  end.

(** At least one character, none of them a quote or a brace. *)
Definition some_plain (pre : str) : Prop := pre <> [] /\ all_plain pre.

(** Reading from [s] to [rest] takes the scan from [st] to [st'] over [o]
    opening and [c] closing braces. *)
Definition reads (st st' : lex) (o c : nat) (s rest : str) : Prop :=
  consumed (fun pre => seg st pre st' o c) s rest.

(** A complete value: at least one character of balanced code. *)
Definition good (pre : str) : Prop := pre <> [] /\ well pre.

(** The rest of an object from inside its first key on: one closing brace
    more than opening ones. *)
Definition closes_object (st : lex) (s rest : str) : Prop :=
  exists o c, reads st Code o c s rest /\ c = S o.

(** Which outcomes the scanner may have. *)
Definition scans {A} (r : outcome A) : Prop :=
  match r with
  | Returns _ | Raises StopIteration | Raises JSONDecodeError => True
  | Raises ValueError | Raises RecursionError => True
  | _ => False
  end.

(** ** Further requests and replies *)

(** What [_unpack_content] picks from a message: [content] if the key is
    there, else [tool_calls], else [function_call], else [None]. *)
Definition first_payload (msg : dict) : value :=
  match dict_get msg K.content with
  | Some c => c
  | None =>
      match dict_get msg K.tool_calls with
      | Some t => t
      | None =>
          match dict_get msg K.function_call with
          | Some f => f
          | None => VNone
          end
      end
  end.

(** The [type] of a [response_format], [None] when the key is missing. *)
Definition format_type (rf : dict) : value :=
  match dict_get rf K.type with
  | Some t => t
  | None => VNone
  end.

(** [response_format = {"type": "text"}]. *)
Definition text_format_request : dict :=
  [(K.messages, VList [user_message]);
   (K.response_format, VDict [(K.type, VStr (u "text"))]);
   (K.stream, VBool false)].

(** A request with a [response_format] and no [messages]. *)
Definition no_messages_request : dict :=
  [(u "model", VStr (u "llama3"));
   (K.response_format, VDict [(K.type, VStr (u "json_object"))])].

(** The message of a choice and the [additional_kwargs] of a message, as
    dictionaries; a missing key counts as the empty dictionary that
    [setdefault] puts there. *)
Definition message_of (choice : dict) : dict :=
  match dict_get choice K.message with
  | Some (VDict m) => m
  | _ => []
  end.

Definition kwargs_of (msg : dict) : dict :=
  match dict_get msg K.additional_kwargs with
  | Some (VDict kw) => kw
  | _ => []
  end.

(** The reply of the upstream with [parsed] and [refusal] written under
    [choices[0].message.additional_kwargs]. *)
Definition augmented (d choice : dict) (rest : list value)
    (parsed refusal : value) : value :=
  let msg := message_of choice in
  let kwargs :=
    dict_set (dict_set (kwargs_of msg) K.parsed parsed) K.refusal refusal in
  let msg := dict_set msg K.additional_kwargs (VDict kwargs) in
  let choice := dict_set choice K.message (VDict msg) in
  VDict (dict_set d K.choices (VList (VDict choice :: rest))).

(** The keys of a dictionary after [d[k] = v]. *)
Definition keys_after (d : dict) (k : str) : list str :=
  List.map fst d ++ (if dict_mem d k then [] else [k]).

(** A request that still holds its [response_format], and a reply whose
    content is prose. *)
Definition prose_reply : dict :=
  [(u "id", VStr (u "c1"));
   (K.choices,
    VList [VDict [(u "index", VInt 0);
                  (K.message,
                   VDict [(K.role, VStr (u "assistant"));
                          (K.content, VStr (u "I cannot help with that"))])];
           VDict [(u "index", VInt 1)]]);
   (u "usage", VDict [(u "total_tokens", VInt 12)])].

(** The value a call has returned, [None] if it has raised. *)
Definition returned (r : outcome value) : value :=
  match r with
  | Returns v => v
  | _ => VNone
  end.

(** [prose_reply] as the reconciler returns it for [json_object_request]. *)
Definition prose_reply_augmented : value :=
  Eval vm_compute in
    returned (reconcile 1000 json_object_request (VDict prose_reply)).

(** Replies the reconciler cannot read. *)
Definition no_choices_reply : dict := [(u "error", VStr (u "overloaded"))].

Definition empty_choices_reply : dict := [(K.choices, VList [])].

Definition null_choice_reply : dict := [(K.choices, VList [VNone])].

Definition null_message_reply : dict :=
  [(K.choices, VList [VDict [(K.message, VNone)]])].

(** [bool(body.get("stream", False))] *)
Definition stream_requested (body : dict) : bool :=
  truthy (match dict_get body K.stream with
          | Some flag => flag
          | None => VBool false
          end).

(** The errors of the dynamic operations: [KeyError], [IndexError],
    [TypeError] and [AttributeError]. *)
Definition shape_error (e : exn) : Prop :=
  match e with
  | KeyError _ | IndexError | TypeError | AttributeError => True
  | _ => False
  end.

(** An upstream that answers 200 with [prose_reply]. *)
Definition prose_response : Response :=
  {| status_code := 200;
     aread := [];
     json := Returns (VDict prose_reply) |}.

(** An upstream that answers 200 to a request without [response_format]
    and 503 to any other. *)
Definition strict_upstream (body : dict) : Response :=
  if dict_mem body K.response_format then unavailable else prose_response.

(** ** Objects inside a value *)

(** The number of dictionaries in a value, itself included. *)
Fixpoint dict_nodes (v : value) : nat :=
  match v with
  | VList l =>
      (fix sum (l : list value) : nat :=
         match l with
         | [] => 0
         | x :: l' => dict_nodes x + sum l'
         end%nat) l
  | VDict d =>
      S ((fix sum (d : list (str * value)) : nat :=
            match d with
            | [] => 0
            | (_, x) :: d' => dict_nodes x + sum d'
            end%nat) d)
  | _ => 0%nat
  end.

Definition nodes_of_list (l : list value) : nat :=
  list_sum (List.map dict_nodes l).

Definition nodes_of_pairs (d : list (str * value)) : nat :=
  list_sum (List.map (fun kv => dict_nodes (snd kv)) d).

(** The number of closing braces in a text, wherever they stand. *)
Fixpoint closing (s : str) : nat :=
  match s with
  | [] => 0
  | c :: s' => ((if (c =? Ch.rbrace)%N then 1 else 0) + closing s')%nat
  end.

(** ** The limits of the interpreter *)





(** An object whose only value is an integer of 4301 digits. *)
Definition long_integer_blob : str :=
  q "{'a':" ++ repeat 49 4301 ++ q "}".




(** An upstream reply whose first choice holds [long_integer_blob] as its
    content. *)
Definition long_integer_choice : dict :=
  [(K.message,
    VDict [(K.role, VStr (u "assistant"));
           (K.content, VStr long_integer_blob)])].

Definition long_integer_reply : dict :=
  [(K.choices, VList [VDict long_integer_choice])].

Definition long_integer_response : Response :=
  {| status_code := 200;
     aread := [];
     json := Returns (VDict long_integer_reply) |}.



(** A 7-bit byte. *)
Definition ascii_byte (b : N) : bool := b <? 128.

(** An upstream that answers 429 with an ASCII body. *)
Definition rate_limited : Response :=
  {| status_code := 429;
     aread := q "{'error':'rate limit'}";
     json := json_loads 1000 (q "{'error':'rate limit'}") |}.

(** * Properties *)

(** ** Text *)

Lemma str_eqb_spec a b : reflect (a = b) (str_eqb a b).
Proof.
  revert b; induction a as [|x a IH]; intros [|y b]; simpl;
    try (constructor; congruence).
  destruct (N.eqb_spec x y) as [->|Hxy]; simpl.
  - destruct (IH b) as [->|Hab]; constructor; congruence.
  - constructor; congruence.
Qed.

Lemma str_eqb_refl a : str_eqb a a = true.
Proof. destruct (str_eqb_spec a a); congruence. Qed.

Lemma str_eqb_eq a b : str_eqb a b = true <-> a = b.
Proof. destruct (str_eqb_spec a b); split; congruence. Qed.

Lemma str_eqb_neq a b : str_eqb a b = false <-> a <> b.
Proof. destruct (str_eqb_spec a b); split; congruence. Qed.

(** ** Dictionaries *)

Lemma dict_get_del_same d k : dict_get (dict_del d k) k = None.
Proof.
  induction d as [|[k' v] d IH]; simpl; [reflexivity|].
  destruct (str_eqb k' k) eqn:E; simpl; [exact IH|].
  rewrite E. exact IH.
Qed.

Lemma dict_get_del_other d k k' :
  k' <> k -> dict_get (dict_del d k) k' = dict_get d k'.
Proof.
  intros Hk. induction d as [|[k0 v] d IH]; simpl; [reflexivity|].
  destruct (str_eqb k0 k) eqn:E; simpl.
  - apply str_eqb_eq in E; subst k0.
    destruct (str_eqb k k') eqn:E'; [|exact IH].
    apply str_eqb_eq in E'. congruence.
  - rewrite IH. reflexivity.
Qed.

Lemma dict_get_set_same d k v : dict_get (dict_set d k v) k = Some v.
Proof.
  induction d as [|[k' v'] d IH]; simpl.
  - rewrite str_eqb_refl. reflexivity.
  - destruct (str_eqb k' k) eqn:E; simpl; rewrite E; [reflexivity|exact IH].
Qed.

Lemma dict_get_set_other d k v k' :
  k' <> k -> dict_get (dict_set d k v) k' = dict_get d k'.
Proof.
  intros Hk. induction d as [|[k0 v0] d IH]; simpl.
  - destruct (str_eqb k k') eqn:E; [|reflexivity].
    apply str_eqb_eq in E. congruence.
  - destruct (str_eqb k0 k) eqn:E; simpl.
    + apply str_eqb_eq in E; subst k0.
      destruct (str_eqb k k') eqn:E'; [|reflexivity].
      apply str_eqb_eq in E'. congruence.
    + rewrite IH. reflexivity.
Qed.

Lemma dict_del_absent d k : dict_get d k = None -> dict_del d k = d.
Proof.
  induction d as [|[k' v] d IH]; simpl; [reflexivity|].
  destruct (str_eqb k' k); [discriminate|].
  intros H. rewrite (IH H). reflexivity.
Qed.

Lemma dict_pop_snd d k : snd (dict_pop d k) = dict_del d k.
Proof.
  unfold dict_pop. destruct (dict_get d k) eqn:E; simpl; [reflexivity|].
  symmetry. apply dict_del_absent. exact E.
Qed.

Lemma dict_pop_fst d k :
  fst (dict_pop d k) = match dict_get d k with Some v => v | None => VNone end.
Proof. unfold dict_pop. destruct (dict_get d k); reflexivity. Qed.

Lemma dict_pop_eq d k :
  dict_pop d k =
  (match dict_get d k with Some v => v | None => VNone end, dict_del d k).
Proof.
  rewrite <- dict_pop_fst, <- dict_pop_snd. destruct (dict_pop d k); reflexivity.
Qed.

(** ** The request transformer *)

(** Whatever happens, the call leaves the dictionary either just without
    [response_format], or also with a new [messages]. *)
Lemma inject_shape float_repr payload :
  fst (_inject_json_schema_prompt float_repr payload)
    = dict_del payload K.response_format
  \/ exists m,
      fst (_inject_json_schema_prompt float_repr payload)
        = dict_set (dict_del payload K.response_format) K.messages m.
Proof.
  unfold _inject_json_schema_prompt. rewrite dict_pop_eq.
  destruct (negb (truthy _)); [left; reflexivity|].
  match goal with |- context [match ?i with Returns _ => _ | _ => _ end] =>
    destruct i as [instruction|e|] end; try (left; reflexivity).
  destruct (dict_get _ K.messages) as [[| | | | |msgs|]|];
    try (left; reflexivity).
  right. eexists. reflexivity.
Qed.

Lemma inject_falsy float_repr payload :
  truthy (requested_format payload) = false ->
  _inject_json_schema_prompt float_repr payload
    = (dict_del payload K.response_format, Returns tt).
Proof.
  intros H. unfold _inject_json_schema_prompt. rewrite dict_pop_eq.
  fold (requested_format payload). rewrite H. reflexivity.
Qed.

(** What the call does once [response_format] is a dictionary whose [type]
    is not the literal of the schema branch. *)
Lemma inject_preamble float_repr payload rf msgs :
  dict_get payload K.response_format = Some (VDict rf) ->
  rf <> [] ->
  eq_str (match dict_get rf K.type with Some t => t | None => VNone end)
         (u "schemajson_") = false ->
  dict_get payload K.messages = Some (VList msgs) ->
  _inject_json_schema_prompt float_repr payload
    = (dict_set (dict_del payload K.response_format) K.messages
         (VList (system_message _SCHEMA_PROMPT :: msgs)),
       Returns tt).
Proof.
  intros Hrf Hne Hty Hmsgs.
  unfold _inject_json_schema_prompt. rewrite dict_pop_eq, Hrf.
  assert (Ht : truthy (VDict rf) = true) by (destruct rf; [congruence|reflexivity]).
  rewrite Ht. simpl negb. cbv iota.
  unfold py_get. cbn [and_then]. rewrite Hty.
  rewrite dict_get_del_other by (vm_compute; discriminate).
  rewrite Hmsgs. reflexivity.
Qed.

(** No call of the transformer ends in an [HTTPException]: the only ways it
    raises are the [AttributeError], [KeyError] and [TypeError] of the
    operations it applies. *)
Lemma inject_raises float_repr payload e :
  snd (_inject_json_schema_prompt float_repr payload) = Raises e ->
  e = AttributeError \/ e = TypeError \/ exists k, e = KeyError (VStr k).
Proof.
  unfold _inject_json_schema_prompt. rewrite dict_pop_eq.
  destruct (negb (truthy _)); [discriminate|].
  destruct (requested_format payload) as [| | | | | |rf] eqn:Hrf;
    unfold requested_format in Hrf; rewrite Hrf; cbn [py_get and_then];
    try (intros [= <-]; left; reflexivity).
  destruct (eq_str _ _).
  - unfold py_getitem. destruct (dict_get rf K.json_schema); cbn [and_then snd].
    + destruct (dict_get _ K.messages) as [[| | | | |msgs|]|]; cbn [snd];
        intros [= <-]; eauto.
    + intros [= <-]. eauto.
  - destruct (dict_get _ K.messages) as [[| | | | |msgs|]|]; cbn [snd];
      intros [= <-]; eauto.
Qed.

(** C7: a request with [response_format = {type: "json_object"}] and a
    list of messages gets exactly one message prepended, with role
    [system] and the fixed preamble as content; the preamble holds no
    schema sentence. *)
Theorem C7_json_object_prepends_preamble float_repr payload rf msgs :
  dict_get payload K.response_format = Some (VDict rf) ->
  dict_get rf K.type = Some (VStr (u "json_object")) ->
  dict_get payload K.messages = Some (VList msgs) ->
  let payload' := fst (_inject_json_schema_prompt float_repr payload) in
  snd (_inject_json_schema_prompt float_repr payload) = Returns tt
  /\ dict_get payload' K.messages
     = Some (VList (VDict [(K.role, VStr K.system);
                           (K.content, VStr _SCHEMA_PROMPT)] :: msgs))
  /\ str_contains (u "The response MUST validate against this schema:")
       _SCHEMA_PROMPT = false.
Proof.
  intros Hrf Hty Hmsgs payload'. subst payload'.
  rewrite (inject_preamble float_repr payload rf msgs Hrf); try assumption.
  - cbn [fst snd]. rewrite dict_get_set_same.
    split; [reflexivity|split; [reflexivity|vm_compute; reflexivity]].
  - intros ->. discriminate.
  - rewrite Hty. vm_compute. reflexivity.
Qed.

Lemma C7_json_object_prepends_preamble_witness :
  snd (_inject_json_schema_prompt float_repr_unused json_object_request)
    = Returns tt
  /\ dict_get (fst (_inject_json_schema_prompt float_repr_unused
                      json_object_request)) K.messages
     = Some (VList [VDict [(K.role, VStr K.system);
                           (K.content, VStr _SCHEMA_PROMPT)];
                    user_message]).
Proof.
  pose proof (C7_json_object_prepends_preamble float_repr_unused
                json_object_request [(K.type, VStr (u "json_object"))]
                [user_message] eq_refl eq_refl eq_refl) as (H1 & H2 & _).
  split; [exact H1 | exact H2].
Defined.

(** C6: the transformer always leaves the request without
    [response_format] and with every field other than [messages] as it
    was, [stream] included; when [response_format] is absent or falsy it
    returns normally and [messages] is as it was too. *)
Theorem C6_transformer_frame float_repr payload :
  let payload' := fst (_inject_json_schema_prompt float_repr payload) in
  dict_get payload' K.response_format = None
  /\ (forall k, k <> K.response_format -> k <> K.messages ->
        dict_get payload' k = dict_get payload k)
  /\ dict_get payload' K.stream = dict_get payload K.stream
  /\ (truthy (requested_format payload) = false ->
      _inject_json_schema_prompt float_repr payload
        = (dict_del payload K.response_format, Returns tt)
      /\ dict_get payload' K.messages = dict_get payload K.messages).
Proof.
  intros payload'. subst payload'.
  assert (Hframe : forall k, k <> K.response_format -> k <> K.messages ->
            dict_get (fst (_inject_json_schema_prompt float_repr payload)) k
            = dict_get payload k).
  { intros k Hk Hm.
    destruct (inject_shape float_repr payload) as [-> | [m ->]].
    - apply dict_get_del_other. exact Hk.
    - rewrite dict_get_set_other by exact Hm.
      apply dict_get_del_other. exact Hk. }
  split; [|split; [exact Hframe|split]].
  - destruct (inject_shape float_repr payload) as [-> | [m ->]].
    + apply dict_get_del_same.
    + rewrite dict_get_set_other by (vm_compute; discriminate).
      apply dict_get_del_same.
  - apply Hframe; vm_compute; discriminate.
  - intros Hfalsy. rewrite (inject_falsy float_repr payload Hfalsy).
    split; [reflexivity|]. cbn [fst].
    apply dict_get_del_other. vm_compute; discriminate.
Qed.

Lemma C6_transformer_frame_witness :
  dict_get (fst (_inject_json_schema_prompt float_repr_unused
                   falsy_format_request)) (u "model")
    = Some (VStr (u "llama3"))
  /\ _inject_json_schema_prompt float_repr_unused falsy_format_request
     = ([(u "model", VStr (u "llama3"));
         (K.messages, VList [user_message]);
         (K.stream, VBool true)], Returns tt).
Proof.
  pose proof (C6_transformer_frame float_repr_unused falsy_format_request)
    as (_ & Hframe & _ & Hfalsy).
  split.
  - rewrite (Hframe (u "model")); [reflexivity | | ]; vm_compute; discriminate.
  - destruct (Hfalsy eq_refl) as [-> _]. reflexivity.
Defined.

(** The schema branch, taken for the tag ["schemajson_"]: the instruction
    ends with the compact serialization of [rf["json_schema"]]. *)
Lemma inject_schema float_repr payload rf schema msgs :
  dict_get payload K.response_format = Some (VDict rf) ->
  dict_get rf K.type = Some (VStr (u "schemajson_")) ->
  dict_get rf K.json_schema = Some schema ->
  dict_get payload K.messages = Some (VList msgs) ->
  _inject_json_schema_prompt float_repr payload
    = (dict_set (dict_del payload K.response_format) K.messages
         (VList (system_message
                   (schema_instruction (json_dumps float_repr schema))
                 :: msgs)),
       Returns tt).
Proof.
  intros Hrf Hty Hsch Hmsgs.
  unfold _inject_json_schema_prompt. rewrite dict_pop_eq, Hrf.
  assert (Ht : truthy (VDict rf) = true) by (destruct rf; [discriminate|reflexivity]).
  rewrite Ht. simpl negb. cbv iota.
  unfold py_get, py_getitem. cbn [and_then]. rewrite Hty.
  replace (eq_str (VStr (u "schemajson_")) (u "schemajson_")) with true
    by (vm_compute; reflexivity).
  rewrite Hsch. cbn [and_then].
  rewrite dict_get_del_other by (vm_compute; discriminate).
  rewrite Hmsgs. reflexivity.
Qed.

(** C2, evaluated: for the canonical tag ["json_schema"] with a schema
    supplied, the prepended instruction is the bare preamble and does not
    hold the serialized schema; the same request with the tag
    ["schemajson_"] gets the schema sentence and the serialization. *)
Theorem C2_json_schema_tag_drops_schema float_repr :
  _inject_json_schema_prompt float_repr json_schema_request
    = ([(u "model", VStr (u "llama3"));
        (K.messages,
         VList [VDict [(K.role, VStr K.system);
                       (K.content, VStr _SCHEMA_PROMPT)];
                user_message])],
       Returns tt)
  /\ json_dumps float_repr object_schema = q "{'type':'object'}"
  /\ str_contains (json_dumps float_repr object_schema) _SCHEMA_PROMPT = false
  /\ _inject_json_schema_prompt float_repr schemajson_request
     = ([(u "model", VStr (u "llama3"));
         (K.messages,
          VList [VDict [(K.role, VStr K.system);
                        (K.content,
                         VStr (_SCHEMA_PROMPT
                               ++ u " The response MUST validate against this schema:"
                               ++ [Ch.lf] ++ q "{'type':'object'}"))];
                 user_message])],
        Returns tt).
Proof.
  split; [|split; [|split]]; vm_compute; reflexivity.
Qed.

(** C3 fails as stated: with the schema absent the call goes on silently
    with the bare preamble, and with the schema under another key it ends
    in a [KeyError]; neither is a client-error condition. *)
Lemma C3_counterexample :
  (snd (_inject_json_schema_prompt float_repr_unused schema_absent_request)
     = Returns tt
   /\ dict_get (fst (_inject_json_schema_prompt float_repr_unused
                       schema_absent_request)) K.messages
      = Some (VList [system_message _SCHEMA_PROMPT; user_message])
   /\ ~ fails_as_client_error
        (snd (_inject_json_schema_prompt float_repr_unused
                schema_absent_request)))
  /\ (snd (_inject_json_schema_prompt float_repr_unused
             schema_misplaced_request)
        = Raises (KeyError (VStr K.json_schema))
      /\ ~ fails_as_client_error
           (snd (_inject_json_schema_prompt float_repr_unused
                   schema_misplaced_request))).
Proof.
  split; [split; [|split]|split].
  - vm_compute. reflexivity.
  - vm_compute. reflexivity.
  - intros (st & d & H & _). vm_compute in H. discriminate.
  - vm_compute. reflexivity.
  - intros (st & d & H & _). vm_compute in H. discriminate.
Qed.

(** C3, amended: when the schema branch is taken and [response_format] has
    no key ["json_schema"], the call raises [KeyError("json_schema")] with
    [response_format] removed and nothing else changed; and no request at
    all makes the transformer fail with a client-error condition. *)
Theorem C3_missing_schema_key_raises_KeyError float_repr payload rf :
  dict_get payload K.response_format = Some (VDict rf) ->
  dict_get rf K.type = Some (VStr (u "schemajson_")) ->
  dict_get rf K.json_schema = None ->
  _inject_json_schema_prompt float_repr payload
    = (dict_del payload K.response_format,
       Raises (KeyError (VStr K.json_schema)))
  /\ forall any : dict,
       ~ fails_as_client_error
           (snd (_inject_json_schema_prompt float_repr any)).
Proof.
  intros Hrf Hty Hsch. split.
  - unfold _inject_json_schema_prompt. rewrite dict_pop_eq, Hrf.
    assert (Ht : truthy (VDict rf) = true)
      by (destruct rf; [discriminate|reflexivity]).
    rewrite Ht. simpl negb. cbv iota.
    unfold py_get, py_getitem. cbn [and_then]. rewrite Hty.
    replace (eq_str (VStr (u "schemajson_")) (u "schemajson_")) with true
      by (vm_compute; reflexivity).
    rewrite Hsch. reflexivity.
  - intros any (st & d & H & _).
    apply inject_raises in H. destruct H as [H|[H|[k H]]]; discriminate.
Qed.

Lemma C3_missing_schema_key_raises_KeyError_witness :
  _inject_json_schema_prompt float_repr_unused schema_misplaced_request
    = ([(K.messages, VList [user_message])],
       Raises (KeyError (VStr K.json_schema))).
Proof.
  exact (proj1 (C3_missing_schema_key_raises_KeyError float_repr_unused
                  schema_misplaced_request
                  [(K.type, VStr (u "schemajson_"));
                   (u "schema", object_schema)]
                  eq_refl eq_refl eq_refl)).
Defined.

(** ** The response reconciler *)

Lemma and_then_returns {A B} (m : outcome A) (k : A -> outcome B) b :
  and_then m k = Returns b -> exists a, m = Returns a /\ k a = Returns b.
Proof. destruct m; simpl; intros H; try discriminate. eauto. Qed.

Lemma and_then_raises {A B} (m : outcome A) (k : A -> outcome B) e :
  and_then m k = Raises e ->
  m = Raises e \/ exists a, m = Returns a /\ k a = Raises e.
Proof.
  destruct m as [a|e'|]; simpl; intros H;
    [|left; injection H as ->; reflexivity|discriminate].
  right. exists a. split; [reflexivity|exact H].
Qed.

Lemma py_get_returns v k default x :
  py_get v k default = Returns x -> exists d, v = VDict d.
Proof. destruct v; simpl; intros H; try discriminate. eauto. Qed.

Lemma py_setdefault_returns v k v' x :
  py_setdefault v k = Returns (v', x) ->
  exists d d', v = VDict d /\ v' = VDict d' /\ dict_get d' k = Some x
    /\ (forall k', k' <> k -> dict_get d' k' = dict_get d k').
Proof.
  destruct v; simpl; intros H; try discriminate.
  destruct (dict_get d k) eqn:E; injection H as <- <-.
  - exists d, d. auto.
  - exists d, (dict_set d k (VDict [])). repeat split.
    + apply dict_get_set_same.
    + intros k' Hk. apply dict_get_set_other. exact Hk.
Qed.

(** What a completed [reconcile] has done: it has read [choices[0]],
    unpacked and scanned its content, and the reply it returns carries the
    extraction result and the refusal under [additional_kwargs]. *)
Lemma reconcile_returns depth body data data' :
  reconcile depth body data = Returns data' ->
  exists choices choice0 raw_content parsed,
    py_getitem data K.choices = Returns choices
    /\ py_getitem0 choices = Returns choice0
    /\ _unpack_content choice0 = Returns raw_content
    /\ extraction depth raw_content = Returns parsed
    /\ additional_kwarg data' K.parsed = Returns parsed
    /\ additional_kwarg data' K.refusal = Returns (refusal_for body parsed).
Proof.
  unfold reconcile. intros H.
  apply and_then_returns in H as (choices & Hch & H).
  apply and_then_returns in H as (choice0 & Hc0 & H).
  apply and_then_returns in H as (raw & Hraw & H).
  apply and_then_returns in H as (parsed & Hparsed & H).
  apply and_then_returns in H as ([choice1 message] & Hsd1 & H).
  apply and_then_returns in H as ([message1 kwargs] & Hsd2 & H).
  apply and_then_returns in H as (kwargs1 & Hup1 & H).
  apply and_then_returns in H as (message2 & Hup2 & H).
  apply and_then_returns in H as (choice2 & Hup3 & H).
  exists choices, choice0, raw, parsed.
  repeat (split; [assumption|]).
  destruct data as [| | | | | |d]; try discriminate.
  destruct choices as [| | | | |[|c rest]|]; try discriminate.
  injection H as <-.
  apply py_setdefault_returns in Hsd1 as (c1 & c1' & -> & -> & _ & _).
  apply py_setdefault_returns in Hsd2 as (m1 & m1' & -> & -> & _ & _).
  destruct kwargs as [| | | | | |kw]; try discriminate.
  simpl in Hup1, Hup2, Hup3.
  injection Hup1 as <-. injection Hup2 as <-. injection Hup3 as <-.
  unfold additional_kwarg, py_getitem.
  rewrite dict_get_set_same. cbn [and_then py_getitem0].
  rewrite dict_get_set_same. cbn [and_then].
  rewrite dict_get_set_same. cbn [and_then].
  rewrite dict_get_set_same.
  rewrite dict_get_set_other by (vm_compute; discriminate).
  rewrite dict_get_set_same.
  split; reflexivity.
Qed.

(** As the transformer has popped [response_format] from the very
    dictionary the endpoint reads it from later, the refusal is [None]
    on every reply the endpoint returns. *)
Lemma inject_removes_format float_repr payload :
  requested_format (fst (_inject_json_schema_prompt float_repr payload))
    = VNone.
Proof.
  unfold requested_format.
  destruct (inject_shape float_repr payload) as [-> | [m ->]].
  - rewrite dict_get_del_same. reflexivity.
  - rewrite dict_get_set_other by (vm_compute; discriminate).
    rewrite dict_get_del_same. reflexivity.
Qed.

Lemma chat_completions_refusal_null
    float_repr depth post request data status :
  chat_completions float_repr depth post request
    = Returns (JSONResponse data status) ->
  additional_kwarg data K.refusal = Returns VNone.
Proof.
  unfold chat_completions. intros H.
  apply and_then_returns in H as (flag & _ & H).
  destruct request as [| | | | | |body]; try discriminate.
  pose proof (inject_removes_format float_repr body) as Hnone.
  destruct (_inject_json_schema_prompt float_repr body) as [body' r].
  cbn [fst] in Hnone.
  apply and_then_returns in H as (_ & _ & H).
  destruct (truthy flag); [discriminate|].
  destruct (negb _).
  - destruct (utf8_decode _); discriminate.
  - apply and_then_returns in H as (d0 & _ & H).
    apply and_then_returns in H as (d1 & Hrec & H).
    apply and_then_returns in H as (_ & _ & H).
    injection H as <- <-.
    apply reconcile_returns in Hrec
      as (_ & _ & _ & parsed & _ & _ & _ & _ & _ & Href).
    rewrite Href. unfold refusal_for. rewrite Hnone. reflexivity.
Qed.

(** C1, evaluated: the request asks for [json_object], the upstream
    answers with plain prose, so nothing is extracted; the reply the
    endpoint returns has [parsed] null and [refusal] null, not the error
    object. *)
Theorem C1_refusal_is_null_after_failed_extraction float_repr depth :
  requested_format json_object_request
    = VDict [(K.type, VStr (u "json_object"))]
  /\ exists data,
      chat_completions float_repr depth
        (fun _ => ok_response cannot_help_reply)
        (VDict json_object_request)
        = Returns (JSONResponse data 200)
      /\ additional_kwarg data K.parsed = Returns VNone
      /\ additional_kwarg data K.refusal = Returns VNone
      /\ additional_kwarg data K.refusal <> Returns refusal_error.
Proof.
  split; [reflexivity|].
  eexists. split; [vm_compute; reflexivity|].
  split; [|split]; vm_compute; [reflexivity|reflexivity|discriminate].
Qed.

(** C9 fails for an upstream body that is not UTF-8 text: the call is
    not streamed, the upstream answers 502, and [detail.decode()] raises
    [UnicodeDecodeError]; no [HTTPException] carries the status on. *)
Lemma C9_counterexample :
  stream_requested json_object_request = false
  /\ status_code garbled = 502%Z
  /\ chat_completions float_repr_unused 1000 (fun _ => garbled)
       (VDict json_object_request)
     = Raises UnicodeDecodeError
  /\ forall detail,
       chat_completions float_repr_unused 1000 (fun _ => garbled)
         (VDict json_object_request)
       <> Raises (HTTPException 502 detail).
Proof.
  split; [reflexivity|]. split; [reflexivity|].
  split; [vm_compute; reflexivity|].
  intros detail. vm_compute. discriminate.
Qed.

(** C9, amended: on the non-streaming path an upstream status other than
    200 whose body is UTF-8 text becomes an [HTTPException] with that
    status and the decoded body as detail. *)
Theorem C9_upstream_error_is_propagated
    float_repr depth post body body' text :
  truthy (match dict_get body K.stream with
          | Some flag => flag
          | None => VBool false
          end) = false ->
  _inject_json_schema_prompt float_repr body = (body', Returns tt) ->
  status_code (post body') <> 200%Z ->
  utf8_decode (aread (post body')) = Returns text ->
  chat_completions float_repr depth post (VDict body)
    = Raises (HTTPException (status_code (post body')) text).
Proof.
  intros Hstream Hinj Hstatus Htext.
  unfold chat_completions, py_get. cbn [and_then].
  rewrite Hstream, Hinj. cbn [and_then].
  destruct (Z.eqb_spec (status_code (post body')) 200) as [E|_];
    [contradiction|].
  cbn [negb]. rewrite Htext. reflexivity.
Qed.

Lemma C9_upstream_error_is_propagated_witness :
  chat_completions float_repr_unused 1000 (fun _ => unavailable)
    (VDict json_object_request)
    = Raises (HTTPException 503 (u "upstream overloaded")).
Proof.
  refine (C9_upstream_error_is_propagated float_repr_unused 1000
            (fun _ => unavailable) json_object_request _ _
            eq_refl eq_refl _ eq_refl).
  simpl. discriminate.
Defined.

Lemma dict_set_set d k v v' : dict_set (dict_set d k v) k v' = dict_set d k v'.
Proof.
  induction d as [|[k0 v0] d IH]; simpl.
  - rewrite str_eqb_refl. reflexivity.
  - destruct (str_eqb k0 k) eqn:E; simpl; rewrite E; [reflexivity|].
    rewrite IH. reflexivity.
Qed.

Lemma dict_set_same d k v : dict_get d k = Some v -> dict_set d k v = d.
Proof.
  induction d as [|[k0 v0] d IH]; simpl; [discriminate|].
  destruct (str_eqb k0 k).
  - intros [= ->]. reflexivity.
  - intros H. rewrite (IH H). reflexivity.
Qed.

Lemma dict_set_keys d k v : List.map fst (dict_set d k v) = keys_after d k.
Proof.
  unfold keys_after, dict_mem.
  induction d as [|[k0 v0] d IH]; simpl; [reflexivity|].
  destruct (str_eqb k0 k) eqn:E; simpl.
  - rewrite app_nil_r. reflexivity.
  - rewrite IH. reflexivity.
Qed.

Lemma unpack_content_message choice :
  (dict_get choice K.message = None
   \/ exists m, dict_get choice K.message = Some (VDict m)) ->
  _unpack_content (VDict choice) = Returns (first_payload (message_of choice)).
Proof.
  intros Hmsg. unfold _unpack_content, py_get, message_of. cbn [and_then].
  destruct Hmsg as [->|[m ->]];
    cbn [py_contains and_then py_getitem]; unfold dict_mem, first_payload.
  - reflexivity.
  - destruct (dict_get m K.content); [reflexivity|].
    destruct (dict_get m K.tool_calls); [reflexivity|].
    destruct (dict_get m K.function_call); reflexivity.
Qed.

(** The exact reply a completed [reconcile] returns. *)
Lemma reconcile_shape depth body data data' :
  reconcile depth body data = Returns data' ->
  exists d choice rest parsed,
    data = VDict d
    /\ dict_get d K.choices = Some (VList (VDict choice :: rest))
    /\ (dict_get choice K.message = None
        \/ exists m, dict_get choice K.message = Some (VDict m))
    /\ (dict_get (message_of choice) K.additional_kwargs = None
        \/ exists kw,
            dict_get (message_of choice) K.additional_kwargs = Some (VDict kw))
    /\ extraction depth (first_payload (message_of choice)) = Returns parsed
    /\ data' = augmented d choice rest parsed (refusal_for body parsed).
Proof.
  unfold reconcile. intros H.
  apply and_then_returns in H as (choices & Hch & H).
  apply and_then_returns in H as (choice0 & Hc0 & H).
  apply and_then_returns in H as (raw & Hraw & H).
  apply and_then_returns in H as (parsed & Hparsed & H).
  apply and_then_returns in H as ([choice1 message] & Hsd1 & H).
  apply and_then_returns in H as ([message1 kwargs] & Hsd2 & H).
  apply and_then_returns in H as (kwargs1 & Hup1 & H).
  apply and_then_returns in H as (message2 & Hup2 & H).
  apply and_then_returns in H as (choice2 & Hup3 & H).
  destruct data as [| | | | | |d]; try discriminate.
  destruct choices as [| | | | |[|c rest]|]; try discriminate.
  injection H as <-. simpl in Hc0. injection Hc0 as ->.
  unfold py_getitem in Hch.
  destruct (dict_get d K.choices) as [x|] eqn:Ed; [|discriminate].
  injection Hch as ->.
  destruct choice0 as [| | | | | |choice]; try discriminate.
  assert (Hmsg : dict_get choice K.message = None
                 \/ exists m, dict_get choice K.message = Some (VDict m)).
  { simpl in Hsd1. destruct (dict_get choice K.message) as [x|]; [|auto].
    injection Hsd1 as <- <-. destruct x; try discriminate. eauto. }
  rewrite (unpack_content_message choice Hmsg) in Hraw. injection Hraw as <-.
  assert (Hkw : dict_get (message_of choice) K.additional_kwargs = None
                \/ exists kw, dict_get (message_of choice) K.additional_kwargs
                              = Some (VDict kw)).
  { unfold message_of. simpl in Hsd1.
    destruct (dict_get choice K.message) as [x|]; [|auto].
    injection Hsd1 as <- <-.
    destruct x as [| | | | | |m]; try discriminate. simpl in Hsd2.
    destruct (dict_get m K.additional_kwargs) as [y|]; [|auto].
    injection Hsd2 as <- <-. destruct y; try discriminate. eauto. }
  exists d, choice, rest, parsed.
  split; [reflexivity|]. split; [exact Ed|].
  split; [exact Hmsg|]. split; [exact Hkw|]. split; [exact Hparsed|].
  clear Hmsg Hkw Hparsed.
  unfold augmented, message_of, kwargs_of in *. simpl in Hsd1.
  destruct (dict_get choice K.message) as [x|] eqn:Em.
  - injection Hsd1 as <- <-.
    destruct x as [| | | | | |m]; try discriminate. simpl in Hsd2.
    destruct (dict_get m K.additional_kwargs) as [y|] eqn:Ek.
    + injection Hsd2 as <- <-.
      destruct y as [| | | | | |kw]; try discriminate.
      simpl in Hup1, Hup2, Hup3.
      injection Hup1 as <-. injection Hup2 as <-. injection Hup3 as <-.
      reflexivity.
    + injection Hsd2 as <- <-.
      simpl in Hup1, Hup2, Hup3.
      injection Hup1 as <-. injection Hup2 as <-. injection Hup3 as <-.
      rewrite dict_set_set. reflexivity.
  - injection Hsd1 as <- <-. simpl in Hsd2. injection Hsd2 as <- <-.
    simpl in Hup1, Hup2, Hup3.
    injection Hup1 as <-. injection Hup2 as <-. injection Hup3 as <-.
    rewrite dict_set_set.
    change (dict_set [] K.additional_kwargs (VDict []))
      with [(K.additional_kwargs, VDict [])].
    reflexivity.
Qed.

(** C8 fails in two ways.  A [tool_calls] that is a string is scanned like
    any other text, and the object it holds is extracted; and a message
    whose [additional_kwargs] is null makes [.update] raise
    [AttributeError]. *)
Lemma C8_counterexample :
  (dict_get string_tool_message K.content = None
   /\ dict_mem string_tool_message K.tool_calls = true
   /\ _unpack_content (VDict [(K.message, VDict string_tool_message)])
      = Returns (VStr (q "{'a':1}"))
   /\ extraction 1000 (VStr (q "{'a':1}"))
      = Returns (VDict [(u "a", VInt 1)])
   /\ exists data',
       reconcile 1000 json_object_request (VDict string_tool_reply)
         = Returns data'
       /\ additional_kwarg data' K.parsed
          = Returns (VDict [(u "a", VInt 1)]))
  /\ (dict_get null_kwargs_message K.content = None
      /\ dict_mem null_kwargs_message K.tool_calls = true
      /\ reconcile 1000 json_object_request (VDict null_kwargs_reply)
         = Raises AttributeError
      /\ chat_completions float_repr_unused 1000
           (fun _ => {| status_code := 200;
                        aread := [];
                        json := Returns (VDict null_kwargs_reply) |})
           (VDict json_object_request)
         = Raises AttributeError).
Proof.
  split.
  - split; [reflexivity|]. split; [reflexivity|].
    split; [reflexivity|]. split; [vm_compute; reflexivity|].
    eexists. split; vm_compute; reflexivity.
  - split; [reflexivity|]. split; [reflexivity|].
    split; vm_compute; reflexivity.
Qed.

(** C8, amended: when [choices[0].message] is an object in which neither
    [content] nor [tool_calls] nor [function_call] is a string,
    [_unpack_content] returns the first of the three that is there
    ([None] if none is) without raising, and the extraction result is
    [None], whatever the request asked for.  The reconciler then returns
    the reply with [parsed] null when [additional_kwargs] is absent or an
    object, and raises [AttributeError] when it is anything else. *)
Theorem C8_tool_payload_is_not_scanned depth body d choice0 rest msg :
  dict_get d K.choices = Some (VList (VDict choice0 :: rest)) ->
  dict_get choice0 K.message = Some (VDict msg) ->
  (forall text, dict_get msg K.content <> Some (VStr text)) ->
  (forall text, dict_get msg K.tool_calls <> Some (VStr text)) ->
  (forall text, dict_get msg K.function_call <> Some (VStr text)) ->
  _unpack_content (VDict choice0) = Returns (first_payload msg)
  /\ extraction depth (first_payload msg) = Returns VNone
  /\ ((dict_get msg K.additional_kwargs = None
       \/ exists kw, dict_get msg K.additional_kwargs = Some (VDict kw)) ->
      reconcile depth body (VDict d)
        = Returns (augmented d choice0 rest VNone (refusal_for body VNone))
      /\ additional_kwarg
           (augmented d choice0 rest VNone (refusal_for body VNone)) K.parsed
         = Returns VNone)
  /\ (forall x,
        dict_get msg K.additional_kwargs = Some x ->
        (forall kw, x <> VDict kw) ->
        reconcile depth body (VDict d) = Raises AttributeError).
Proof.
  intros Hch Hmsg Hcontent Htool Hfun.
  assert (Hunpack : _unpack_content (VDict choice0)
                    = Returns (first_payload msg)).
  { rewrite (unpack_content_message choice0) by eauto.
    unfold message_of. rewrite Hmsg. reflexivity. }
  assert (Hextract : extraction depth (first_payload msg) = Returns VNone).
  { unfold first_payload.
    destruct (dict_get msg K.content) as [c|] eqn:Ec.
    { destruct c; try reflexivity. exfalso. exact (Hcontent s eq_refl). }
    destruct (dict_get msg K.tool_calls) as [t|] eqn:Et.
    { destruct t; try reflexivity. exfalso. exact (Htool s eq_refl). }
    destruct (dict_get msg K.function_call) as [f|] eqn:Ef.
    { destruct f; try reflexivity. exfalso. exact (Hfun s eq_refl). }
    reflexivity. }
  assert (Hrun :
    reconcile depth body (VDict d)
    = ('(message, kwargs) <- py_setdefault (VDict msg) K.additional_kwargs ;;
       kwargs <- py_update kwargs
                   [(K.parsed, VNone); (K.refusal, refusal_for body VNone)] ;;
       message <- py_update message [(K.additional_kwargs, kwargs)] ;;
       choice0' <- py_update (VDict choice0) [(K.message, message)] ;;
       Returns (VDict (dict_set d K.choices (VList (choice0' :: rest)))))).
  { unfold reconcile, py_getitem. rewrite Hch. cbn [and_then py_getitem0].
    rewrite Hunpack. cbn [and_then].
    fold (extraction depth (first_payload msg)). rewrite Hextract.
    cbn [and_then]. unfold py_setdefault at 1. rewrite Hmsg.
    reflexivity. }
  split; [exact Hunpack|]. split; [exact Hextract|]. split.
  - intros Hkw.
    assert (E : reconcile depth body (VDict d)
                = Returns (augmented d choice0 rest VNone
                             (refusal_for body VNone))).
    { rewrite Hrun. unfold augmented, message_of, kwargs_of, py_setdefault.
      rewrite Hmsg.
      destruct Hkw as [->|[kw ->]]; cbn; [|reflexivity].
      rewrite dict_set_set. reflexivity. }
    split; [exact E|].
    apply reconcile_returns in E
      as (choices & c0 & raw' & parsed & H1 & H2 & H3 & H4 & H5 & _).
    unfold py_getitem in H1. rewrite Hch in H1. injection H1 as <-.
    simpl in H2. injection H2 as <-.
    rewrite Hunpack in H3. injection H3 as <-.
    rewrite Hextract in H4. injection H4 as <-.
    exact H5.
  - intros x Hx Hnot. rewrite Hrun. unfold py_setdefault. rewrite Hx.
    destruct x; try reflexivity. exfalso. exact (Hnot d0 eq_refl).
Qed.

Lemma C8_tool_payload_is_not_scanned_witness :
  (_unpack_content (VDict tool_choice) = Returns VNone
   /\ extraction 1000 VNone = Returns VNone
   /\ reconcile 1000 json_object_request (VDict tool_reply)
      = Returns (augmented tool_reply tool_choice [] VNone refusal_error))
  /\ reconcile 1000 json_object_request (VDict null_kwargs_reply)
     = Raises AttributeError.
Proof.
  split.
  - destruct (C8_tool_payload_is_not_scanned 1000 json_object_request
                tool_reply tool_choice [] tool_message eq_refl eq_refl)
      as (Hunpack & Hextract & Hrun & _);
      try (intros x H; vm_compute in H; discriminate).
    split; [exact Hunpack|]. split; [exact Hextract|].
    apply Hrun. left. reflexivity.
  - refine (proj2 (proj2 (proj2
             (C8_tool_payload_is_not_scanned 1000 json_object_request
                null_kwargs_reply [(K.message, VDict null_kwargs_message)] []
                null_kwargs_message eq_refl eq_refl _ _ _)))
             VNone eq_refl _);
      intros x H; vm_compute in H; discriminate.
Defined.

(** ** The streaming relay *)

Lemma emitted_lockstep chunks : emitted (lockstep chunks) = chunks.
Proof.
  induction chunks as [|c chunks IH]; simpl; [reflexivity|].
  f_equal. exact IH.
Qed.

Lemma received_lockstep chunks : received (lockstep chunks) = chunks.
Proof.
  induction chunks as [|c chunks IH]; simpl; [reflexivity|].
  f_equal. exact IH.
Qed.

(** Run against an upstream with finitely many chunks to deliver, the loop
    ends with all of them delivered, each put right after it was got. *)
Lemma _relay_stream_run s chunks l :
  eutt eq (interp_state h_stream _relay_stream (Wire s chunks l))
          (Ret (Wire s [] (l ++ lockstep chunks), tt)).
Proof.
  revert l. induction chunks as [|c chunks IH]; intros l; unfold _relay_stream.
  - rewrite unfold_iter.
    rewrite interp_state_bind, interp_state_bind, interp_state_trigger.
    cbn. rewrite !bind_ret_l. cbn.
    rewrite interp_state_ret, bind_ret_l. cbn.
    rewrite interp_state_ret, app_nil_r. reflexivity.
  - rewrite unfold_iter.
    rewrite interp_state_bind, interp_state_bind, interp_state_trigger.
    cbn. rewrite !bind_ret_l. cbn.
    rewrite interp_state_bind, interp_state_trigger.
    cbn. rewrite !bind_ret_l. cbn.
    rewrite interp_state_ret, bind_ret_l. cbn.
    rewrite interp_state_tau, tau_eutt.
    fold _relay_stream. rewrite IH.
    rewrite <- !app_assoc. reflexivity.
Qed.

Lemma relay_run body s chunks l :
  eutt eq (interp_state h_stream (relay body) (Wire s chunks l))
          (Ret (Wire (s ++ [body]) [] (l ++ lockstep chunks), tt)).
Proof.
  unfold relay.
  rewrite interp_state_bind, interp_state_trigger.
  cbn. rewrite bind_ret_l. cbn.
  apply _relay_stream_run.
Qed.

(** C5: a call with a truthy [stream] returns a [StreamingResponse] whose
    body is the relay; run against any upstream chunk sequence, the relay
    puts to the caller exactly the chunks it got, in order and unchanged,
    each one before the next is asked for, so the bytes emitted are the
    bytes received. *)
Theorem C5_streaming_relay_is_identity float_repr depth post body body' :
  truthy (match dict_get body K.stream with
          | Some flag => flag
          | None => VBool false
          end) = true ->
  _inject_json_schema_prompt float_repr body = (body', Returns tt) ->
  chat_completions float_repr depth post (VDict body)
    = Returns (StreamingResponse (relay body') event_stream 200)
  /\ forall upstream : list bytes,
      exists final,
        eutt eq (interp_state h_stream (relay body') (Wire [] upstream []))
                (Ret (final, tt))
        /\ sent final = [body']
        /\ pending final = []
        /\ log final = lockstep upstream
        /\ emitted (log final) = upstream
        /\ received (log final) = upstream
        /\ List.concat (emitted (log final)) = List.concat upstream.
Proof.
  intros Hstream Hinj. split.
  - unfold chat_completions, py_get. cbn [and_then].
    rewrite Hstream, Hinj. reflexivity.
  - intros upstream.
    exists (Wire [body'] [] (lockstep upstream)).
    split; [exact (relay_run body' [] upstream [])|].
    cbn [sent pending log].
    rewrite emitted_lockstep, received_lockstep.
    repeat (split; [reflexivity|]). reflexivity.
Qed.

Lemma C5_streaming_relay_is_identity_witness :
  chat_completions float_repr_unused 1000 (fun _ => unavailable)
    (VDict streamed_request)
    = Returns (StreamingResponse (relay streamed_request) event_stream 200)
  /\ exists final,
      eutt eq (interp_state h_stream (relay streamed_request)
                 (Wire [] [u "data: a"; u "data: b"] []))
              (Ret (final, tt))
      /\ emitted (log final) = [u "data: a"; u "data: b"].
Proof.
  destruct (C5_streaming_relay_is_identity float_repr_unused 1000
              (fun _ => unavailable) streamed_request streamed_request
              eq_refl eq_refl) as [Hreply Hrun].
  split; [exact Hreply|].
  destruct (Hrun [u "data: a"; u "data: b"])
    as (final & Heutt & _ & _ & _ & Hemitted & _).
  exists final. split; [exact Heutt | exact Hemitted].
Defined.

(** ** The library models on concrete inputs *)

Example json_loads_values :
  json_loads 1000 (q " [1, -0, 2.50e-3, 1E+5, true, false, null, NaN, -Infinity] ")
  = Returns (VList [VInt 1; VInt 0; VFloat (FDec false 250 (-5));
                    VFloat (FDec false 1 5); VBool true; VBool false; VNone;
                    VFloat FNaN; VFloat FNegInf]).
Proof. vm_compute. reflexivity. Qed.

Example json_loads_strings :
  json_loads 1000 (q "['a\n\/\\\'', '\u00e9', '\ud83d\ude00', '\ud83dx']")
  = Returns (VList [VStr [97; 10; 47; 92; 34]; VStr [233]; VStr [128512];
                    VStr [55357; 120]]).
Proof. vm_compute. reflexivity. Qed.

Example json_loads_objects :
  json_loads 1000 (q "{ 'a' : 1 , 'b' : { } , 'a' : [ ] }")
  = Returns (VDict [(u "a", VList []); (u "b", VDict [])]).
Proof. vm_compute. reflexivity. Qed.

Example json_loads_rejects :
  List.map (json_loads 1000)
    [q ""; q "01"; q "1."; q "1e"; q "-"; q "nul"; q "[1,]"; q "[1 2]";
     q "{'a':1,}"; q "{'a' 1}"; q "{a:1}"; q "{'a':1}x"; q "'\x'"; q "'\u12'";
     q "'open"; q "{'a':'}"]
  = repeat (Raises JSONDecodeError) 16.
Proof. vm_compute. reflexivity. Qed.

(** The two limits of the interpreter: an integer literal of 4300 digits
    is converted and one of 4301 is not, whatever follows it, while a
    float has no limit; arrays three deep need a depth of three. *)
Example json_loads_limits :
  (exists z, json_loads 1000 (repeat 49 4300) = Returns (VInt z))
  /\ (exists z, json_loads 1000 (Ch.minus :: repeat 49 4300)
                = Returns (VInt z))
  /\ json_loads 1000 (repeat 49 4301) = Raises ValueError
  /\ json_loads 1000 (q "[" ++ repeat 49 4301 ++ q ",") = Raises ValueError
  /\ (exists m, json_loads 1000 (repeat 49 4301 ++ u ".5")
                = Returns (VFloat (FDec false m (-1))))
  /\ json_loads 3 (q "[[[]]]") = Returns (VList [VList [VList []]])
  /\ json_loads 2 (q "[[[]]]") = Raises RecursionError
  /\ json_loads 2 (q "[{'a':{}}]") = Raises RecursionError.
Proof.
  split; [eexists; vm_compute; reflexivity|].
  split; [eexists; vm_compute; reflexivity|].
  split; [vm_compute; reflexivity|].
  split; [vm_compute; reflexivity|].
  split; [eexists; vm_compute; reflexivity|].
  split; [vm_compute; reflexivity|].
  split; vm_compute; reflexivity.
Qed.

(** What [JSONResponse] cannot render. *)
Example render_examples :
  List.map render
    [VDict [(u "a", VList [VFloat (FDec false 15 (-1)); VStr [233; 128512]])];
     VFloat (FDec false 1 308);
     VFloat (FDec false 1 309);
     VFloat (FDec true 1 999);
     VList [VFloat FNaN];
     VDict [(u "a", VFloat FInf)];
     VStr [55357];
     VDict [([56832], VNone)];
     VList [VStr [55357]; VFloat FNegInf];
     VInt (1 - 10 ^ 4300);
     VInt (10 ^ 4300)]
  = [Returns tt; Returns tt; Raises ValueError; Raises ValueError;
     Raises ValueError; Raises ValueError; Raises UnicodeEncodeError;
     Raises UnicodeEncodeError; Raises ValueError; Returns tt;
     Raises ValueError].
Proof. vm_compute. reflexivity. Qed.

Example json_dumps_compact :
  json_dumps float_repr_unused
    (VDict [(u "type", VStr (u "object"));
            (u "required", VList [VStr (u "a"); VStr (u "b")]);
            (u "n", VInt (-20));
            (u "s", VStr [34; 233; 10; 128512; 127])])
  = q "{'type':'object','required':['a','b'],'n':-20,'s':'\'\u00e9\n\ud83d\ude00\u007f'}".
Proof. vm_compute. reflexivity. Qed.

Example utf8_decode_examples :
  utf8_decode [104; 195; 169; 226; 130; 172; 240; 159; 152; 128]
  = Returns [104; 233; 8364; 128512]
  /\ utf8_decode [237; 160; 128] = Raises UnicodeDecodeError
  /\ utf8_decode [192; 128] = Raises UnicodeDecodeError
  /\ utf8_decode [226; 130] = Raises UnicodeDecodeError.
Proof. vm_compute. auto. Qed.

Example truthy_examples :
  List.map truthy
    [VNone; VBool false; VInt 0; VFloat (FDec true 0 (-1));
     VFloat (FDec false 1 (-400)); VStr []; VList []; VDict [];
     VFloat (FDec false 1 (-300)); VFloat FNaN; VStr (u "false");
     VList [VNone]; VInt (-1)]
  = [false; false; false; false; false; false; false; false;
     true; true; true; true; true].
Proof. vm_compute. reflexivity. Qed.

Example _JSON_RE_search_examples :
  _JSON_RE_search (u "no braces here") = None
  /\ _JSON_RE_search (u "} before {") = None
  /\ _JSON_RE_search (u "a {b {c} d} e") = Some (u "{b {c}")
  /\ _JSON_RE_search (u "{ {") = None.
Proof. vm_compute. auto. Qed.

(** ** [json.loads] and the lexical structure of its input *)

Lemma lex_run_app st a b : lex_run st (a ++ b) = lex_run (lex_run st a) b.
Proof. apply fold_left_app. Qed.

Lemma outside_app x st a b :
  outside x st (a ++ b)
  = (outside x st a + outside x (lex_run st a) b)%nat.
Proof.
  revert st. induction a as [|c a IH]; intros st; simpl; [reflexivity|].
  rewrite IH. lia.
Qed.

Lemma seg_nil st : seg st [] st 0%nat 0%nat.
Proof. repeat split. Qed.

Lemma seg_app st a st1 o1 c1 b st2 o2 c2 :
  seg st a st1 o1 c1 -> seg st1 b st2 o2 c2 ->
  seg st (a ++ b) st2 (o1 + o2)%nat (c1 + c2)%nat.
Proof.
  intros (Ha & Hao & Hac) (Hb & Hbo & Hbc). unfold seg.
  rewrite lex_run_app, !outside_app, Ha. auto.
Qed.

Lemma seg_cons st x b st2 o c :
  seg (lex_step st x) b st2 o c ->
  seg st (x :: b) st2
    ((match st with Code => if (x =? Ch.lbrace)%N then 1 else 0 | _ => 0 end)
     + o)%nat
    ((match st with Code => if (x =? Ch.rbrace)%N then 1 else 0 | _ => 0 end)
     + c)%nat.
Proof.
  intros (Hb & Hbo & Hbc). unfold seg. simpl. auto.
Qed.

Lemma seg_plain a :
  Forall (fun c => plain c = true) a -> seg Code a Code 0%nat 0%nat.
Proof.
  induction 1 as [|c a Hc _ IH]; [apply seg_nil|].
  unfold plain in Hc.
  apply andb_prop in Hc as [Hc Hr]. apply andb_prop in Hc as [Hq Hl].
  apply negb_true_iff in Hq, Hl, Hr.
  pose proof (seg_cons Code c a Code 0%nat 0%nat) as H.
  cbn [lex_step] in H. rewrite Hq, Hl, Hr in H. apply H. exact IH.
Qed.

Lemma well_plain a : Forall (fun c => plain c = true) a -> well a.
Proof. exists 0%nat. apply seg_plain. assumption. Qed.


Lemma consumed_weaken (P Q : str -> Prop) s rest :
  (forall pre, P pre -> Q pre) -> consumed P s rest -> consumed Q s rest.
Proof. intros H (pre & E & HP). exists pre. auto. Qed.

Lemma consumed_trans (P Q R : str -> Prop) s mid rest :
  (forall a b, P a -> Q b -> R (a ++ b)) ->
  consumed P s mid -> consumed Q mid rest -> consumed R s rest.
Proof.
  intros H (a & -> & Ha) (b & -> & Hb). exists (a ++ b).
  rewrite app_assoc. auto.
Qed.

Lemma consumed_cons (P Q : str -> Prop) c s rest :
  (forall a, P a -> Q (c :: a)) ->
  consumed P s rest -> consumed Q (c :: s) rest.
Proof. intros H (a & -> & Ha). exists (c :: a). auto. Qed.

Lemma consumed_length (P : str -> Prop) s rest :
  consumed P s rest -> (List.length rest <= List.length s)%nat.
Proof. intros (a & -> & _). rewrite length_app. lia. Qed.

Lemma skip_ws_consumed s : consumed all_plain s (skip_ws s).
Proof.
  induction s as [|c s IH]; simpl.
  - exists []. split; [reflexivity|constructor].
  - destruct (is_ws c) eqn:E.
    + apply consumed_cons with (P := all_plain); [|exact IH].
      intros a Ha. constructor; [|exact Ha].
      unfold is_ws in E. unfold plain.
      repeat (apply orb_prop in E as [E|E]); apply N.eqb_eq in E; subst c;
        reflexivity.
    + exists []. split; [reflexivity|constructor].
Qed.

(** *** Strings *)

Lemma instr_close c : (c =? Ch.dquote) = true -> instr [c].
Proof. intros E. unfold instr, seg. simpl. rewrite E. auto. Qed.

Lemma instr_keep c pre :
  lex_step InStr c = InStr -> instr pre -> instr (c :: pre).
Proof.
  intros E H. unfold instr in *. rewrite <- E in H.
  exact (seg_cons InStr c pre Code 0%nat 0%nat H).
Qed.

Lemma instr_escape c e pre :
  (c =? Ch.dquote) = false -> (c =? Ch.backslash) = true ->
  instr pre -> instr (c :: e :: pre).
Proof.
  intros Hq Hb H.
  pose proof (seg_cons InStr c (e :: pre) Code 0%nat 0%nat) as Hc.
  cbn [lex_step] in Hc. rewrite Hq, Hb in Hc. apply Hc.
  exact (seg_cons Esc e pre Code 0%nat 0%nat H).
Qed.

Lemma hex_digit_keeps h d : hex_digit h = Some d -> lex_step InStr h = InStr.
Proof.
  unfold hex_digit, lex_step, Ch.dquote, Ch.backslash.
  destruct (N.eqb_spec h 34) as [->|_]; [vm_compute; discriminate|].
  destruct (N.eqb_spec h 92) as [->|_]; [vm_compute; discriminate|].
  reflexivity.
Qed.

Lemma hex4_keeps a b c d n pre :
  hex4 a b c d = Some n -> instr pre -> instr (a :: b :: c :: d :: pre).
Proof.
  unfold hex4.
  destruct (hex_digit a) eqn:Ea; [|discriminate].
  destruct (hex_digit b) eqn:Eb; [|discriminate].
  destruct (hex_digit c) eqn:Ec; [|discriminate].
  destruct (hex_digit d) eqn:Ed; [|discriminate].
  intros _ H.
  repeat (apply instr_keep; [eapply hex_digit_keeps; eassumption|]).
  exact H.
Qed.

Lemma push_returns c r chars rest :
  push c r = Returns (chars, rest) ->
  exists chars', r = Returns (chars', rest).
Proof.
  unfold push. destruct r as [[chars' rest']| |]; simpl; intros H;
    try discriminate.
  injection H as _ <-. eauto.
Qed.

Lemma push_lexes c r : lexes r -> lexes (push c r).
Proof. destruct r as [[? ?]|[]|]; simpl; auto. Qed.

Ltac keep_scanning IH Hlen :=
  match goal with
  | H : push _ (scanstring ?t) = Returns _ |- _ =>
      apply push_returns in H as [? H];
      apply IH in H; [|simpl in Hlen; lia]
  end.

(** A string the scanner accepts ends at its closing quote, and the scan
    of the text agrees: it is inside the string up to there. *)
Lemma scanstring_consumed_upto n : forall s chars rest,
  (List.length s <= n)%nat ->
  scanstring s = Returns (chars, rest) ->
  consumed instr s rest.
Proof.
  induction n as [|n IH]; intros s chars rest Hlen H.
  { destruct s; [discriminate|simpl in Hlen; lia]. }
  destruct s as [|c s1]; [discriminate|]. simpl in H.
  destruct (c =? Ch.dquote) eqn:Eq.
  { injection H as _ <-. exists [c]. split; [reflexivity|].
    apply instr_close. exact Eq. }
  destruct (c =? Ch.backslash) eqn:Eb.
  - destruct s1 as [|esc s2]; [discriminate|].
    destruct (esc =? 117) eqn:Eu.
    + destruct s2 as [|h1 [|h2 [|h3 [|h4 s6]]]]; try discriminate.
      destruct (hex4 h1 h2 h3 h4) as [uni|] eqn:Eh; [|discriminate].
      assert (Hs6 : forall chars',
                 push uni (scanstring s6) = Returns (chars', rest) ->
                 consumed instr (c :: esc :: h1 :: h2 :: h3 :: h4 :: s6) rest).
      { intros chars' H'. keep_scanning IH Hlen.
        destruct H' as (pre & -> & Hpre).
        exists (c :: esc :: h1 :: h2 :: h3 :: h4 :: pre).
        split; [reflexivity|].
        apply instr_escape; try assumption.
        eapply hex4_keeps; eassumption. }
      destruct s6 as [|b [|x [|g1 [|g2 [|g3 [|g4 s12]]]]]]; eauto.
      destruct (is_high_surrogate uni && (b =? Ch.backslash) && (x =? 117))
        eqn:Epair; eauto.
      destruct (hex4 g1 g2 g3 g4) as [uni2|] eqn:Eg; [|discriminate].
      destruct (is_low_surrogate uni2); eauto.
      keep_scanning IH Hlen. destruct H as (pre & -> & Hpre).
      exists (c :: esc :: h1 :: h2 :: h3 :: h4
                :: b :: x :: g1 :: g2 :: g3 :: g4 :: pre).
      split; [reflexivity|].
      apply andb_prop in Epair as [Epair _].
      apply andb_prop in Epair as [_ Eb2].
      apply instr_escape; try assumption.
      eapply hex4_keeps; [eassumption|].
      apply instr_escape; [|assumption|].
      { apply N.eqb_eq in Eb2. subst b. reflexivity. }
      eapply hex4_keeps; eassumption.
    + destruct (BACKSLASH esc); [|discriminate].
      keep_scanning IH Hlen. destruct H as (pre & -> & Hpre).
      exists (c :: esc :: pre). split; [reflexivity|].
      apply instr_escape; assumption.
  - destruct (c <? 32); [discriminate|].
    keep_scanning IH Hlen. destruct H as (pre & -> & Hpre).
    exists (c :: pre). split; [reflexivity|].
    apply instr_keep; [|assumption].
    unfold lex_step. rewrite Eq, Eb. reflexivity.
Qed.

Lemma scanstring_consumed s chars rest :
  scanstring s = Returns (chars, rest) -> consumed instr s rest.
Proof. apply (scanstring_consumed_upto (List.length s)). lia. Qed.

Lemma scanstring_lexes_upto n : forall s,
  (List.length s <= n)%nat -> lexes (scanstring s).
Proof.
  induction n as [|n IH]; intros s Hlen.
  { destruct s; [exact I|simpl in Hlen; lia]. }
  destruct s as [|c s1]; [exact I|]. simpl.
  destruct (c =? Ch.dquote); [exact I|].
  destruct (c =? Ch.backslash).
  - destruct s1 as [|esc s2]; [exact I|].
    destruct (esc =? 117).
    + destruct s2 as [|h1 [|h2 [|h3 [|h4 s6]]]]; try exact I.
      destruct (hex4 h1 h2 h3 h4) as [uni|]; [|exact I].
      assert (Hs6 : lexes (push uni (scanstring s6)))
        by (apply push_lexes, IH; simpl in Hlen; lia).
      destruct s6 as [|b [|x [|g1 [|g2 [|g3 [|g4 s12]]]]]]; try exact Hs6.
      destruct (is_high_surrogate uni && (b =? Ch.backslash) && (x =? 117));
        [|exact Hs6].
      destruct (hex4 g1 g2 g3 g4) as [uni2|]; [|exact I].
      destruct (is_low_surrogate uni2); [|exact Hs6].
      apply push_lexes, IH. simpl in Hlen. lia.
    + destruct (BACKSLASH esc); [|exact I].
      apply push_lexes, IH. simpl in Hlen. lia.
  - destruct (c <? 32); [exact I|].
    apply push_lexes, IH. simpl in Hlen. lia.
Qed.

Lemma scanstring_lexes s : lexes (scanstring s).
Proof. apply (scanstring_lexes_upto (List.length s)). lia. Qed.

(** *** Numbers and constants *)

Lemma plain_intro c :
  c <> Ch.dquote -> c <> Ch.lbrace -> c <> Ch.rbrace -> plain c = true.
Proof.
  intros Hq Hl Hr. unfold plain.
  destruct (N.eqb_spec c Ch.dquote); [contradiction|].
  destruct (N.eqb_spec c Ch.lbrace); [contradiction|].
  destruct (N.eqb_spec c Ch.rbrace); [contradiction|].
  reflexivity.
Qed.

Ltac plain_char :=
  apply plain_intro; intros ->; vm_compute in *; discriminate.

Lemma is_digit_plain c : is_digit c = true -> plain c = true.
Proof. intros H. plain_char. Qed.

Lemma all_plain_app a b : all_plain a -> all_plain b -> all_plain (a ++ b).
Proof. intros Ha Hb. apply Forall_app. auto. Qed.

Lemma span_digits_consumed s ds r :
  span_digits s = (ds, r) -> s = ds ++ r /\ all_plain ds.
Proof.
  revert ds r. induction s as [|c s IH]; simpl; intros ds r H.
  - injection H as <- <-. split; [reflexivity|constructor].
  - destruct (is_digit c) eqn:Ed.
    + destruct (span_digits s) as [ds' r'].
      injection H as <- <-. destruct (IH ds' r' eq_refl) as [-> Hds].
      split; [reflexivity|]. constructor; [|exact Hds].
      apply is_digit_plain. exact Ed.
    + injection H as <- <-. split; [reflexivity|constructor].
Qed.

Lemma match_integer_consumed s ds r :
  match_integer s = Some (ds, r) -> s = ds ++ r /\ some_plain ds.
Proof.
  unfold match_integer. destruct s as [|c s1]; [discriminate|].
  destruct (c =? Ch.zero) eqn:Ez.
  - intros [= <- <-]. split; [reflexivity|]. split; [discriminate|].
    constructor; [|constructor]. apply N.eqb_eq in Ez. subst c. reflexivity.
  - destruct (is_digit c) eqn:Ed; [|discriminate].
    destruct (span_digits s1) as [ds' r'] eqn:Es. intros [= <- <-].
    apply span_digits_consumed in Es as [-> Hds].
    split; [reflexivity|]. split; [discriminate|].
    constructor; [|exact Hds]. apply is_digit_plain. exact Ed.
Qed.

Lemma match_frac_consumed s fs r :
  match_frac s = (fs, r) -> consumed all_plain s r.
Proof.
  unfold match_frac. destruct s as [|c s1].
  - intros [= _ <-]. exists []. split; [reflexivity|constructor].
  - destruct (c =? Ch.dot) eqn:Edot.
    + destruct (span_digits s1) as [[|d ds] r'] eqn:Es.
      * intros [= _ <-]. exists []. split; [reflexivity|constructor].
      * intros [= _ <-]. apply span_digits_consumed in Es as [-> Hds].
        exists (c :: d :: ds). split; [reflexivity|].
        constructor; [|exact Hds].
        apply N.eqb_eq in Edot. subst c. reflexivity.
    + intros [= _ <-]. exists []. split; [reflexivity|constructor].
Qed.

Lemma match_exp_consumed s e r :
  match_exp s = (e, r) -> consumed all_plain s r.
Proof.
  unfold match_exp. destruct s as [|c s1].
  - intros [= _ <-]. exists []. split; [reflexivity|constructor].
  - destruct ((c =? 101) || (c =? 69)) eqn:Ee.
    + assert (Hc : plain c = true).
      { apply orb_prop in Ee as [Ee|Ee]; apply N.eqb_eq in Ee; subst c;
          reflexivity. }
      assert (Hsign : exists neg sg s2,
                 match s1 with
                 | sg :: s1' =>
                     if sg =? Ch.minus then (true, s1')
                     else if sg =? Ch.plus then (false, s1')
                     else (false, s1)
                 | [] => (false, s1)
                 end = (neg, s2)
                 /\ s1 = sg ++ s2 /\ all_plain sg).
      { destruct s1 as [|sg s1'].
        - exists false, [], []. repeat split. constructor.
        - destruct (sg =? Ch.minus) eqn:Em.
          + exists true, [sg], s1'. repeat split.
            constructor; [|constructor].
            apply N.eqb_eq in Em. subst sg. reflexivity.
          + destruct (sg =? Ch.plus) eqn:Ep.
            * exists false, [sg], s1'. repeat split.
              constructor; [|constructor].
              apply N.eqb_eq in Ep. subst sg. reflexivity.
            * exists false, [], (sg :: s1'). repeat split. constructor. }
      destruct Hsign as (neg & sg & s2 & -> & -> & Hsg).
      destruct (span_digits s2) as [[|d ds] r'] eqn:Es.
      * intros [= _ <-]. exists []. split; [reflexivity|constructor].
      * intros [= _ <-]. apply span_digits_consumed in Es as [-> Hds].
        exists (c :: sg ++ d :: ds). split.
        { simpl. rewrite <- app_assoc. reflexivity. }
        constructor; [exact Hc|]. apply all_plain_app; assumption.
    + intros [= _ <-]. exists []. split; [reflexivity|constructor].
Qed.

Lemma match_number_consumed s v rest :
  match_number s = Some (v, rest) -> consumed some_plain s rest.
Proof.
  unfold match_number.
  assert (Hsign : exists neg sg s0,
             match s with
             | c :: s' => if c =? Ch.minus then (true, s') else (false, s)
             | [] => (false, s)
             end = (neg, s0)
             /\ s = sg ++ s0 /\ all_plain sg).
  { destruct s as [|c s'].
    - exists false, [], []. repeat split. constructor.
    - destruct (c =? Ch.minus) eqn:Em.
      + exists true, [c], s'. repeat split. constructor; [|constructor].
        apply N.eqb_eq in Em. subst c. reflexivity.
      + exists false, [], (c :: s'). repeat split. constructor. }
  destruct Hsign as (neg & sg & s0 & -> & -> & Hsg).
  destruct (match_integer s0) as [[integer s1]|] eqn:Ei; [|discriminate].
  apply match_integer_consumed in Ei as [-> [Hne Hint]].
  destruct (match_frac s1) as [frac s2] eqn:Ef.
  apply match_frac_consumed in Ef as (fp & -> & Hfp).
  destruct (match_exp s2) as [exp s3] eqn:Ee.
  apply match_exp_consumed in Ee as (ep & -> & Hep).
  intros H.
  assert (rest = s3) as ->.
  { destruct frac, exp; injection H; auto. }
  exists (sg ++ integer ++ fp ++ ep). split.
  - rewrite <- !app_assoc. reflexivity.
  - split.
    + destruct sg; [destruct integer; [congruence|discriminate]|discriminate].
    + repeat apply all_plain_app; assumption.
Qed.

Lemma startswith_split p s :
  startswith p s = true -> s = p ++ skipn (List.length p) s.
Proof.
  revert s. induction p as [|x p IH]; intros s H; [reflexivity|].
  destruct s as [|y s]; [discriminate|]. simpl in H.
  apply andb_prop in H as [Hxy H]. apply N.eqb_eq in Hxy. subst y.
  simpl. f_equal. apply IH. exact H.
Qed.

Lemma drop_prefix_consumed p s r :
  p <> [] -> all_plain p -> drop_prefix p s = Some r -> consumed some_plain s r.
Proof.
  unfold drop_prefix. intros Hne Hp.
  destruct (startswith p s) eqn:E; [|discriminate].
  intros [= <-]. exists p. split; [|split; assumption].
  apply startswith_split. exact E.
Qed.

Lemma constant_plain (w : string) :
  forallb plain (u w) = true -> all_plain (u w).
Proof. intros H. apply Forall_forall. apply forallb_forall. exact H. Qed.

(** *** Arrays and objects *)

Lemma reads_trans st st1 st2 o1 c1 o2 c2 s mid rest :
  reads st st1 o1 c1 s mid -> reads st1 st2 o2 c2 mid rest ->
  reads st st2 (o1 + o2) (c1 + c2) s rest.
Proof.
  apply consumed_trans. intros a b. apply seg_app.
Qed.

Lemma reads_plain s rest :
  consumed all_plain s rest -> reads Code Code 0 0 s rest.
Proof. apply consumed_weaken. exact seg_plain. Qed.

Lemma reads_ws s : reads Code Code 0 0 s (skip_ws s).
Proof. apply reads_plain, skip_ws_consumed. Qed.

Lemma reads_char st c s :
  reads st (lex_step st c)
    (match st with Code => if c =? Ch.lbrace then 1 else 0 | _ => 0 end)
    (match st with Code => if c =? Ch.rbrace then 1 else 0 | _ => 0 end)
    (c :: s) s.
Proof.
  exists [c]. split; [reflexivity|].
  pose proof (seg_cons st c [] _ _ _ (seg_nil (lex_step st c))) as H.
  rewrite !Nat.add_0_r in H. exact H.
Qed.

Lemma reads_good s rest : consumed good s rest ->
  exists n, reads Code Code n n s rest.
Proof.
  intros (pre & -> & _ & n & H). exists n, pre. auto.
Qed.

Lemma reads_length st st' o c s rest :
  reads st st' o c s rest -> (List.length rest <= List.length s)%nat.
Proof. apply consumed_length. Qed.

Lemma good_length s rest :
  consumed good s rest -> (List.length rest < List.length s)%nat.
Proof.
  intros (pre & -> & Hne & _). rewrite length_app.
  destruct pre; [congruence|simpl; lia].
Qed.

Lemma instr_length s rest :
  consumed instr s rest -> (List.length rest < List.length s)%nat.
Proof.
  intros (pre & -> & H & _). rewrite length_app.
  destruct pre; [discriminate|simpl; lia].
Qed.

Lemma skip_ws_length s : (List.length (skip_ws s) <= List.length s)%nat.
Proof. apply (consumed_length _ _ _ (skip_ws_consumed s)). Qed.

Lemma skip_ws_cons_length s c s' :
  skip_ws s = c :: s' -> (List.length s' < List.length s)%nat.
Proof.
  intros H. pose proof (skip_ws_length s) as Hl. rewrite H in Hl.
  simpl in Hl. lia.
Qed.

Lemma reads_good_intro s rest n :
  reads Code Code n n s rest -> (List.length rest < List.length s)%nat ->
  consumed good s rest.
Proof.
  intros (pre & -> & H) Hlen. exists pre. split; [reflexivity|].
  split; [|exists n; exact H].
  intros ->. simpl in Hlen. lia.
Qed.

Section ContainerFacts.

Variable scan : str -> outcome (value * str).
Variable bound : nat.

Hypothesis scan_consumed : forall s v rest,
  scan s = Returns (v, rest) -> consumed good s rest.

Hypothesis scan_scans : forall s,
  (List.length s < bound)%nat -> scans (scan s).

Lemma expecting_value_returns s v rest :
  expecting_value scan s = Returns (v, rest) -> consumed good s rest.
Proof.
  unfold expecting_value. intros H. apply scan_consumed with (v := v).
  destruct (scan s) as [?|[]|]; try discriminate; exact H.
Qed.

Lemma expecting_value_decodes s :
  (List.length s < bound)%nat -> decodes (expecting_value scan s).
Proof.
  intros Hlen. apply scan_scans in Hlen. unfold expecting_value.
  destruct (scan s) as [?|[]|]; simpl in *; auto.
Qed.

Lemma JSONArray_loop_reads n : forall s values v rest,
  JSONArray_loop scan n s values = Returns (v, rest) ->
  exists k, reads Code Code k k s rest.
Proof.
  induction n as [|n IH]; intros s values v rest H; [discriminate|].
  simpl in H. apply and_then_returns in H as ([v1 s1] & Hv & H).
  apply expecting_value_returns, reads_good in Hv as [k1 Hv].
  pose proof (reads_ws s1) as Hws.
  destruct (skip_ws s1) as [|c s2]; [discriminate|].
  destruct (c =? Ch.rbracket) eqn:Er.
  - injection H as _ <-. apply N.eqb_eq in Er. subst c.
    exists (k1 + (0 + 0))%nat.
    exact (reads_trans _ _ _ _ _ _ _ _ _ _ Hv
             (reads_trans _ _ _ _ _ _ _ _ _ _ Hws
                (reads_char Code Ch.rbracket s2))).
  - destruct (c =? Ch.comma) eqn:Ec; [|discriminate].
    apply N.eqb_eq in Ec. subst c.
    apply IH in H as [k2 H].
    exists (k1 + (0 + (0 + (0 + k2))))%nat.
    exact (reads_trans _ _ _ _ _ _ _ _ _ _ Hv
             (reads_trans _ _ _ _ _ _ _ _ _ _ Hws
                (reads_trans _ _ _ _ _ _ _ _ _ _ (reads_char Code Ch.comma s2)
                   (reads_trans _ _ _ _ _ _ _ _ _ _ (reads_ws s2) H)))).
Qed.

Lemma JSONArray_reads n s v rest :
  JSONArray scan n s = Returns (v, rest) ->
  exists k, reads Code Code k k s rest.
Proof.
  unfold JSONArray. intros H.
  pose proof (reads_ws s) as Hws.
  destruct (skip_ws s) as [|c s1].
  - apply JSONArray_loop_reads in H as [k H].
    exists (0 + k)%nat. exact (reads_trans _ _ _ _ _ _ _ _ _ _ Hws H).
  - destruct (c =? Ch.rbracket) eqn:Er.
    + injection H as _ <-. apply N.eqb_eq in Er. subst c. exists (0 + 0)%nat.
      exact (reads_trans _ _ _ _ _ _ _ _ _ _ Hws
               (reads_char Code Ch.rbracket s1)).
    + apply JSONArray_loop_reads in H as [k H].
      exists (0 + k)%nat. exact (reads_trans _ _ _ _ _ _ _ _ _ _ Hws H).
Qed.

Lemma JSONArray_loop_decodes n : forall s values,
  (List.length s < n)%nat -> (List.length s < bound)%nat ->
  decodes (JSONArray_loop scan n s values).
Proof.
  induction n as [|n IH]; intros s values Hn Hb; [lia|].
  simpl. pose proof (expecting_value_decodes s Hb) as Hd.
  destruct (expecting_value scan s) as [[v1 s1]|e|] eqn:Hv;
    [|exact Hd|exact Hd].
  apply expecting_value_returns, good_length in Hv. cbn [and_then].
  destruct (skip_ws s1) as [|c s2] eqn:Hws; [exact I|].
  apply skip_ws_cons_length in Hws.
  destruct (c =? Ch.rbracket); [exact I|].
  destruct (c =? Ch.comma); [|exact I].
  pose proof (skip_ws_length s2). apply IH; lia.
Qed.

Lemma JSONArray_decodes n s :
  (List.length s < n)%nat -> (List.length s < bound)%nat ->
  decodes (JSONArray scan n s).
Proof.
  intros Hn Hb. unfold JSONArray.
  pose proof (skip_ws_length s) as Hl.
  destruct (skip_ws s) as [|c s1].
  - apply JSONArray_loop_decodes; simpl; lia.
  - destruct (c =? Ch.rbracket); [exact I|].
    apply JSONArray_loop_decodes; lia.
Qed.

Lemma JSONObject_loop_closes n : forall s pairs v rest,
  JSONObject_loop scan n s pairs = Returns (v, rest) ->
  closes_object InStr s rest.
Proof.
  induction n as [|n IH]; intros s pairs v rest H; [discriminate|].
  simpl in H. apply and_then_returns in H as ([key s1] & Hkey & H).
  apply scanstring_consumed in Hkey. fold (reads InStr Code 0 0 s s1) in Hkey.
  pose proof (reads_ws s1) as Hws1.
  destruct (skip_ws s1) as [|c s2]; [discriminate|].
  destruct (c =? Ch.colon) eqn:Ecolon; [|discriminate].
  apply N.eqb_eq in Ecolon. subst c.
  apply and_then_returns in H as ([v1 s3] & Hv & H).
  apply expecting_value_returns, reads_good in Hv as [k1 Hv].
  pose proof (reads_ws s3) as Hws3.
  destruct (skip_ws s3) as [|c' s4]; [discriminate|].
  pose proof (reads_trans _ _ _ _ _ _ _ _ _ _ Hkey
                (reads_trans _ _ _ _ _ _ _ _ _ _ Hws1
                   (reads_trans _ _ _ _ _ _ _ _ _ _
                      (reads_char Code Ch.colon s2)
                      (reads_trans _ _ _ _ _ _ _ _ _ _ (reads_ws s2)
                         (reads_trans _ _ _ _ _ _ _ _ _ _ Hv Hws3)))))
    as Hmember.
  cbn [lex_step] in Hmember. simpl (Ch.colon =? _) in Hmember.
  cbv iota in Hmember.
  destruct (c' =? Ch.rbrace) eqn:Er.
  - injection H as _ <-. apply N.eqb_eq in Er. subst c'.
    pose proof (reads_trans _ _ _ _ _ _ _ _ _ _ Hmember
                  (reads_char Code Ch.rbrace s4)) as Hall.
    eexists _, _. split; [exact Hall|]. simpl. lia.
  - destruct (c' =? Ch.comma) eqn:Ec; [|discriminate].
    apply N.eqb_eq in Ec. subst c'.
    pose proof (reads_ws s4) as Hws4.
    destruct (skip_ws s4) as [|x s5]; [discriminate|].
    destruct (x =? Ch.dquote) eqn:Eq; [|discriminate].
    apply N.eqb_eq in Eq. subst x.
    apply IH in H as (o & c & H & ->).
    pose proof (reads_trans _ _ _ _ _ _ _ _ _ _ Hmember
                  (reads_trans _ _ _ _ _ _ _ _ _ _
                     (reads_char Code Ch.comma s4)
                     (reads_trans _ _ _ _ _ _ _ _ _ _ Hws4
                        (reads_trans _ _ _ _ _ _ _ _ _ _
                           (reads_char Code Ch.dquote s5) H)))) as Hall.
    eexists _, _. split; [exact Hall|]. simpl. lia.
Qed.

Lemma JSONObject_closes n s v rest :
  JSONObject scan n s = Returns (v, rest) -> closes_object Code s rest.
Proof.
  unfold JSONObject. intros H.
  pose proof (reads_ws s) as Hws.
  destruct (skip_ws s) as [|c s1]; [discriminate|].
  destruct (c =? Ch.rbrace) eqn:Er.
  - injection H as _ <-. apply N.eqb_eq in Er. subst c.
    pose proof (reads_trans _ _ _ _ _ _ _ _ _ _ Hws
                  (reads_char Code Ch.rbrace s1)) as Hall.
    eexists _, _. split; [exact Hall|]. reflexivity.
  - destruct (c =? Ch.dquote) eqn:Eq; [|discriminate].
    apply N.eqb_eq in Eq. subst c.
    apply JSONObject_loop_closes in H as (o & c & H & ->).
    pose proof (reads_trans _ _ _ _ _ _ _ _ _ _ Hws
                  (reads_trans _ _ _ _ _ _ _ _ _ _
                     (reads_char Code Ch.dquote s1) H)) as Hall.
    eexists _, _. split; [exact Hall|]. simpl. lia.
Qed.

Lemma JSONObject_loop_decodes n : forall s pairs,
  (List.length s < n)%nat -> (List.length s < bound)%nat ->
  decodes (JSONObject_loop scan n s pairs).
Proof.
  induction n as [|n IH]; intros s pairs Hn Hb; [lia|].
  simpl. pose proof (scanstring_lexes s) as Hd.
  destruct (scanstring s) as [[key s1]|e|] eqn:Hkey;
    [|destruct e; simpl in Hd; (contradiction || exact I)
     |simpl in Hd; contradiction].
  apply scanstring_consumed, instr_length in Hkey. cbn [and_then].
  destruct (skip_ws s1) as [|c s2] eqn:Hws1; [exact I|].
  apply skip_ws_cons_length in Hws1.
  destruct (c =? Ch.colon); [|exact I].
  pose proof (skip_ws_length s2) as Hl2.
  assert (Hb2 : (List.length (skip_ws s2) < bound)%nat) by lia.
  pose proof (expecting_value_decodes _ Hb2) as Hdv.
  destruct (expecting_value scan (skip_ws s2)) as [[v1 s3]|e|] eqn:Hv;
    [|exact Hdv|exact Hdv].
  apply expecting_value_returns, good_length in Hv. cbn [and_then].
  destruct (skip_ws s3) as [|c' s4] eqn:Hws3; [exact I|].
  apply skip_ws_cons_length in Hws3.
  destruct (c' =? Ch.rbrace); [exact I|].
  destruct (c' =? Ch.comma); [|exact I].
  destruct (skip_ws s4) as [|x s5] eqn:Hws4; [exact I|].
  apply skip_ws_cons_length in Hws4.
  destruct (x =? Ch.dquote); [|exact I].
  apply IH; lia.
Qed.

Lemma JSONObject_decodes n s :
  (List.length s < n)%nat -> (List.length s < bound)%nat ->
  decodes (JSONObject scan n s).
Proof.
  intros Hn Hb. unfold JSONObject.
  destruct (skip_ws s) as [|c s1] eqn:Hws; [exact I|].
  apply skip_ws_cons_length in Hws.
  destruct (c =? Ch.rbrace); [exact I|].
  destruct (c =? Ch.dquote); [|exact I].
  apply JSONObject_loop_decodes; lia.
Qed.

(** An object is decoded to a dictionary. *)
Lemma JSONObject_loop_dict n : forall s pairs v rest,
  JSONObject_loop scan n s pairs = Returns (v, rest) -> exists d, v = VDict d.
Proof.
  induction n as [|n IH]; intros s pairs v rest H; [discriminate|].
  simpl in H. apply and_then_returns in H as ([key s1] & _ & H).
  destruct (skip_ws s1) as [|c s2]; [discriminate|].
  destruct (c =? Ch.colon); [|discriminate].
  apply and_then_returns in H as ([v1 s3] & _ & H).
  destruct (skip_ws s3) as [|c' s4]; [discriminate|].
  destruct (c' =? Ch.rbrace); [injection H as <- _; eauto|].
  destruct (c' =? Ch.comma); [|discriminate].
  destruct (skip_ws s4) as [|x s5]; [discriminate|].
  destruct (x =? Ch.dquote); [|discriminate].
  eapply IH. exact H.
Qed.

Lemma JSONObject_dict n s v rest :
  JSONObject scan n s = Returns (v, rest) -> exists d, v = VDict d.
Proof.
  unfold JSONObject.
  destruct (skip_ws s) as [|c s1]; [discriminate|].
  destruct (c =? Ch.rbrace); [intros [= <- _]; eauto|].
  destruct (c =? Ch.dquote); [|discriminate].
  apply JSONObject_loop_dict.
Qed.

End ContainerFacts.

(** *** The scanner *)

Lemma some_plain_good s rest :
  consumed some_plain s rest -> consumed good s rest.
Proof.
  apply consumed_weaken. intros pre [Hne Hp]. split; [exact Hne|].
  apply well_plain. exact Hp.
Qed.

Lemma decodes_scans {A} (r : outcome A) : decodes r -> scans r.
Proof. destruct r as [?|[]|]; simpl; auto. Qed.

Ltac constant_case H w :=
  apply some_plain_good;
  apply (drop_prefix_consumed (u w)) in H;
  [exact H | discriminate | apply constant_plain; reflexivity].

(** Every value the scanner returns was read from a non-empty stretch of
    code with balanced braces, after which the scan is in code again. *)
Lemma scan_once_consumed f : forall depth s v rest,
  scan_once f depth s = Returns (v, rest) -> consumed good s rest.
Proof.
  induction f as [|f IH]; intros depth s v rest H; [discriminate|].
  destruct s as [|c s1]; [discriminate|].
  cbn [scan_once] in H.
  destruct (c =? Ch.dquote) eqn:Eq.
  { apply N.eqb_eq in Eq. subst c.
    apply and_then_returns in H as ([chars rest'] & Hs & H).
    injection H as _ <-.
    pose proof (instr_length _ _ (scanstring_consumed _ _ _ Hs)) as Hlen.
    apply scanstring_consumed in Hs.
    apply (reads_good_intro _ _ 0).
    - exact (reads_trans _ _ _ _ _ _ _ _ _ _ (reads_char Code Ch.dquote s1) Hs).
    - simpl. lia. }
  destruct (c =? Ch.lbrace) eqn:El.
  { apply N.eqb_eq in El. subst c.
    destruct depth as [|d]; [discriminate|].
    apply (JSONObject_closes _ (IH d)) in H as (o & c' & H & ->).
    pose proof (reads_length _ _ _ _ _ _ H) as Hlen.
    apply (reads_good_intro _ _ (S o)).
    - exact (reads_trans _ _ _ _ _ _ _ _ _ _ (reads_char Code Ch.lbrace s1) H).
    - simpl. lia. }
  destruct (c =? Ch.lbracket) eqn:Ea.
  { apply N.eqb_eq in Ea. subst c.
    destruct depth as [|d]; [discriminate|].
    apply (JSONArray_reads _ (IH d)) in H as [k H].
    pose proof (reads_length _ _ _ _ _ _ H) as Hlen.
    apply (reads_good_intro _ _ k).
    - exact (reads_trans _ _ _ _ _ _ _ _ _ _ (reads_char Code Ch.lbracket s1) H).
    - simpl. lia. }
  destruct (drop_prefix (u "null") (c :: s1)) as [r|] eqn:E1.
  { injection H as _ <-. constant_case E1 "null"%string. }
  destruct (drop_prefix (u "true") (c :: s1)) as [r|] eqn:E2.
  { injection H as _ <-. constant_case E2 "true"%string. }
  destruct (drop_prefix (u "false") (c :: s1)) as [r|] eqn:E3.
  { injection H as _ <-. constant_case E3 "false"%string. }
  destruct (match_number (c :: s1)) as [[number r]|] eqn:En.
  { apply and_then_returns in H as (v' & _ & H). injection H as _ <-.
    apply some_plain_good. eapply match_number_consumed. exact En. }
  destruct (drop_prefix (u "NaN") (c :: s1)) as [r|] eqn:E4.
  { injection H as _ <-. constant_case E4 "NaN"%string. }
  destruct (drop_prefix (u "Infinity") (c :: s1)) as [r|] eqn:E5.
  { injection H as _ <-. constant_case E5 "Infinity"%string. }
  destruct (drop_prefix (u "-Infinity") (c :: s1)) as [r|] eqn:E6.
  { injection H as _ <-. constant_case E6 "-Infinity"%string. }
  discriminate.
Qed.

Lemma parse_int_decodes neg integer : decodes (parse_int neg integer).
Proof. unfold parse_int. destruct (_ <? _)%nat; exact I. Qed.

Lemma match_number_decodes s number rest :
  match_number s = Some (number, rest) -> decodes number.
Proof.
  unfold match_number.
  destruct (match s with
            | c :: s' => if c =? Ch.minus then (true, s') else (false, s)
            | [] => (false, s)
            end) as [neg s0].
  destruct (match_integer s0) as [[integer s1]|]; [|discriminate].
  destruct (match_frac s1) as [frac s2].
  destruct (match_exp s2) as [exp s3].
  destruct frac, exp; intros [= <- _]; try exact I.
  apply parse_int_decodes.
Qed.

(** With more fuel than characters the scanner never runs out of fuel, and
    it raises nothing but [StopIteration], [JSONDecodeError], [ValueError]
    and [RecursionError]. *)
Lemma scan_once_scans f : forall depth s,
  (List.length s < f)%nat -> scans (scan_once f depth s).
Proof.
  induction f as [|f IH]; intros depth s Hlen; [lia|].
  destruct s as [|c s1]; [exact I|].
  cbn [scan_once]. simpl in Hlen.
  destruct (c =? Ch.dquote).
  { pose proof (scanstring_lexes s1) as Hd.
    destruct (scanstring s1) as [[chars rest]|[]|]; simpl in *; auto. }
  destruct (c =? Ch.lbrace).
  { destruct depth as [|d]; [exact I|]. apply decodes_scans.
    apply (JSONObject_decodes _ f (scan_once_consumed f d) (IH d)); lia. }
  destruct (c =? Ch.lbracket).
  { destruct depth as [|d]; [exact I|]. apply decodes_scans.
    apply (JSONArray_decodes _ f (scan_once_consumed f d) (IH d)); lia. }
  destruct (drop_prefix (u "null") (c :: s1)); [exact I|].
  destruct (drop_prefix (u "true") (c :: s1)); [exact I|].
  destruct (drop_prefix (u "false") (c :: s1)); [exact I|].
  destruct (match_number (c :: s1)) as [[number r]|] eqn:En.
  { apply match_number_decodes in En.
    destruct number as [v|[]|]; simpl in *; auto. }
  destruct (drop_prefix (u "NaN") (c :: s1)); [exact I|].
  destruct (drop_prefix (u "Infinity") (c :: s1)); [exact I|].
  destruct (drop_prefix (u "-Infinity") (c :: s1)); exact I.
Qed.

(** [json.loads] is total: it returns a value or raises [JSONDecodeError],
    [ValueError] or [RecursionError]. *)
Lemma json_loads_total depth s : decodes (json_loads depth s).
Proof.
  unfold json_loads, raw_decode, expecting_value.
  pose proof (scan_once_scans (S (List.length (skip_ws s))) depth (skip_ws s)
                (Nat.lt_succ_diag_r _)) as H.
  destruct (scan_once _ _ (skip_ws s)) as [[obj rest]|[]|]; simpl in *; auto.
  destruct (skip_ws rest); exact I.
Qed.


(** A text that starts with an opening brace decodes to a dictionary. *)
Lemma json_loads_object depth s v :
  json_loads depth (Ch.lbrace :: s) = Returns v -> exists d, v = VDict d.
Proof.
  unfold json_loads. intros H.
  apply and_then_returns in H as ([obj rest] & Hraw & H).
  destruct (skip_ws rest); [|discriminate]. injection H as <-.
  change (skip_ws (Ch.lbrace :: s)) with (Ch.lbrace :: s) in Hraw.
  unfold raw_decode, expecting_value in Hraw.
  destruct (scan_once _ _ _) as [[obj' rest']|[]|] eqn:Hscan;
    try discriminate.
  injection Hraw as -> ->.
  cbn [scan_once] in Hscan.
  change (Ch.lbrace =? Ch.dquote) with false in Hscan.
  change (Ch.lbrace =? Ch.lbrace) with true in Hscan. cbv iota in Hscan.
  destruct depth as [|d]; [discriminate|].
  eapply JSONObject_dict. exact Hscan.
Qed.

(** *** The limits of the interpreter *)












Section LimitFacts.

Variable scan : str -> outcome (value * str).
Variable e : exn.
Variable bad : str -> Prop.

Hypothesis e_escapes : e <> JSONDecodeError.

Hypothesis bad_suffix : forall pre s, bad s -> bad (pre ++ s).

Hypothesis scan_consumed : forall s v rest,
  scan s = Returns (v, rest) -> consumed good s rest.

Hypothesis scan_bad : forall s, scan s = Raises e -> bad s.










End LimitFacts.








(** ** The extraction helper *)


Lemma lazy_to_rbrace_some s m :
  lazy_to_rbrace s = Some m ->
  exists mid post,
    s = mid ++ Ch.rbrace :: post /\ m = mid ++ [Ch.rbrace]
    /\ ~ In Ch.rbrace mid.
Proof.
  revert m. induction s as [|c s IH]; intros m H; [discriminate|].
  simpl in H. destruct (N.eqb_spec c Ch.rbrace) as [->|Hc].
  - injection H as <-. exists [], s. auto.
  - destruct (lazy_to_rbrace s) as [m'|]; [|discriminate].
    injection H as <-.
    destruct (IH m' eq_refl) as (mid & post & -> & -> & Hmid).
    exists (c :: mid), post. repeat split.
    intros [E|E]; [congruence|contradiction].
Qed.

Lemma lazy_to_rbrace_none s : lazy_to_rbrace s = None -> ~ In Ch.rbrace s.
Proof.
  induction s as [|c s IH]; simpl; intros H; [tauto|].
  destruct (N.eqb_spec c Ch.rbrace) as [->|Hc]; [discriminate|].
  destruct (lazy_to_rbrace s); [discriminate|].
  intros [E|E]; [congruence|]. exact (IH eq_refl E).
Qed.


Lemma _JSON_RE_search_some blob m :
  _JSON_RE_search blob = Some m ->
  exists pre mid post,
    blob = pre ++ Ch.lbrace :: mid ++ Ch.rbrace :: post
    /\ m = Ch.lbrace :: mid ++ [Ch.rbrace]
    /\ ~ In Ch.lbrace pre /\ ~ In Ch.rbrace mid.
Proof.
  induction blob as [|c blob IH]; intros H; [discriminate|].
  simpl in H. destruct (N.eqb_spec c Ch.lbrace) as [->|Hc].
  - destruct (lazy_to_rbrace blob) as [m'|] eqn:El.
    + injection H as <-.
      apply lazy_to_rbrace_some in El as (mid & post & -> & -> & Hmid).
      exists [], mid, post. repeat split; auto.
    + apply lazy_to_rbrace_none in El.
      destruct (IH H) as (pre & mid & post & -> & _).
      exfalso. apply El. apply in_or_app. right. right.
      apply in_or_app. right. left. reflexivity.
  - destruct (IH H) as (pre & mid & post & -> & -> & Hpre & Hmid).
    exists (c :: pre), mid, post. repeat split; auto.
    intros [E|E]; [congruence|contradiction].
Qed.






(** What the helper returns, when it returns. *)
Lemma _extract_first_json_returns depth blob r :
  _extract_first_json depth blob = Returns r ->
  r = match _JSON_RE_search blob with
      | None => VNone
      | Some group0 =>
          match json_loads depth group0 with
          | Returns obj => obj
          | _ => VNone
          end
      end.
Proof.
  unfold _extract_first_json.
  destruct (_JSON_RE_search blob) as [m|]; [|intros [= <-]; reflexivity].
  destruct (json_loads depth m) as [v|[]|]; intros [= <-]; reflexivity.
Qed.

(** The helper returns an object or [None], or lets one of the two errors
    of the interpreter's limits through. *)
Lemma _extract_first_json_outcomes depth blob :
  (exists r, _extract_first_json depth blob = Returns r
             /\ (r = VNone \/ exists d, r = VDict d))
  \/ _extract_first_json depth blob = Raises ValueError
  \/ _extract_first_json depth blob = Raises RecursionError.
Proof.
  unfold _extract_first_json.
  destruct (_JSON_RE_search blob) as [m|] eqn:E; [|left; eauto].
  apply _JSON_RE_search_some in E as (pre & mid & post & _ & -> & _).
  pose proof (json_loads_total depth (Ch.lbrace :: mid ++ [Ch.rbrace])) as H.
  destruct (json_loads depth _) as [v|e|] eqn:El; [| |contradiction].
  - left. exists v. split; [reflexivity|]. right.
    eapply json_loads_object. exact El.
  - destruct e; simpl in H; try contradiction; eauto.
Qed.













(** * Further properties *)

(** ** [_unpack_content] *)

(** X1: [_unpack_content] never raises [KeyError], whatever it is given:
    it returns, or raises [AttributeError] (only when the choice is not a
    dictionary) or [TypeError] (a message that is not a dictionary). *)
Theorem X1_unpack_content_never_raises_KeyError choice :
  (forall k, _unpack_content choice <> Raises (KeyError k))
  /\ ((exists v, _unpack_content choice = Returns v)
      \/ _unpack_content choice = Raises AttributeError
      \/ _unpack_content choice = Raises TypeError)
  /\ (_unpack_content choice = Raises AttributeError <->
      forall d, choice <> VDict d).
Proof.
  assert (Hshape :
    (exists v, _unpack_content choice = Returns v)
    \/ (_unpack_content choice = Raises AttributeError
        /\ forall d, choice <> VDict d)
    \/ (_unpack_content choice = Raises TypeError /\ exists d, choice = VDict d)).
  { destruct choice as [| | | | | |c];
      try (right; left; split; [reflexivity|intros d; discriminate]).
    unfold _unpack_content, py_get. cbn [and_then].
    destruct (match dict_get c K.message with
              | Some x => x
              | None => VDict []
              end) as [| | | | s |l|m];
      try (right; right; split; [reflexivity|eauto]).
    - cbn [py_contains and_then py_getitem].
      destruct (str_contains K.content s);
        [right; right; split; [reflexivity|eauto]|].
      destruct (str_contains K.tool_calls s);
        [right; right; split; [reflexivity|eauto]|].
      destruct (str_contains K.function_call s);
        [right; right; split; [reflexivity|eauto]|].
      left. eauto.
    - cbn [py_contains and_then py_getitem].
      destruct (existsb _ l); [right; right; split; [reflexivity|eauto]|].
      destruct (existsb _ l); [right; right; split; [reflexivity|eauto]|].
      destruct (existsb _ l); [right; right; split; [reflexivity|eauto]|].
      left. eauto.
    - cbn [py_contains and_then py_getitem]. unfold dict_mem.
      destruct (dict_get m K.content); [left; eauto|].
      destruct (dict_get m K.tool_calls); [left; eauto|].
      destruct (dict_get m K.function_call); left; eauto. }
  split; [|split].
  - intros k H. destruct Hshape as [[v Hv]|[[Hv _]|[Hv _]]];
      rewrite Hv in H; discriminate.
  - destruct Hshape as [Hv|[[Hv _]|[Hv _]]]; auto.
  - split.
    + intros H. destruct Hshape as [[v Hv]|[[_ Hd]|[Hv _]]];
        [rewrite Hv in H; discriminate|exact Hd|rewrite Hv in H; discriminate].
    + intros Hd. destruct Hshape as [[v Hv]|[[Hv _]|[_ [d Hc]]]];
        [|exact Hv|exfalso; exact (Hd d Hc)].
      destruct choice; try reflexivity. exfalso. exact (Hd d eq_refl).
Qed.

(** X2: on a choice whose message is a dictionary (or is missing, which
    counts as an empty one) [_unpack_content] returns the value under
    [content] if that key is present, whatever the value, else the one
    under [tool_calls], else the one under [function_call], else [None]. *)
Theorem X2_unpack_content_precedence choice msg :
  dict_get choice K.message = Some (VDict msg)
  \/ (dict_get choice K.message = None /\ msg = []) ->
  _unpack_content (VDict choice) = Returns (first_payload msg).
Proof.
  intros Hmsg. unfold _unpack_content, py_get. cbn [and_then].
  assert (E : match dict_get choice K.message with
              | Some x => x
              | None => VDict []
              end = VDict msg).
  { destruct Hmsg as [->|[-> ->]]; reflexivity. }
  rewrite E. cbn [py_contains and_then py_getitem].
  unfold dict_mem, first_payload.
  destruct (dict_get msg K.content); [reflexivity|].
  destruct (dict_get msg K.tool_calls); [reflexivity|].
  destruct (dict_get msg K.function_call); reflexivity.
Qed.

Lemma X2_unpack_content_precedence_witness :
  _unpack_content (VDict tool_choice) = Returns VNone.
Proof.
  exact (X2_unpack_content_precedence tool_choice tool_message
           (or_introl eq_refl)).
Defined.

(** ** [_inject_json_schema_prompt] *)

(** X3: running the transformer on a payload it has already been run on
    changes nothing and returns normally. *)
Theorem X3_transformer_idempotent float_repr payload :
  _inject_json_schema_prompt float_repr
    (fst (_inject_json_schema_prompt float_repr payload))
  = (fst (_inject_json_schema_prompt float_repr payload), Returns tt).
Proof.
  pose proof (inject_removes_format float_repr payload) as Hnone.
  rewrite inject_falsy by (rewrite Hnone; reflexivity).
  rewrite dict_del_absent; [reflexivity|].
  destruct (inject_shape float_repr payload) as [-> | [m ->]].
  - apply dict_get_del_same.
  - rewrite dict_get_set_other by (vm_compute; discriminate).
    apply dict_get_del_same.
Qed.

(** X4: every non-empty dictionary [response_format] whose [type] is not
    the string ["schemajson_"] (no [type] at all, ["text"],
    ["json_schema"], a number) gets the same treatment as
    ["json_object"]: the preamble is prepended as a system message, the
    caller's messages follow in their order, and the key is removed. *)
Theorem X4_any_other_format_gets_preamble float_repr payload rf msgs :
  dict_get payload K.response_format = Some (VDict rf) ->
  rf <> [] ->
  eq_str (format_type rf) (u "schemajson_") = false ->
  dict_get payload K.messages = Some (VList msgs) ->
  _inject_json_schema_prompt float_repr payload
    = (dict_set (dict_del payload K.response_format) K.messages
         (VList (VDict [(K.role, VStr K.system);
                        (K.content, VStr _SCHEMA_PROMPT)] :: msgs)),
       Returns tt).
Proof.
  intros Hrf Hne Hty Hmsgs.
  exact (inject_preamble float_repr payload rf msgs Hrf Hne Hty Hmsgs).
Qed.

Lemma X4_any_other_format_gets_preamble_witness :
  _inject_json_schema_prompt float_repr_unused text_format_request
  = ([(K.messages,
       VList [VDict [(K.role, VStr K.system);
                     (K.content, VStr _SCHEMA_PROMPT)];
              user_message]);
      (K.stream, VBool false)],
     Returns tt).
Proof.
  refine (X4_any_other_format_gets_preamble float_repr_unused
            text_format_request [(K.type, VStr (u "text"))] [user_message]
            eq_refl _ eq_refl eq_refl).
  discriminate.
Defined.

(** X5: for the tag ["schemajson_"], a value under ["json_schema"] and a
    list of messages, the system message prepended is the preamble, the
    sentence ["The response MUST validate against this schema:"], a line
    feed and [json.dumps] of the value with separators [","] and [":"]. *)
Theorem X5_schema_branch_instruction float_repr payload rf schema msgs :
  dict_get payload K.response_format = Some (VDict rf) ->
  dict_get rf K.type = Some (VStr (u "schemajson_")) ->
  dict_get rf K.json_schema = Some schema ->
  dict_get payload K.messages = Some (VList msgs) ->
  _inject_json_schema_prompt float_repr payload
    = (dict_set (dict_del payload K.response_format) K.messages
         (VList (VDict [(K.role, VStr K.system);
                        (K.content,
                         VStr (_SCHEMA_PROMPT
                               ++ u " The response MUST validate against this schema:"
                               ++ [Ch.lf] ++ json_dumps float_repr schema))]
                 :: msgs)),
       Returns tt).
Proof.
  intros Hrf Hty Hsch Hmsgs.
  exact (inject_schema float_repr payload rf schema msgs Hrf Hty Hsch Hmsgs).
Qed.

Lemma X5_schema_branch_instruction_witness :
  _inject_json_schema_prompt float_repr_unused schemajson_request
  = ([(u "model", VStr (u "llama3"));
      (K.messages,
       VList [VDict [(K.role, VStr K.system);
                     (K.content,
                      VStr (_SCHEMA_PROMPT
                            ++ u " The response MUST validate against this schema:"
                            ++ [Ch.lf] ++ q "{'type':'object'}"))];
              user_message])],
     Returns tt).
Proof.
  exact (X5_schema_branch_instruction float_repr_unused schemajson_request
           [(K.type, VStr (u "schemajson_")); (K.json_schema, object_schema)]
           object_schema [user_message] eq_refl eq_refl eq_refl eq_refl).
Defined.

(** X6: whenever the transformer raises, [response_format] was truthy, it
    has already been removed from the payload and nothing else has
    changed; and the error tells what was wrong: [AttributeError] for a
    [response_format] that is not a dictionary, [KeyError("json_schema")]
    in the schema branch, [KeyError("messages")] for a payload without
    messages, [TypeError] for messages that are not a list. *)
Theorem X6_transformer_failure_modes float_repr payload e :
  snd (_inject_json_schema_prompt float_repr payload) = Raises e ->
  fst (_inject_json_schema_prompt float_repr payload)
    = dict_del payload K.response_format
  /\ truthy (requested_format payload) = true
  /\ ((e = AttributeError /\ forall rf, requested_format payload <> VDict rf)
      \/ (e = KeyError (VStr K.json_schema)
          /\ exists rf, requested_format payload = VDict rf
                        /\ eq_str (format_type rf) (u "schemajson_") = true
                        /\ dict_get rf K.json_schema = None)
      \/ (e = KeyError (VStr K.messages)
          /\ dict_get payload K.messages = None)
      \/ (e = TypeError
          /\ exists v, dict_get payload K.messages = Some v
                       /\ forall l, v <> VList l)).
Proof.
  unfold _inject_json_schema_prompt. rewrite dict_pop_eq.
  fold (requested_format payload).
  destruct (truthy (requested_format payload)) eqn:Ht; [|discriminate].
  cbn [negb].
  assert (Hm : dict_get (dict_del payload K.response_format) K.messages
               = dict_get payload K.messages)
    by (apply dict_get_del_other; vm_compute; discriminate).
  assert (Hmsgs : forall instruction,
    snd (match dict_get (dict_del payload K.response_format) K.messages with
         | None => (dict_del payload K.response_format,
                    Raises (KeyError (VStr K.messages)))
         | Some (VList msgs) =>
             (dict_set (dict_del payload K.response_format) K.messages
                (VList ([VDict [(K.role, VStr K.system);
                                (K.content, VStr instruction)]] ++ msgs)),
              Returns tt)
         | Some _ => (dict_del payload K.response_format, Raises TypeError)
         end) = Raises e ->
    fst (match dict_get (dict_del payload K.response_format) K.messages with
         | None => (dict_del payload K.response_format,
                    Raises (KeyError (VStr K.messages)))
         | Some (VList msgs) =>
             (dict_set (dict_del payload K.response_format) K.messages
                (VList ([VDict [(K.role, VStr K.system);
                                (K.content, VStr instruction)]] ++ msgs)),
              Returns tt)
         | Some _ => (dict_del payload K.response_format, Raises TypeError)
         end) = dict_del payload K.response_format
    /\ ((e = KeyError (VStr K.messages) /\ dict_get payload K.messages = None)
        \/ (e = TypeError
            /\ exists v, dict_get payload K.messages = Some v
                         /\ forall l, v <> VList l))).
  { intros instruction. rewrite Hm.
    destruct (dict_get payload K.messages) as [[| | | | |msgs|]|]; cbn [fst snd];
      intros [= <-]; (split; [reflexivity|]);
      try (right; split; [reflexivity|]; eexists; split; [reflexivity|];
           intros l; discriminate).
    left. split; reflexivity. }
  destruct (requested_format payload) as [| | | | | |rf] eqn:Hrf;
    cbn [py_get and_then fst snd];
    try (intros [= <-]; split; [reflexivity|]; split; [reflexivity|];
         left; split; [reflexivity|]; intros rf; discriminate).
  fold (format_type rf).
  destruct (eq_str (format_type rf) (u "schemajson_")) eqn:Ety.
  - unfold py_getitem.
    destruct (dict_get rf K.json_schema) as [schema|] eqn:Es; cbn [and_then].
    + intros H. destruct (Hmsgs _ H) as [Hfst Hcase].
      split; [exact Hfst|]. split; [reflexivity|].
      right. right. exact Hcase.
    + cbn [fst snd]. intros [= <-]. split; [reflexivity|].
      split; [reflexivity|]. right. left. split; [reflexivity|].
      exists rf. auto.
  - intros H. destruct (Hmsgs _ H) as [Hfst Hcase].
    split; [exact Hfst|]. split; [reflexivity|].
    right. right. exact Hcase.
Qed.

Lemma X6_transformer_failure_modes_witness :
  fst (_inject_json_schema_prompt float_repr_unused no_messages_request)
  = [(u "model", VStr (u "llama3"))]
  /\ snd (_inject_json_schema_prompt float_repr_unused no_messages_request)
     = Raises (KeyError (VStr K.messages)).
Proof.
  split; [|reflexivity].
  exact (proj1 (X6_transformer_failure_modes float_repr_unused
                  no_messages_request (KeyError (VStr K.messages)) eq_refl)).
Defined.

(** ** The response reconciler *)

Lemma dict_mem_set_other d k v k' :
  k' <> k -> dict_mem (dict_set d k v) k' = dict_mem d k'.
Proof.
  intros H. unfold dict_mem. rewrite dict_get_set_other by exact H.
  reflexivity.
Qed.

Lemma augmented_frame d choice rest parsed refusal :
  dict_get d K.choices = Some (VList (VDict choice :: rest)) ->
  exists d' choice' msg' kw',
    augmented d choice rest parsed refusal = VDict d'
    /\ List.map fst d' = List.map fst d
    /\ (forall k, k <> K.choices -> dict_get d' k = dict_get d k)
    /\ dict_get d' K.choices = Some (VList (VDict choice' :: rest))
    /\ List.map fst choice' = keys_after choice K.message
    /\ (forall k, k <> K.message -> dict_get choice' k = dict_get choice k)
    /\ dict_get choice' K.message = Some (VDict msg')
    /\ List.map fst msg' = keys_after (message_of choice) K.additional_kwargs
    /\ (forall k, k <> K.additional_kwargs ->
          dict_get msg' k = dict_get (message_of choice) k)
    /\ dict_get msg' K.additional_kwargs = Some (VDict kw')
    /\ List.map fst kw'
       = List.map fst (kwargs_of (message_of choice))
         ++ (if dict_mem (kwargs_of (message_of choice)) K.parsed
             then [] else [K.parsed])
         ++ (if dict_mem (kwargs_of (message_of choice)) K.refusal
             then [] else [K.refusal])
    /\ (forall k, k <> K.parsed -> k <> K.refusal ->
          dict_get kw' k = dict_get (kwargs_of (message_of choice)) k)
    /\ dict_get kw' K.parsed = Some parsed
    /\ dict_get kw' K.refusal = Some refusal.
Proof.
  intros Hch. unfold augmented.
  eexists _, _, _, _. split; [reflexivity|].
  split.
  { rewrite dict_set_keys. unfold keys_after, dict_mem. rewrite Hch.
    apply app_nil_r. }
  split; [intros k Hk; apply dict_get_set_other; exact Hk|].
  split; [apply dict_get_set_same|].
  split; [apply dict_set_keys|].
  split; [intros k Hk; apply dict_get_set_other; exact Hk|].
  split; [apply dict_get_set_same|].
  split; [apply dict_set_keys|].
  split; [intros k Hk; apply dict_get_set_other; exact Hk|].
  split; [apply dict_get_set_same|].
  split.
  { rewrite dict_set_keys. unfold keys_after.
    rewrite dict_mem_set_other by (vm_compute; discriminate).
    rewrite dict_set_keys. unfold keys_after.
    rewrite <- app_assoc. reflexivity. }
  split.
  { intros k Hp Hr. rewrite dict_get_set_other by exact Hr.
    apply dict_get_set_other. exact Hp. }
  split; [|apply dict_get_set_same].
  rewrite dict_get_set_other by (vm_compute; discriminate).
  apply dict_get_set_same.
Qed.

(** X7: the reply a completed [reconcile] returns is the upstream's reply
    with [parsed] and [refusal] written under
    [choices[0].message.additional_kwargs] and nothing else removed,
    changed or moved.  The top-level keys are the same in the same order
    and all but [choices] map to what they did; the choices after the
    first are untouched; in the first choice, in its message and in its
    [additional_kwargs] every key that was there keeps its place and,
    unless it is the one written ([message], [additional_kwargs],
    [parsed] and [refusal]), its value; a key that had to be created comes
    last, [parsed] before [refusal].  What stands under [parsed] is the
    extraction from the first payload of the message, and under [refusal]
    the marker computed from it and the request body. *)
Theorem X7_reconcile_keeps_the_reply depth body data data' :
  reconcile depth body data = Returns data' ->
  exists d d' choice choice' rest msg' kw' parsed,
    data = VDict d /\ data' = VDict d'
    /\ List.map fst d' = List.map fst d
    /\ (forall k, k <> K.choices -> dict_get d' k = dict_get d k)
    /\ dict_get d K.choices = Some (VList (VDict choice :: rest))
    /\ dict_get d' K.choices = Some (VList (VDict choice' :: rest))
    /\ List.map fst choice' = keys_after choice K.message
    /\ (forall k, k <> K.message -> dict_get choice' k = dict_get choice k)
    /\ dict_get choice' K.message = Some (VDict msg')
    /\ List.map fst msg' = keys_after (message_of choice) K.additional_kwargs
    /\ (forall k, k <> K.additional_kwargs ->
          dict_get msg' k = dict_get (message_of choice) k)
    /\ dict_get msg' K.additional_kwargs = Some (VDict kw')
    /\ List.map fst kw'
       = List.map fst (kwargs_of (message_of choice))
         ++ (if dict_mem (kwargs_of (message_of choice)) K.parsed
             then [] else [K.parsed])
         ++ (if dict_mem (kwargs_of (message_of choice)) K.refusal
             then [] else [K.refusal])
    /\ (forall k, k <> K.parsed -> k <> K.refusal ->
          dict_get kw' k = dict_get (kwargs_of (message_of choice)) k)
    /\ extraction depth (first_payload (message_of choice)) = Returns parsed
    /\ dict_get kw' K.parsed = Some parsed
    /\ dict_get kw' K.refusal = Some (refusal_for body parsed)
    /\ data' = augmented d choice rest parsed (refusal_for body parsed).
Proof.
  intros H.
  apply reconcile_shape in H
    as (d & choice & rest & parsed & -> & Hch & _ & _ & Hparsed & ->).
  destruct (augmented_frame d choice rest parsed (refusal_for body parsed) Hch)
    as (d' & choice' & msg' & kw' & E & H1 & H2 & H3 & H4 & H5 & H6 & H7
        & H8 & H9 & H10 & H11 & H12 & H13).
  exists d, d', choice, choice', rest, msg', kw', parsed.
  split; [reflexivity|]. split; [exact E|].
  split; [exact H1|]. split; [exact H2|]. split; [exact Hch|].
  split; [exact H3|]. split; [exact H4|]. split; [exact H5|].
  split; [exact H6|]. split; [exact H7|]. split; [exact H8|].
  split; [exact H9|]. split; [exact H10|]. split; [exact H11|].
  split; [exact Hparsed|]. split; [exact H12|]. split; [exact H13|].
  reflexivity.
Qed.

Lemma X7_reconcile_keeps_the_reply_witness :
  exists d' choice' msg' kw',
    prose_reply_augmented = VDict d'
    /\ List.map fst d' = [u "id"; K.choices; u "usage"]
    /\ dict_get d' (u "usage")
       = Some (VDict [(u "total_tokens", VInt 12)])
    /\ dict_get d' K.choices
       = Some (VList [VDict choice'; VDict [(u "index", VInt 1)]])
    /\ dict_get choice' K.message = Some (VDict msg')
    /\ List.map fst msg' = [K.role; K.content; K.additional_kwargs]
    /\ dict_get msg' K.additional_kwargs = Some (VDict kw')
    /\ List.map fst kw' = [K.parsed; K.refusal]
    /\ dict_get kw' K.parsed = Some VNone
    /\ dict_get kw' K.refusal = Some refusal_error.
Proof.
  destruct (X7_reconcile_keeps_the_reply 1000 json_object_request
              (VDict prose_reply) prose_reply_augmented)
    as (d & d' & choice & choice' & rest & msg' & kw' & parsed & Hd & Hd'
        & Hkeys & Hframe & Hch & Hch' & _ & _ & Hmsg & Hmkeys & _ & Hkw
        & Hkwkeys & _ & Hparsed & Hp & Hr & _).
  { vm_compute. reflexivity. }
  injection Hd as <-.
  vm_compute in Hch. injection Hch as <- <-.
  vm_compute in Hparsed. injection Hparsed as <-.
  exists d', choice', msg', kw'.
  split; [exact Hd'|]. split; [exact Hkeys|].
  split; [rewrite Hframe; [reflexivity|vm_compute; discriminate]|].
  split; [exact Hch'|]. split; [exact Hmsg|]. split; [exact Hmkeys|].
  split; [exact Hkw|]. split; [exact Hkwkeys|].
  split; [exact Hp|exact Hr].
Defined.

(** X8: on its own the sync post-processing computes the refusal from the
    request body it is given.  A completed [reconcile] has read
    [choices[0]], unpacked its content and, if that is a string, scanned
    it with [_extract_first_json]; the reply carries that extraction
    result under [parsed], and under [refusal] the error object when the
    body holds a truthy [response_format] and nothing was extracted,
    [None] otherwise. *)
Theorem X8_reconcile_refusal_follows_body depth body data data' :
  reconcile depth body data = Returns data' ->
  exists choices choice0 raw_content parsed,
    py_getitem data K.choices = Returns choices
    /\ py_getitem0 choices = Returns choice0
    /\ _unpack_content choice0 = Returns raw_content
    /\ match raw_content with
       | VStr blob => _extract_first_json depth blob
       | _ => Returns VNone
       end = Returns parsed
    /\ additional_kwarg data' K.parsed = Returns parsed
    /\ additional_kwarg data' K.refusal
       = Returns (if truthy (requested_format body) && is_none parsed
                  then refusal_error else VNone).
Proof.
  intros H.
  apply reconcile_returns in H
    as (choices & choice0 & raw & parsed & H1 & H2 & H3 & H4 & Hp & Hr).
  exists choices, choice0, raw, parsed.
  split; [exact H1|]. split; [exact H2|]. split; [exact H3|].
  split; [exact H4|]. split; [exact Hp|exact Hr].
Qed.

Lemma X8_reconcile_refusal_follows_body_witness :
  (exists data',
      reconcile 1000 json_object_request (VDict json_reply) = Returns data'
      /\ additional_kwarg data' K.parsed = Returns (VDict [(u "a", VInt 1)])
      /\ additional_kwarg data' K.refusal = Returns VNone)
  /\ additional_kwarg prose_reply_augmented K.parsed = Returns VNone
  /\ additional_kwarg prose_reply_augmented K.refusal = Returns refusal_error.
Proof.
  split.
  - assert (Hrun : exists data',
               reconcile 1000 json_object_request (VDict json_reply)
               = Returns data') by (eexists; vm_compute; reflexivity).
    destruct Hrun as [data' Hrun]. exists data'. split; [exact Hrun|].
    destruct (X8_reconcile_refusal_follows_body 1000 json_object_request
                (VDict json_reply) data' Hrun)
      as (choices & choice0 & raw & parsed & H1 & H2 & H3 & H4 & Hp & Hr).
    vm_compute in H1. injection H1 as <-.
    vm_compute in H2. injection H2 as <-.
    vm_compute in H3. injection H3 as <-.
    vm_compute in H4. injection H4 as <-.
    split; [exact Hp|exact Hr].
  - destruct (X8_reconcile_refusal_follows_body 1000 json_object_request
                (VDict prose_reply) prose_reply_augmented)
      as (choices & choice0 & raw & parsed & H1 & H2 & H3 & H4 & Hp & Hr).
    { vm_compute. reflexivity. }
    vm_compute in H1. injection H1 as <-.
    vm_compute in H2. injection H2 as <-.
    vm_compute in H3. injection H3 as <-.
    vm_compute in H4. injection H4 as <-.
    split; [exact Hp|exact Hr].
Defined.

(** X9: replies of the upstream that the reconciler cannot read make it
    raise: no [choices] key gives [KeyError("choices")], an empty
    [choices] list [IndexError], a first choice that is not a dictionary
    [AttributeError], a message that is [null] [TypeError]. *)
Theorem X9_reconcile_unreadable_replies depth body d :
  (dict_get d K.choices = None ->
   reconcile depth body (VDict d) = Raises (KeyError (VStr K.choices)))
  /\ (dict_get d K.choices = Some (VList []) ->
      reconcile depth body (VDict d) = Raises IndexError)
  /\ (forall c rest,
        dict_get d K.choices = Some (VList (c :: rest)) ->
        (forall fields, c <> VDict fields) ->
        reconcile depth body (VDict d) = Raises AttributeError)
  /\ (forall c rest,
        dict_get d K.choices = Some (VList (VDict c :: rest)) ->
        dict_get c K.message = Some VNone ->
        reconcile depth body (VDict d) = Raises TypeError).
Proof.
  unfold reconcile, py_getitem.
  split; [|split; [|split]].
  - intros ->. reflexivity.
  - intros ->. reflexivity.
  - intros c rest -> Hc. cbn [and_then py_getitem0].
    destruct c; try reflexivity. exfalso. exact (Hc d0 eq_refl).
  - intros c rest -> Hm. cbn [and_then py_getitem0].
    unfold _unpack_content, py_get. rewrite Hm. reflexivity.
Qed.

Lemma X9_reconcile_unreadable_replies_witness :
  reconcile 1000 json_object_request (VDict no_choices_reply)
    = Raises (KeyError (VStr K.choices))
  /\ reconcile 1000 json_object_request (VDict empty_choices_reply)
     = Raises IndexError
  /\ reconcile 1000 json_object_request (VDict null_choice_reply)
     = Raises AttributeError
  /\ reconcile 1000 json_object_request (VDict null_message_reply)
     = Raises TypeError.
Proof.
  split; [|split; [|split]].
  - exact (proj1 (X9_reconcile_unreadable_replies 1000 json_object_request
                    no_choices_reply) eq_refl).
  - exact (proj1 (proj2 (X9_reconcile_unreadable_replies 1000 json_object_request
                           empty_choices_reply)) eq_refl).
  - refine (proj1 (proj2 (proj2 (X9_reconcile_unreadable_replies
                                   1000 json_object_request null_choice_reply)))
              VNone [] eq_refl _).
    intros fields. discriminate.
  - exact (proj2 (proj2 (proj2 (X9_reconcile_unreadable_replies
                                  1000 json_object_request null_message_reply)))
             [(K.message, VNone)] [] eq_refl eq_refl).
Defined.

Lemma first_payload_kwargs msg kw :
  first_payload (dict_set msg K.additional_kwargs kw) = first_payload msg.
Proof.
  unfold first_payload.
  rewrite !dict_get_set_other by (vm_compute; discriminate). reflexivity.
Qed.

(** X10: reconciling a reply that has already been reconciled (with the
    same request body) returns it unchanged: [parsed] and [refusal] are
    overwritten with the values they have, and nothing is added twice. *)
Theorem X10_reconcile_idempotent depth body data data' :
  reconcile depth body data = Returns data' ->
  reconcile depth body data' = Returns data'.
Proof.
  intros H.
  apply reconcile_shape in H
    as (d & choice & rest & parsed & -> & Hch & _ & _ & Hparsed & ->).
  unfold augmented.
  set (refusal := refusal_for body parsed).
  set (msg := message_of choice).
  set (kw' := dict_set (dict_set (kwargs_of msg) K.parsed parsed)
                K.refusal refusal).
  set (msg' := dict_set msg K.additional_kwargs (VDict kw')).
  set (choice' := dict_set choice K.message (VDict msg')).
  set (d' := dict_set d K.choices (VList (VDict choice' :: rest))).
  assert (Hd' : dict_get d' K.choices = Some (VList (VDict choice' :: rest)))
    by apply dict_get_set_same.
  assert (Hc' : dict_get choice' K.message = Some (VDict msg'))
    by apply dict_get_set_same.
  assert (Hm' : dict_get msg' K.additional_kwargs = Some (VDict kw'))
    by apply dict_get_set_same.
  assert (Hr' : dict_get kw' K.refusal = Some refusal)
    by apply dict_get_set_same.
  assert (Hp' : dict_get kw' K.parsed = Some parsed).
  { unfold kw'. rewrite dict_get_set_other by (vm_compute; discriminate).
    apply dict_get_set_same. }
  unfold reconcile, py_getitem. rewrite Hd'. cbn [and_then py_getitem0].
  rewrite (unpack_content_message choice') by eauto.
  assert (Emsg : message_of choice' = msg')
    by (unfold message_of; rewrite Hc'; reflexivity).
  rewrite Emsg. unfold msg' at 1. rewrite first_payload_kwargs.
  cbn [and_then]. fold (extraction depth (first_payload msg)).
  fold msg in Hparsed. rewrite Hparsed. cbn [and_then].
  fold (requested_format body). fold (refusal_for body parsed). fold refusal.
  unfold py_setdefault. rewrite Hc'. cbn [and_then]. rewrite Hm'.
  cbn [and_then py_update fold_left fst snd].
  rewrite (dict_set_same kw' K.parsed parsed Hp').
  rewrite (dict_set_same kw' K.refusal refusal Hr').
  rewrite (dict_set_same msg' K.additional_kwargs (VDict kw') Hm').
  rewrite (dict_set_same choice' K.message (VDict msg') Hc').
  rewrite (dict_set_same d' K.choices _ Hd').
  reflexivity.
Qed.

Lemma X10_reconcile_idempotent_witness :
  reconcile 1000 json_object_request prose_reply_augmented
  = Returns prose_reply_augmented.
Proof.
  apply (X10_reconcile_idempotent 1000 json_object_request (VDict prose_reply)).
  vm_compute. reflexivity.
Defined.

(** ** [chat_completions] *)

Lemma utf8_decode_raises_upto n : forall bs e,
  (List.length bs <= n)%nat ->
  utf8_decode bs = Raises e -> e = UnicodeDecodeError.
Proof.
  induction n as [|n IH]; intros bs e Hlen H.
  { destruct bs; [discriminate|simpl in Hlen; lia]. }
  destruct bs as [|b0 r0]; [discriminate|]. simpl in H, Hlen.
  assert (Hrec : forall r (k : str -> outcome str),
             (List.length r <= n)%nat ->
             (forall cs, k cs <> Raises e) ->
             and_then (utf8_decode r) k = Raises e -> e = UnicodeDecodeError).
  { intros r k Hr Hk Hb. apply and_then_raises in Hb as [Hb|(cs & _ & Hb)].
    - exact (IH r e Hr Hb).
    - exfalso. exact (Hk cs Hb). }
  destruct (b0 <? 128).
  { apply Hrec in H; [exact H|lia|discriminate]. }
  destruct (between 194 b0 223).
  { destruct r0 as [|b1 r1]; [injection H as <-; reflexivity|].
    destruct (is_cont b1); [|injection H as <-; reflexivity].
    apply Hrec in H; [exact H|simpl in Hlen; lia|discriminate]. }
  destruct (between 224 b0 239).
  { destruct r0 as [|b1 [|b2 r2]]; try (injection H as <-; reflexivity).
    destruct (_ && _); [|injection H as <-; reflexivity].
    apply Hrec in H; [exact H|simpl in Hlen; lia|discriminate]. }
  destruct (between 240 b0 244).
  { destruct r0 as [|b1 [|b2 [|b3 r3]]]; try (injection H as <-; reflexivity).
    destruct (_ && _); [|injection H as <-; reflexivity].
    apply Hrec in H; [exact H|simpl in Hlen; lia|discriminate]. }
  injection H as <-. reflexivity.
Qed.

Lemma unpack_content_raises choice e :
  _unpack_content choice = Raises e -> shape_error e.
Proof.
  destruct choice as [| | | | | |c]; try (intros [= <-]; exact I).
  unfold _unpack_content, py_get. cbn [and_then].
  destruct (match dict_get c K.message with
            | Some x => x
            | None => VDict []
            end) as [| | | | s |l|m];
    try (intros [= <-]; exact I); cbn [py_contains and_then py_getitem].
  - destruct (str_contains K.content s); [intros [= <-]; exact I|].
    destruct (str_contains K.tool_calls s); [intros [= <-]; exact I|].
    destruct (str_contains K.function_call s); [intros [= <-]; exact I|].
    discriminate.
  - destruct (existsb _ l); [intros [= <-]; exact I|].
    destruct (existsb _ l); [intros [= <-]; exact I|].
    destruct (existsb _ l); [intros [= <-]; exact I|].
    discriminate.
  - unfold dict_mem.
    destruct (dict_get m K.content); [discriminate|].
    destruct (dict_get m K.tool_calls); [discriminate|].
    destruct (dict_get m K.function_call); discriminate.
Qed.

Lemma py_getitem_raises v k e : py_getitem v k = Raises e -> shape_error e.
Proof.
  destruct v; simpl; try (intros [= <-]; exact I).
  destruct (dict_get d k); [discriminate|]. intros [= <-]. exact I.
Qed.

Lemma py_getitem0_raises v e : py_getitem0 v = Raises e -> shape_error e.
Proof.
  destruct v as [| | | |[|c s]|[|x l]|]; simpl; try discriminate;
    intros [= <-]; exact I.
Qed.

Lemma py_setdefault_raises v k e :
  py_setdefault v k = Raises e -> shape_error e.
Proof.
  destruct v; simpl; try (intros [= <-]; exact I).
  destruct (dict_get d k); discriminate.
Qed.

Lemma py_update_raises v other e :
  py_update v other = Raises e -> shape_error e.
Proof.
  destruct v; simpl; intros H; try discriminate; injection H as <-; exact I.
Qed.

Lemma _extract_first_json_raises depth blob e :
  _extract_first_json depth blob = Raises e ->
  e = ValueError \/ e = RecursionError.
Proof.
  intros H.
  destruct (_extract_first_json_outcomes depth blob)
    as [(r & Hr & _)|[Hr|Hr]]; rewrite Hr in H.
  - discriminate.
  - injection H as <-. left. reflexivity.
  - injection H as <-. right. reflexivity.
Qed.

Lemma render_raises data e :
  render data = Raises e -> e = ValueError \/ e = UnicodeEncodeError.
Proof.
  unfold render. destruct (negb (numbers_render data)).
  - intros [= <-]. left. reflexivity.
  - destruct (negb (all_encodable data)); [|discriminate].
    intros [= <-]. right. reflexivity.
Qed.

(** All that [reconcile] can raise comes from a reply of unexpected
    shape, or from the extraction past the limits of the interpreter. *)
Lemma reconcile_raises depth body data e :
  reconcile depth body data = Raises e ->
  shape_error e \/ e = ValueError \/ e = RecursionError.
Proof.
  unfold reconcile. intros H.
  apply and_then_raises in H as [H|(choices & _ & H)];
    [left; exact (py_getitem_raises _ _ _ H)|].
  apply and_then_raises in H as [H|(choice0 & _ & H)];
    [left; exact (py_getitem0_raises _ _ H)|].
  apply and_then_raises in H as [H|(raw & _ & H)];
    [left; exact (unpack_content_raises _ _ H)|].
  apply and_then_raises in H as [H|(parsed & _ & H)].
  { destruct raw; try discriminate. right.
    exact (_extract_first_json_raises _ _ _ H). }
  left.
  apply and_then_raises in H as [H|([choice1 message] & _ & H)];
    [exact (py_setdefault_raises _ _ _ H)|].
  apply and_then_raises in H as [H|([message1 kwargs] & _ & H)];
    [exact (py_setdefault_raises _ _ _ H)|].
  apply and_then_raises in H as [H|(kwargs1 & _ & H)];
    [exact (py_update_raises _ _ _ H)|].
  apply and_then_raises in H as [H|(message2 & _ & H)];
    [exact (py_update_raises _ _ _ H)|].
  apply and_then_raises in H as [H|(choice2 & _ & H)];
    [exact (py_update_raises _ _ _ H)|].
  destruct data; try (injection H as <-; exact I).
  destruct choices as [| | | | |[|x l]|]; try (injection H as <-; exact I).
  discriminate.
Qed.

(** The endpoint on a dictionary body, with the transformer's two results
    named. *)
Lemma chat_completions_dict float_repr depth post body :
  chat_completions float_repr depth post (VDict body)
  = let body' := fst (_inject_json_schema_prompt float_repr body) in
    and_then (snd (_inject_json_schema_prompt float_repr body))
      (fun _ =>
         if stream_requested body then
           Returns (StreamingResponse (relay body') event_stream 200)
         else if negb (status_code (post body') =? 200)%Z then
           and_then (utf8_decode (aread (post body')))
             (fun detail =>
                Raises (HTTPException (status_code (post body')) detail))
         else
           and_then (json (post body'))
             (fun data =>
                and_then (reconcile depth body' data)
                  (fun data =>
                     and_then (render data)
                       (fun _ => Returns (JSONResponse data 200))))).
Proof.
  unfold chat_completions, py_get, stream_requested. cbn [and_then].
  destruct (_inject_json_schema_prompt float_repr body) as [body' r].
  cbn [fst snd]. destruct r as [[]| |]; cbn [and_then]; try reflexivity.
  destruct (truthy _); reflexivity.
Qed.

(** X11: the endpoint answers with a stream only when the caller's
    [stream] is truthy, and then the stream is the inner generator opened
    on the transformed body, with media type [text/event-stream] and
    status 200; the branch that would return [_relay_stream(resp)] after
    the status check is never taken. *)
Theorem X11_stream_only_when_requested
    float_repr depth post request content media status :
  chat_completions float_repr depth post request
    = Returns (StreamingResponse content media status) ->
  exists body,
    request = VDict body
    /\ stream_requested body = true
    /\ snd (_inject_json_schema_prompt float_repr body) = Returns tt
    /\ content = relay (fst (_inject_json_schema_prompt float_repr body))
    /\ media = event_stream
    /\ status = 200%Z.
Proof.
  intros H.
  destruct request as [| | | | | |body]; try discriminate.
  exists body. rewrite chat_completions_dict in H. cbv zeta in H.
  apply and_then_returns in H as ([] & Hinj & H).
  destruct (stream_requested body).
  - injection H as <- <- <-.
    repeat (split; [first [reflexivity|assumption]|]);
      first [reflexivity|assumption].
  - exfalso. destruct (negb _).
    + apply and_then_returns in H as (detail & _ & H). discriminate.
    + apply and_then_returns in H as (data & _ & H).
      apply and_then_returns in H as (data' & _ & H).
      apply and_then_returns in H as (_ & _ & H). discriminate.
Qed.

Lemma X11_stream_only_when_requested_witness :
  stream_requested streamed_request = true.
Proof.
  destruct (X11_stream_only_when_requested float_repr_unused 1000
              (fun _ => unavailable) (VDict streamed_request)
              (relay streamed_request) event_stream 200 eq_refl)
    as (body & Hbody & Hstream & _).
  injection Hbody as <-. exact Hstream.
Defined.

(** X12: a JSON reply of the endpoint always has status 200, and it is
    what the reconciler made of the JSON body of an upstream answer with
    status 200 to the transformed request; the caller had not asked for a
    stream. *)
Theorem X12_json_reply_comes_from_upstream
    float_repr depth post request data status :
  chat_completions float_repr depth post request
    = Returns (JSONResponse data status) ->
  exists body upstream_data,
    request = VDict body
    /\ stream_requested body = false
    /\ snd (_inject_json_schema_prompt float_repr body) = Returns tt
    /\ status_code (post (fst (_inject_json_schema_prompt float_repr body)))
       = 200%Z
    /\ json (post (fst (_inject_json_schema_prompt float_repr body)))
       = Returns upstream_data
    /\ reconcile depth (fst (_inject_json_schema_prompt float_repr body))
         upstream_data = Returns data
    /\ render data = Returns tt
    /\ status = 200%Z.
Proof.
  intros H.
  destruct request as [| | | | | |body]; try discriminate.
  rewrite chat_completions_dict in H. cbv zeta in H.
  apply and_then_returns in H as ([] & Hinj & H).
  destruct (stream_requested body) eqn:Es; [discriminate|].
  destruct (Z.eqb_spec
              (status_code
                 (post (fst (_inject_json_schema_prompt float_repr body))))
              200) as [E|E]; cbn [negb] in H.
  - apply and_then_returns in H as (up & Hjson & H).
    apply and_then_returns in H as (data' & Hrec & H).
    apply and_then_returns in H as ([] & Hrender & H).
    injection H as <- <-. exists body, up.
    repeat (split; [first [reflexivity|assumption]|]); reflexivity.
  - apply and_then_returns in H as (detail & _ & H). discriminate.
Qed.

Lemma X12_json_reply_comes_from_upstream_witness :
  reconcile 1000
    (fst (_inject_json_schema_prompt float_repr_unused json_object_request))
    (VDict prose_reply)
  = Returns
      (returned
         (reconcile 1000
            (fst (_inject_json_schema_prompt float_repr_unused
                    json_object_request))
            (VDict prose_reply))).
Proof.
  destruct (X12_json_reply_comes_from_upstream float_repr_unused 1000
              (fun _ => prose_response) (VDict json_object_request)
              (returned
                 (reconcile 1000
                    (fst (_inject_json_schema_prompt float_repr_unused
                            json_object_request))
                    (VDict prose_reply)))
              200)
    as (body & up & Hbody & _ & _ & _ & Hjson & Hrec & _).
  { vm_compute. reflexivity. }
  injection Hbody as <-. simpl in Hjson. injection Hjson as <-.
  exact Hrec.
Defined.

(** X13: provided [resp.json()] itself does not raise an [HTTPException],
    the endpoint raises one only on the non-streaming path, for an
    upstream status other than 200, with that status and the decoded
    upstream body. *)
Theorem X13_HTTPException_only_for_upstream_status
    float_repr depth post request status detail :
  (forall body code text, json (post body) <> Raises (HTTPException code text)) ->
  chat_completions float_repr depth post request
    = Raises (HTTPException status detail) ->
  exists body,
    request = VDict body
    /\ stream_requested body = false
    /\ snd (_inject_json_schema_prompt float_repr body) = Returns tt
    /\ status_code (post (fst (_inject_json_schema_prompt float_repr body)))
       = status
    /\ status <> 200%Z
    /\ utf8_decode
         (aread (post (fst (_inject_json_schema_prompt float_repr body))))
       = Returns detail.
Proof.
  intros Hjson H.
  destruct request as [| | | | | |body]; try discriminate.
  exists body. rewrite chat_completions_dict in H. cbv zeta in H.
  apply and_then_raises in H as [H|([] & Hinj & H)].
  { apply inject_raises in H. destruct H as [H|[H|[k H]]]; discriminate. }
  destruct (stream_requested body); [discriminate|].
  destruct (Z.eqb_spec
              (status_code
                 (post (fst (_inject_json_schema_prompt float_repr body))))
              200) as [E|E]; cbn [negb] in H.
  - exfalso. apply and_then_raises in H as [H|(up & _ & H)].
    + exact (Hjson _ _ _ H).
    + apply and_then_raises in H as [H|(data' & _ & H)].
      * apply reconcile_raises in H as [H|[H|H]];
          [exact H|discriminate|discriminate].
      * apply and_then_raises in H as [H|(_ & _ & H)]; [|discriminate].
        apply render_raises in H as [H|H]; discriminate.
  - apply and_then_raises in H as [H|(text & Htext & H)].
    + apply (utf8_decode_raises_upto _ _ _ (le_n _)) in H. discriminate.
    + injection H as <- <-.
      repeat (split; [first [reflexivity|assumption]|]);
      first [reflexivity|assumption].
Qed.

Lemma X13_HTTPException_only_for_upstream_status_witness :
  utf8_decode (aread unavailable) = Returns (u "upstream overloaded").
Proof.
  destruct (X13_HTTPException_only_for_upstream_status float_repr_unused
              1000 (fun _ => unavailable) (VDict json_object_request)
              503 (u "upstream overloaded"))
    as (body & _ & _ & _ & _ & _ & Hdetail).
  - intros body code text. discriminate.
  - vm_compute. reflexivity.
  - exact Hdetail.
Defined.

(** X14: the endpoint consults the upstream at most once, about the
    transformed body, which holds no [response_format]: two upstreams
    that answer that one body alike give the same outcome, and with a
    truthy [stream] the outcome does not depend on [client.post] at
    all. *)
Theorem X14_upstream_sees_the_transformed_body
    float_repr depth post post' body :
  (stream_requested body = false ->
   post (fst (_inject_json_schema_prompt float_repr body))
   = post' (fst (_inject_json_schema_prompt float_repr body))) ->
  chat_completions float_repr depth post (VDict body)
  = chat_completions float_repr depth post' (VDict body)
  /\ dict_get (fst (_inject_json_schema_prompt float_repr body))
       K.response_format = None.
Proof.
  intros Hpost. split.
  - rewrite !chat_completions_dict. cbv zeta.
    destruct (stream_requested body); [reflexivity|].
    rewrite (Hpost eq_refl). reflexivity.
  - pose proof (inject_removes_format float_repr body) as H.
    unfold requested_format in H.
    destruct (inject_shape float_repr body) as [E | [m E]]; rewrite E.
    + apply dict_get_del_same.
    + rewrite dict_get_set_other by (vm_compute; discriminate).
      apply dict_get_del_same.
Qed.

Lemma X14_upstream_sees_the_transformed_body_witness :
  chat_completions float_repr_unused 1000 strict_upstream
    (VDict json_object_request)
  = chat_completions float_repr_unused 1000 (fun _ => prose_response)
      (VDict json_object_request).
Proof.
  refine (proj1 (X14_upstream_sees_the_transformed_body float_repr_unused
                   1000 strict_upstream (fun _ => prose_response)
                   json_object_request _)).
  intros _. vm_compute. reflexivity.
Defined.

(** X15: on every JSON reply the endpoint returns, [refusal] is [None]:
    by the time the sync post-processing looks for [response_format] in
    the body, the transformer has removed it. *)
Theorem X15_endpoint_refusal_is_always_null
    float_repr depth post request data status :
  chat_completions float_repr depth post request
    = Returns (JSONResponse data status) ->
  additional_kwarg data K.refusal = Returns VNone.
Proof.
  intros H.
  destruct request as [| | | | | |body]; try discriminate.
  rewrite chat_completions_dict in H. cbv zeta in H.
  apply and_then_returns in H as ([] & _ & H).
  destruct (stream_requested body); [discriminate|].
  destruct (negb _).
  - apply and_then_returns in H as (detail & _ & H). discriminate.
  - apply and_then_returns in H as (up & _ & H).
    apply and_then_returns in H as (data' & Hrec & H).
    apply and_then_returns in H as (_ & _ & H).
    injection H as <- <-.
    apply reconcile_returns in Hrec
      as (_ & _ & _ & parsed & _ & _ & _ & _ & _ & Href).
    rewrite Href. unfold refusal_for.
    rewrite (inject_removes_format float_repr body). reflexivity.
Qed.

Lemma X15_endpoint_refusal_is_always_null_witness :
  additional_kwarg
    (returned
       (reconcile 1000
          (fst (_inject_json_schema_prompt float_repr_unused
                  json_object_request))
          (VDict prose_reply)))
    K.refusal
  = Returns VNone.
Proof.
  apply (X15_endpoint_refusal_is_always_null float_repr_unused 1000
           (fun _ => prose_response) (VDict json_object_request) _ 200).
  vm_compute. reflexivity.
Defined.

(** ** Objects inside what [_extract_first_json] returns *)

Lemma dict_nodes_list l : dict_nodes (VList l) = nodes_of_list l.
Proof.
  unfold nodes_of_list. induction l as [|x l IH]; [reflexivity|].
  simpl in *. rewrite IH. reflexivity.
Qed.

Lemma dict_nodes_dict d : dict_nodes (VDict d) = S (nodes_of_pairs d).
Proof.
  unfold nodes_of_pairs. f_equal. induction d as [|[k x] d IH]; [reflexivity|].
  simpl in *. injection IH as IH. rewrite IH. reflexivity.
Qed.

Lemma nodes_of_list_app a b :
  nodes_of_list (a ++ b) = (nodes_of_list a + nodes_of_list b)%nat.
Proof. unfold nodes_of_list. rewrite map_app, list_sum_app. reflexivity. Qed.

Lemma nodes_of_pairs_app a b :
  nodes_of_pairs (a ++ b) = (nodes_of_pairs a + nodes_of_pairs b)%nat.
Proof. unfold nodes_of_pairs. rewrite map_app, list_sum_app. reflexivity. Qed.

Lemma dict_set_nodes d k v :
  (nodes_of_pairs (dict_set d k v) <= nodes_of_pairs d + dict_nodes v)%nat.
Proof.
  unfold nodes_of_pairs. induction d as [|[k0 v0] d IH]; simpl; [lia|].
  destruct (str_eqb k0 k); simpl; lia.
Qed.

Lemma dict_of_pairs_nodes pairs :
  (nodes_of_pairs (dict_of_pairs pairs) <= nodes_of_pairs pairs)%nat.
Proof.
  unfold dict_of_pairs.
  assert (H : forall d,
             (nodes_of_pairs
                (fold_left (fun d kv => dict_set d (fst kv) (snd kv)) pairs d)
              <= nodes_of_pairs d + nodes_of_pairs pairs)%nat).
  { induction pairs as [|[k v] pairs IH]; intros d; simpl.
    - unfold nodes_of_pairs at 3. simpl. lia.
    - pose proof (IH (dict_set d k v)) as H1.
      pose proof (dict_set_nodes d k v) as H2.
      change (nodes_of_pairs ((k, v) :: pairs))
        with (dict_nodes v + nodes_of_pairs pairs)%nat.
      lia. }
  exact (H []).
Qed.

Lemma closing_app a b : closing (a ++ b) = (closing a + closing b)%nat.
Proof.
  induction a as [|c a IH]; simpl; [reflexivity|]. rewrite IH. lia.
Qed.

Lemma consumed_closing (P : str -> Prop) s rest :
  consumed P s rest -> (closing rest <= closing s)%nat.
Proof. intros (pre & -> & _). rewrite closing_app. lia. Qed.

Lemma skip_ws_closing s : (closing (skip_ws s) <= closing s)%nat.
Proof. exact (consumed_closing _ _ _ (skip_ws_consumed s)). Qed.

Lemma closing_cons c s : (closing s <= closing (c :: s))%nat.
Proof. simpl. lia. Qed.

Section NodeFacts.

Variable scan : str -> outcome (value * str).

Hypothesis scan_nodes : forall s v rest,
  scan s = Returns (v, rest) -> (dict_nodes v + closing rest <= closing s)%nat.

Lemma expecting_value_nodes s v rest :
  expecting_value scan s = Returns (v, rest) ->
  (dict_nodes v + closing rest <= closing s)%nat.
Proof.
  unfold expecting_value. intros H. apply scan_nodes.
  destruct (scan s) as [?|[]|]; try discriminate; exact H.
Qed.

Lemma JSONArray_loop_nodes n : forall s values v rest,
  JSONArray_loop scan n s values = Returns (v, rest) ->
  (dict_nodes v + closing rest <= nodes_of_list values + closing s)%nat.
Proof.
  induction n as [|n IH]; intros s values v rest H; [discriminate|].
  simpl in H. apply and_then_returns in H as ([v1 s1] & Hv & H).
  apply expecting_value_nodes in Hv.
  pose proof (skip_ws_closing s1) as Hws.
  destruct (skip_ws s1) as [|c s2]; [discriminate|].
  pose proof (closing_cons c s2) as Hc.
  destruct (c =? Ch.rbracket).
  - injection H as <- <-.
    rewrite dict_nodes_list, nodes_of_list_app.
    unfold nodes_of_list at 2. simpl. lia.
  - destruct (c =? Ch.comma); [|discriminate].
    apply IH in H. rewrite nodes_of_list_app in H.
    unfold nodes_of_list at 2 in H. simpl in H.
    pose proof (skip_ws_closing s2). lia.
Qed.

Lemma JSONArray_nodes n s v rest :
  JSONArray scan n s = Returns (v, rest) ->
  (dict_nodes v + closing rest <= closing s)%nat.
Proof.
  unfold JSONArray. intros H.
  pose proof (skip_ws_closing s) as Hws.
  destruct (skip_ws s) as [|c s1].
  - apply JSONArray_loop_nodes in H. unfold nodes_of_list in H. simpl in H. lia.
  - pose proof (closing_cons c s1) as Hc.
    destruct (c =? Ch.rbracket).
    + injection H as <- <-. change (dict_nodes (VList [])) with 0%nat. lia.
    + apply JSONArray_loop_nodes in H.
      change (nodes_of_list []) with 0%nat in H. lia.
Qed.

Lemma JSONObject_loop_nodes n : forall s pairs v rest,
  JSONObject_loop scan n s pairs = Returns (v, rest) ->
  (dict_nodes v + closing rest <= nodes_of_pairs pairs + closing s)%nat.
Proof.
  induction n as [|n IH]; intros s pairs v rest H; [discriminate|].
  simpl in H. apply and_then_returns in H as ([key s1] & Hkey & H).
  apply scanstring_consumed, consumed_closing in Hkey.
  pose proof (skip_ws_closing s1) as Hws1.
  destruct (skip_ws s1) as [|c s2]; [discriminate|].
  pose proof (closing_cons c s2) as Hc.
  destruct (c =? Ch.colon); [|discriminate].
  apply and_then_returns in H as ([v1 s3] & Hv & H).
  apply expecting_value_nodes in Hv.
  pose proof (skip_ws_closing s2) as Hws2.
  pose proof (skip_ws_closing s3) as Hws3.
  destruct (skip_ws s3) as [|c' s4]; [discriminate|].
  destruct (N.eqb_spec c' Ch.rbrace) as [->|_].
  - injection H as <- <-. rewrite dict_nodes_dict.
    pose proof (dict_of_pairs_nodes (pairs ++ [(key, v1)])) as Hd.
    rewrite nodes_of_pairs_app in Hd.
    unfold nodes_of_pairs at 3 in Hd. simpl in Hd, Hws3. lia.
  - pose proof (closing_cons c' s4) as Hc'.
    destruct (c' =? Ch.comma); [|discriminate].
    pose proof (skip_ws_closing s4) as Hws4.
    destruct (skip_ws s4) as [|x s5]; [discriminate|].
    pose proof (closing_cons x s5) as Hx.
    destruct (x =? Ch.dquote); [|discriminate].
    apply IH in H. rewrite nodes_of_pairs_app in H.
    unfold nodes_of_pairs at 2 in H. simpl in H. lia.
Qed.

Lemma JSONObject_nodes n s v rest :
  JSONObject scan n s = Returns (v, rest) ->
  (dict_nodes v + closing rest <= closing s)%nat.
Proof.
  unfold JSONObject. intros H.
  pose proof (skip_ws_closing s) as Hws.
  destruct (skip_ws s) as [|c s1]; [discriminate|].
  destruct (N.eqb_spec c Ch.rbrace) as [->|_].
  - injection H as <- <-. simpl in *. lia.
  - pose proof (closing_cons c s1) as Hc.
    destruct (c =? Ch.dquote); [|discriminate].
    apply JSONObject_loop_nodes in H. unfold nodes_of_pairs in H.
    simpl in H. lia.
Qed.

End NodeFacts.

Lemma match_number_nodes s v r :
  match_number s = Some (Returns v, r) -> dict_nodes v = 0%nat.
Proof.
  unfold match_number.
  destruct (match s with
            | [] => (false, s)
            | c :: s' => if c =? Ch.minus then (true, s') else (false, s)
            end) as [neg s0].
  destruct (match_integer s0) as [[integer s1]|]; [|discriminate].
  destruct (match_frac s1) as [frac s2].
  destruct (match_exp s2) as [exp s3].
  unfold parse_int.
  destruct frac, exp; try (intros [= <- _]; reflexivity).
  destruct (_ <? _)%nat; [discriminate|]. intros [= <- _]. reflexivity.
Qed.

(** Every dictionary the scanner builds has cost the text it read one
    closing brace. *)
Lemma scan_once_nodes f : forall depth s v rest,
  scan_once f depth s = Returns (v, rest) ->
  (dict_nodes v + closing rest <= closing s)%nat.
Proof.
  induction f as [|f IH]; intros depth s v rest H; [discriminate|].
  pose proof (consumed_closing _ _ _ (scan_once_consumed _ _ _ _ _ H))
    as Hrest.
  destruct s as [|c s1]; [discriminate|].
  cbn [scan_once] in H.
  destruct (c =? Ch.dquote).
  { apply and_then_returns in H as ([chars rest'] & _ & H).
    injection H as <- _. exact Hrest. }
  destruct (c =? Ch.lbrace).
  { destruct depth as [|d]; [discriminate|].
    apply (JSONObject_nodes _ (IH d)) in H.
    pose proof (closing_cons c s1). lia. }
  destruct (c =? Ch.lbracket).
  { destruct depth as [|d]; [discriminate|].
    apply (JSONArray_nodes _ (IH d)) in H.
    pose proof (closing_cons c s1). lia. }
  destruct (drop_prefix (u "null") (c :: s1));
    [injection H as <- _; exact Hrest|].
  destruct (drop_prefix (u "true") (c :: s1));
    [injection H as <- _; exact Hrest|].
  destruct (drop_prefix (u "false") (c :: s1));
    [injection H as <- _; exact Hrest|].
  destruct (match_number (c :: s1)) as [[number r]|] eqn:En.
  { apply and_then_returns in H as (v' & Hn & H). subst number.
    injection H as <- _.
    pose proof (match_number_nodes _ _ _ En) as Hv.
    rewrite Hv. exact Hrest. }
  destruct (drop_prefix (u "NaN") (c :: s1));
    [injection H as <- _; exact Hrest|].
  destruct (drop_prefix (u "Infinity") (c :: s1));
    [injection H as <- _; exact Hrest|].
  destruct (drop_prefix (u "-Infinity") (c :: s1));
    [injection H as <- _; exact Hrest|].
  discriminate.
Qed.

Lemma json_loads_nodes depth s v :
  json_loads depth s = Returns v -> (dict_nodes v <= closing s)%nat.
Proof.
  unfold json_loads. intros H.
  apply and_then_returns in H as ([obj rest] & Hraw & H).
  destruct (skip_ws rest); [|discriminate]. injection H as <-.
  unfold raw_decode in Hraw.
  apply (expecting_value_nodes _ (scan_once_nodes _ _)) in Hraw.
  pose proof (skip_ws_closing s). lia.
Qed.

Lemma closing_absent s : ~ In Ch.rbrace s -> closing s = 0%nat.
Proof.
  induction s as [|c s IH]; intros H; [reflexivity|]. simpl.
  rewrite IH by (intros Hin; apply H; right; exact Hin).
  destruct (N.eqb_spec c Ch.rbrace) as [->|_]; [|reflexivity].
  exfalso. apply H. left. reflexivity.
Qed.

Lemma nodes_of_pairs_zero d :
  nodes_of_pairs d = 0%nat -> forall k x, In (k, x) d -> dict_nodes x = 0%nat.
Proof.
  unfold nodes_of_pairs. induction d as [|[k0 x0] d IH]; simpl; intros H k x Hin.
  - contradiction.
  - destruct Hin as [[= <- <-]|Hin]; [lia|].
    apply (IH ltac:(lia) k x Hin).
Qed.

(** X16: the object [_extract_first_json] returns is flat: none of its
    values is or holds an object, at any depth of arrays.  The match of
    [_JSON_RE] has one closing brace, and a decoder spends one per
    object. *)
Theorem X16_extracted_object_is_flat depth blob d :
  _extract_first_json depth blob = Returns (VDict d) ->
  forall k x, In (k, x) d -> dict_nodes x = 0%nat.
Proof.
  intros H. apply nodes_of_pairs_zero.
  apply _extract_first_json_returns in H.
  destruct (_JSON_RE_search blob) as [m|] eqn:Es; [|discriminate].
  destruct (json_loads depth m) as [v| |] eqn:El; try discriminate. subst v.
  apply json_loads_nodes in El. rewrite dict_nodes_dict in El.
  apply _JSON_RE_search_some in Es as (pre & mid & post & _ & -> & _ & Hmid).
  change (closing (Ch.lbrace :: mid ++ [Ch.rbrace]))
    with (closing (mid ++ [Ch.rbrace])) in El.
  rewrite closing_app, (closing_absent _ Hmid) in El. simpl in El. lia.
Qed.

Lemma X16_extracted_object_is_flat_witness :
  dict_nodes (VList [VInt 1; VList [VStr (u "x")]]) = 0%nat.
Proof.
  refine (X16_extracted_object_is_flat 1000
            (q "Sure: {'a': [1, ['x']], 'b': null} and {'c': {}}")
            [(u "a", VList [VInt 1; VList [VStr (u "x")]]); (u "b", VNone)]
            _ (u "a") _ _).
  - vm_compute. reflexivity.
  - left. reflexivity.
Defined.

(** ** More on streaming and on errors *)

(** X17: whatever has passed over the wire before, [_relay_stream] opens
    no upstream call of its own, keeps the log as it is and appends to it
    every chunk still to come, each put to the caller right after it was
    got; it ends when the upstream has nothing more. *)
Theorem X17_relay_stream_drains_the_upstream w :
  eutt eq (interp_state h_stream _relay_stream w)
          (Ret (Wire (sent w) [] (log w ++ lockstep (pending w)), tt))
  /\ emitted (log w ++ lockstep (pending w)) = emitted (log w) ++ pending w.
Proof.
  split.
  - destruct w as [s chunks l]. apply _relay_stream_run.
  - unfold emitted at 1. rewrite flat_map_app.
    fold (emitted (log w)). fold (emitted (lockstep (pending w))).
    rewrite emitted_lockstep. reflexivity.
Qed.

Lemma utf8_decode_ascii bs :
  forallb ascii_byte bs = true -> utf8_decode bs = Returns bs.
Proof.
  induction bs as [|b bs IH]; simpl; intros H; [reflexivity|].
  apply andb_prop in H as [Hb Hbs]. unfold ascii_byte in Hb.
  rewrite Hb, (IH Hbs). reflexivity.
Qed.

(** X18: when the upstream's error body is plain ASCII, the detail of the
    [HTTPException] is that body, character for byte. *)
Theorem X18_ascii_error_body_is_the_detail float_repr depth post body :
  stream_requested body = false ->
  snd (_inject_json_schema_prompt float_repr body) = Returns tt ->
  status_code (post (fst (_inject_json_schema_prompt float_repr body)))
    <> 200%Z ->
  forallb ascii_byte
    (aread (post (fst (_inject_json_schema_prompt float_repr body)))) = true ->
  chat_completions float_repr depth post (VDict body)
  = Raises
      (HTTPException
         (status_code (post (fst (_inject_json_schema_prompt float_repr body))))
         (aread (post (fst (_inject_json_schema_prompt float_repr body))))).
Proof.
  intros Hstream Hinj Hstatus Hascii.
  rewrite chat_completions_dict. cbv zeta.
  rewrite Hinj, Hstream. cbn [and_then].
  destruct (Z.eqb_spec
              (status_code
                 (post (fst (_inject_json_schema_prompt float_repr body))))
              200) as [E|_]; [contradiction|].
  cbn [negb]. rewrite (utf8_decode_ascii _ Hascii). reflexivity.
Qed.

Lemma X18_ascii_error_body_is_the_detail_witness :
  chat_completions float_repr_unused 1000 (fun _ => rate_limited)
    (VDict json_object_request)
  = Raises (HTTPException 429 (q "{'error':'rate limit'}")).
Proof.
  refine (X18_ascii_error_body_is_the_detail float_repr_unused 1000
            (fun _ => rate_limited) json_object_request
            eq_refl eq_refl _ eq_refl).
  simpl. discriminate.
Defined.




(** ** The reply of the sync path *)



(** X21: an error of the extraction reaches the caller.  When the content
    picked from [choices[0]] is a string on which [_extract_first_json]
    raises, the endpoint raises the same error, [ValueError] or
    [RecursionError], in place of a reply. *)
Theorem X21_extraction_errors_reach_the_caller
    float_repr depth post body data choices choice0 blob e :
  stream_requested body = false ->
  snd (_inject_json_schema_prompt float_repr body) = Returns tt ->
  status_code (post (fst (_inject_json_schema_prompt float_repr body)))
    = 200%Z ->
  json (post (fst (_inject_json_schema_prompt float_repr body)))
    = Returns data ->
  py_getitem data K.choices = Returns choices ->
  py_getitem0 choices = Returns choice0 ->
  _unpack_content choice0 = Returns (VStr blob) ->
  _extract_first_json depth blob = Raises e ->
  chat_completions float_repr depth post (VDict body) = Raises e
  /\ (e = ValueError \/ e = RecursionError).
Proof.
  intros Hstream Hinj Hstatus Hjson Hch Hc0 Hraw He.
  split; [|exact (_extract_first_json_raises _ _ _ He)].
  rewrite chat_completions_dict. cbv zeta.
  rewrite Hinj, Hstream, Hstatus, Z.eqb_refl, Hjson. cbn [and_then negb].
  unfold reconcile. rewrite Hch. cbn [and_then].
  rewrite Hc0. cbn [and_then]. rewrite Hraw. cbn [and_then].
  rewrite He. reflexivity.
Qed.

Lemma X21_extraction_errors_reach_the_caller_witness :
  chat_completions float_repr_unused 1000
    (fun _ => long_integer_response) (VDict json_object_request)
  = Raises ValueError.
Proof.
  refine (proj1 (X21_extraction_errors_reach_the_caller float_repr_unused
                   1000 (fun _ => long_integer_response) json_object_request
                   (VDict long_integer_reply)
                   (VList [VDict long_integer_choice])
                   (VDict long_integer_choice) long_integer_blob ValueError
                   eq_refl eq_refl eq_refl eq_refl eq_refl eq_refl eq_refl
                   _)).
  vm_compute. reflexivity.
Defined.
